(** * Luster backend: the chat subsystem

    A shallow embedding of the chat store ([ChatService], file
    [fastapi_app/routers/chat/chat_service.py]), of the HTTP handlers that
    drive it ([fastapi_app/routers/chat/chat.py]) and of the in-process
    connection registry ([fastapi_app/utils/websocket_manager.py]).

    Conventions of the embedding.
    - A MongoDB collection is the list of its documents in natural
      (insertion) order; [find_one] and [update_one] act on the first
      document that satisfies the filter, [update_many] on all of them.
      The [chat_messages] collection carries no secondary index (the index
      script addresses another collection, [db.messages]), so a filter that
      is not on [_id] alone is answered by a scan in that order.
    - A document is a record; a field that the code reads with a default
      ([msg.get("read_by", [])], [message.get("reactions", {})]) is stored
      as that default when it is absent.
    - [datetime.utcnow()] and the [_id] chosen by the driver on insertion
      are explicit arguments; the readings of the clock inside one service
      call share one argument.
    - A Python [set] is the duplicate-free list of its elements in
      iteration order; a [dict] whose order is never observed is a [gmap].
    - An [async def] that can raise is a state transformer returning a
      [result]; the state it leaves behind is kept in both outcomes. *)

From Stdlib Require Import ZArith Ascii Sorted.
From stdpp Require Import base decidable option list gmap strings pretty.

Local Open Scope string_scope.
Local Open Scope list_scope.

(** ** Python values *)

(** [Union[int, str]]: user ids are integers, dealer ids and everything
    that went through [str(...)] are strings.  MongoDB and Python both keep
    the two apart: [5 == "5"] is false. *)
Inductive ident :=
  | IdInt (n : Z)
  | IdStr (s : string).

#[global] Instance ident_eq_dec : EqDecision ident.
Proof. solve_decision. Defined.

(** [str(x)] *)
Definition py_str (x : ident) : string :=
  match x with
  | IdInt n => pretty n
  | IdStr s => s
  end.

(** [f"{user_type}_{user_id}"] *)
Definition participant_key (user_type : string) (user_id : ident) : string :=
  user_type +:+ "_" +:+ py_str user_id.

Definition time := Z.

(** ** Exceptions and results *)

Inductive exn :=
  | HTTPException (status_code : Z) (detail : detail)
  | ValueError (msg : detail)
  | InvalidId (s : string)
  | RuntimeError (msg : string)
  | ConnectionClosed
  | TypeError (msg : string)
with detail :=
  | Lit (s : string)
    (** [f"{prefix}{str(e)}"] *)
  | Fmt (prefix : string) (e : exn)
    (** [f"Users {ids} are not participants in this chat"] *)
  | FmtIds (prefix : string) (ids : list ident) (suffix : string)
    (** [str(errors)] for a list of exceptions *)
  | Errors (errors : list exn).

Inductive result (A : Type) :=
  | Ok (a : A)
  | Raise (e : exn).
Arguments Ok {A} a.
Arguments Raise {A} e.

Definition is_ok {A} (r : result A) : bool :=
  match r with Ok _ => true | Raise _ => false end.

(** The status code a client receives. *)
Definition status_of {A} (r : result A) : option Z :=
  match r with
  | Ok _ => Some 200%Z
  | Raise (HTTPException c _) => Some c
  | Raise _ => None
  end.

(** A computation over a state [S] that may raise. *)
Definition M (S A : Type) : Type := S → result A * S.

Definition ret {S A} (a : A) : M S A := λ s, (Ok a, s).
Definition raise {S A} (e : exn) : M S A := λ s, (Raise e, s).
Definition bind {S A B} (m : M S A) (k : A → M S B) : M S B :=
  λ s, match m s with
       | (Ok a, s') => k a s'
       | (Raise e, s') => (Raise e, s')
       end.
(** [try: m  except Exception as e: h e] *)
Definition try_except {S A} (m : M S A) (h : exn → M S A) : M S A :=
  λ s, match m s with
       | (Ok a, s') => (Ok a, s')
       | (Raise e, s') => h e s'
       end.
(** An expression that returns or raises without touching the state. *)
Definition of_result {S A} (r : result A) : M S A := λ s, (r, s).
Definition get {S} : M S S := λ s, (Ok s, s).
Definition put {S} (s : S) : M S unit := λ _, (Ok tt, s).

Notation "'let!' x ':=' m 'in' k" := (bind m (λ x, k))
  (at level 10, x pattern, m at level 100, k at level 200, only parsing).
Notation "'do!' m 'in' k" := (bind m (λ _, k))
  (at level 10, m at level 100, k at level 200, only parsing).

(** ** [bson.ObjectId] *)

(** An [ObjectId] is kept as its 24-digit lower-case hexadecimal text,
    which is what [str(oid)] returns. *)
Definition oid := string.

Definition is_hex (c : ascii) : bool :=
  let n := nat_of_ascii c in
  (((48 <=? n) && (n <=? 57)) || ((97 <=? n) && (n <=? 102))
   || ((65 <=? n) && (n <=? 70)))%nat.

Definition lower_hex (c : ascii) : ascii :=
  let n := nat_of_ascii c in
  if ((65 <=? n) && (n <=? 70))%nat then ascii_of_nat (n + 32) else c.

Fixpoint string_forallb (p : ascii → bool) (s : string) : bool :=
  match s with
  | EmptyString => true
  | String c s' => p c && string_forallb p s'
  end.

Fixpoint string_map (f : ascii → ascii) (s : string) : string :=
  match s with
  | EmptyString => EmptyString
  | String c s' => String (f c) (string_map f s')
  end.

(** [ObjectId(s)]: raises [InvalidId] unless [s] is 24 hexadecimal digits. *)
Definition ObjectId (s : string) : result oid :=
  if (String.length s =? 24)%nat && string_forallb is_hex s
  then Ok (string_map lower_hex s)
  else Raise (InvalidId s).

(** ** MongoDB collection operations *)

Section Collection.
Context {D : Type} `{EqDecision D}.

(** [find_one(filter)] *)
Fixpoint find_one (filt : D → bool) (docs : list D) : option D :=
  match docs with
  | [] => None
  | d :: ds => if filt d then Some d else find_one filt ds
  end.

(** [update_one(filter, update)]: the first match is rewritten;
    the second component is [modified_count]. *)
Fixpoint update_one (filt : D → bool) (upd : D → D) (docs : list D)
  : list D * nat :=
  match docs with
  | [] => ([], 0)
  | d :: ds =>
      if filt d
      then (upd d :: ds, if decide (upd d = d) then 0 else 1)
      else let '(ds', n) := update_one filt upd ds in (d :: ds', n)
  end.

(** [update_many(filter, update)] *)
Fixpoint update_many (filt : D → bool) (upd : D → D) (docs : list D)
  : list D * nat :=
  match docs with
  | [] => ([], 0)
  | d :: ds =>
      let '(ds', n) := update_many filt upd ds in
      if filt d
      then (upd d :: ds', if decide (upd d = d) then n else S n)
      else (d :: ds', n)
  end.

(** [find(filter)] in natural order *)
Definition find_all (filt : D → bool) (docs : list D) : list D :=
  List.filter filt docs.

(** At most one document satisfies [filt]. *)
Fixpoint NoDup_by (filt : D → bool) (docs : list D) : Prop :=
  match docs with
  | [] => True
  | d :: ds =>
      if filt d then find_one filt ds = None else NoDup_by filt ds
  end.

(** [$addToSet] on an array field *)
Definition addToSet (x : D) (l : list D) : list D :=
  if decide (x ∈ l) then l else l ++ [x].
End Collection.

(** ** The connection registry ([ConnectionManager]) *)

Module Registry.

(** What a handler hands to [broadcast_to_chat]: the ["type"] of the
    event and the identifiers it carries. *)
Record payload := Event {
  ev_type : string;
  ev_chat_id : string;
  ev_ref : string
}.

(** A transport handle.  [send_json] on a closed transport raises;
    on an open one the payload is handed to the peer. *)
Record WebSocket := {
  ws_open : bool;
  ws_sent : list payload
}.

Definition send_json (ws : WebSocket) (msg : payload) : result WebSocket :=
  if ws_open ws
  then Ok {| ws_open := true; ws_sent := ws_sent ws ++ [msg] |}
  else Raise ConnectionClosed.

Record ConnectionManager := {
  active_connections : gmap string WebSocket;
  chat_rooms : gmap string (list string)
}.

(** [__init__] *)
Definition init : ConnectionManager :=
  {| active_connections := ∅; chat_rooms := ∅ |}.

(** [set.discard] *)
Definition discard (x : string) (s : list string) : list string :=
  List.filter (λ y, negb (bool_decide (y = x))) s.

(** [set.add] *)
Definition set_add (x : string) (s : list string) : list string :=
  if decide (x ∈ s) then s else s ++ [x].

Definition connect (ws : WebSocket) (connection_id : string)
    (m : ConnectionManager) : ConnectionManager :=
  {| active_connections := <[connection_id := ws]> (active_connections m);
     chat_rooms := chat_rooms m |}.

Definition disconnect (connection_id : string) (m : ConnectionManager)
    : ConnectionManager :=
  match active_connections m !! connection_id with
  | Some _ =>
      {| active_connections := delete connection_id (active_connections m);
         chat_rooms := discard connection_id <$> chat_rooms m |}
  | None => m
  end.

Definition join_chat (chat_id connection_id : string)
    (m : ConnectionManager) : ConnectionManager :=
  let room := default [] (chat_rooms m !! chat_id) in
  {| active_connections := active_connections m;
     chat_rooms := <[chat_id := set_add connection_id room]> (chat_rooms m) |}.

Definition leave_chat (chat_id connection_id : string)
    (m : ConnectionManager) : ConnectionManager :=
  match chat_rooms m !! chat_id with
  | Some room =>
      {| active_connections := active_connections m;
         chat_rooms := <[chat_id := discard connection_id room]> (chat_rooms m) |}
  | None => m
  end.

(** The body of the [for] loop of [broadcast_to_chat] for one
    [connection_id]. *)
Definition broadcast_body (msg : payload) (exclude_connection : option string)
    (connection_id : string) (m : ConnectionManager) : ConnectionManager :=
  if decide (Some connection_id = exclude_connection) then m
  else
    match active_connections m !! connection_id with
    | None => m
    | Some websocket =>
        match send_json websocket msg with
        | Ok websocket' =>
            {| active_connections :=
                 <[connection_id := websocket']> (active_connections m);
               chat_rooms := chat_rooms m |}
        | Raise _ => disconnect connection_id m
        end
    end.

(** [for connection_id in self.chat_rooms[chat_id]: ...].

    The loop holds an iterator over the room's set object.  Each request
    for the next element first compares the size of that set with the
    size recorded when the iterator was made and raises
    [RuntimeError: Set changed size during iteration] when they differ;
    only then does it look for a next element.  [used] is the recorded
    size, [todo] the elements not yet visited. *)
Fixpoint broadcast_loop (chat_id : string) (msg : payload)
    (exclude_connection : option string) (used : nat) (todo : list string)
    : M ConnectionManager unit :=
  λ m,
    if negb (length (default [] (chat_rooms m !! chat_id)) =? used)%nat
    then (Raise (RuntimeError "Set changed size during iteration"), m)
    else
      match todo with
      | [] => (Ok tt, m)
      | connection_id :: rest =>
          broadcast_loop chat_id msg exclude_connection used rest
            (broadcast_body msg exclude_connection connection_id m)
      end.

Definition broadcast_to_chat (chat_id : string) (msg : payload)
    (exclude_connection : option string) : M ConnectionManager unit :=
  λ m,
    match chat_rooms m !! chat_id with
    | Some room =>
        broadcast_loop chat_id msg exclude_connection (length room) room m
    | None => (Ok tt, m)
    end.

(** What the peer behind [connection_id] has been sent so far. *)
Definition delivered (m : ConnectionManager) (connection_id : string)
    : list payload :=
  match active_connections m !! connection_id with
  | Some ws => ws_sent ws
  | None => []
  end.

(** The members of a room, in iteration order. *)
Definition room_of (chat_id : string) (m : ConnectionManager) : list string :=
  default [] (chat_rooms m !! chat_id).

(** Visiting [x] sends nothing that fails: [x] is the excluded
    connection, or has no transport registered, or its transport is open. *)
Definition deliverable (exclude_connection : option string)
    (m : ConnectionManager) (x : string) : Prop :=
  Some x = exclude_connection
  ∨ active_connections m !! x = None
  ∨ ∃ ws, active_connections m !! x = Some ws ∧ ws_open ws = true.

Definition set_changed : exn :=
  RuntimeError "Set changed size during iteration".

End Registry.


(** ** Documents of the chat store *)

(** An entry of [read_by] or [delivered_to], and the [deleted_by] stamp:
    [{"user_id": ..., "user_type": ..., "timestamp": ...}]. *)
Record receipt := Receipt {
  r_user_id : ident;
  r_user_type : string;
  r_timestamp : time
}.

(** An entry of [deleted_for].  [delete_message] and [clear_chat] write
    entries with different keys. *)
Inductive deleted_entry :=
  | DeletedFor (user_id : ident) (user_type : string) (deleted_at : time)
  | ClearedFor (id : ident) (type : string) (cleared_at : time).

(** An entry of [reactions[emoji]]. *)
Record reaction := Reaction {
  rx_user_id : ident;
  rx_timestamp : time
}.

(** [reply_to]: [{"message_id", "content", "sender_id"}]. *)
Record reply_ref := ReplyRef {
  rp_message_id : string;
  rp_content : string;
  rp_sender_id : ident
}.

Definition attachment := list (string * string).

(** A document of [chat_messages]. *)
Record message := Message {
  m__id : oid;
  m_message_id : option string;
  m_chat_id : string;
  m_sender_id : ident;
  m_sender_type : string;
  m_content : string;
  m_message_type : string;
  m_timestamp : time;
  m_read_by : list receipt;
  m_delivered_to : list receipt;
  m_is_deleted : bool;
  m_is_edited : bool;
  m_deleted_for : list deleted_entry;
  m_deleted_at : option time;
  m_deleted_by : option receipt;
  m_attachment : option attachment;
  m_gem_id : option Z;
  m_reply_to : option reply_ref;
  m_reactions : gmap string (list reaction)
}.

Record participant := Participant {
  p_id : ident;
  p_type : string;
  p_role : string;
  p_joined_at : time;
  p_permissions : list string
}.

(** An entry of [settings.group_admins]. *)
Record admin := Admin {
  a_id : ident;
  a_type : string;
  a_role : string;
  a_added_by : option ident;
  a_added_at : option time;
  a_permissions : list string
}.

(** The audit record of a removal. *)
Record removal := Removal {
  rm_chat_id : string;
  rm_user_id : ident;
  rm_removed_by : option ident;
  rm_is_leaving : bool;
  rm_reason : option string;
  rm_removed_at : time
}.

(** The [last_message] projection of a chat. *)
Record last_message := LastMessage {
  lm_message_id : string;
  lm_content : string;
  lm_sender_id : string;
  lm_sender_type : string;
  lm_timestamp : time;
  lm_message_type : string
}.

(** A document of [chats].  [c_chat_id] is the [chat_id] field that
    [ChatRoom] generates on its own; it differs from [_id]. *)
Record chat := Chat {
  c__id : oid;
  c_chat_id : option string;
  c_chat_type : string;
  c_participants : list participant;
  c_title : option string;
  c_last_message : option last_message;
  c_last_activity : time;
  c_unread_counts : gmap string Z;
  c_group_admins : list admin;
  c_removed_members : list removal
}.

(** A document of [group_invites]. *)
Record invite := Invite {
  i_code : string;
  i_chat_id : string;
  i_creator_id : ident;
  i_created_at : time;
  i_expires_at : time;
  i_is_active : bool;
  i_used_by : option ident;
  i_used_at : option time
}.

Record store := Store {
  chats : list chat;
  messages : list message;
  invites : list invite;
  removed_members : list removal
}.

#[global] Instance receipt_eq_dec : EqDecision receipt.
Proof. solve_decision. Defined.
#[global] Instance deleted_entry_eq_dec : EqDecision deleted_entry.
Proof. solve_decision. Defined.
#[global] Instance reaction_eq_dec : EqDecision reaction.
Proof. solve_decision. Defined.
#[global] Instance reply_ref_eq_dec : EqDecision reply_ref.
Proof. solve_decision. Defined.
#[global] Instance message_eq_dec : EqDecision message.
Proof. solve_decision. Defined.
#[global] Instance participant_eq_dec : EqDecision participant.
Proof. solve_decision. Defined.
#[global] Instance admin_eq_dec : EqDecision admin.
Proof. solve_decision. Defined.
#[global] Instance removal_eq_dec : EqDecision removal.
Proof. solve_decision. Defined.
#[global] Instance last_message_eq_dec : EqDecision last_message.
Proof. solve_decision. Defined.
#[global] Instance chat_eq_dec : EqDecision chat.
Proof. solve_decision. Defined.
#[global] Instance invite_eq_dec : EqDecision invite.
Proof. solve_decision. Defined.

(** Field updates. *)
Definition set_messages (ms : list message) (db : store) : store :=
  {| chats := chats db; messages := ms; invites := invites db;
     removed_members := removed_members db |}.
Definition set_chats (cs : list chat) (db : store) : store :=
  {| chats := cs; messages := messages db; invites := invites db;
     removed_members := removed_members db |}.
Definition set_invites (ivs : list invite) (db : store) : store :=
  {| chats := chats db; messages := messages db; invites := ivs;
     removed_members := removed_members db |}.
Definition set_removed_members (rs : list removal) (db : store) : store :=
  {| chats := chats db; messages := messages db; invites := invites db;
     removed_members := rs |}.

Definition with_message_id (x : option string) (m : message) : message :=
  Message (m__id m) x (m_chat_id m) (m_sender_id m) (m_sender_type m)
    (m_content m) (m_message_type m) (m_timestamp m) (m_read_by m)
    (m_delivered_to m) (m_is_deleted m) (m_is_edited m) (m_deleted_for m)
    (m_deleted_at m) (m_deleted_by m) (m_attachment m) (m_gem_id m)
    (m_reply_to m) (m_reactions m).
Definition with_read_by (x : list receipt) (m : message) : message :=
  Message (m__id m) (m_message_id m) (m_chat_id m) (m_sender_id m)
    (m_sender_type m) (m_content m) (m_message_type m) (m_timestamp m) x
    (m_delivered_to m) (m_is_deleted m) (m_is_edited m) (m_deleted_for m)
    (m_deleted_at m) (m_deleted_by m) (m_attachment m) (m_gem_id m)
    (m_reply_to m) (m_reactions m).
Definition with_delivered_to (x : list receipt) (m : message) : message :=
  Message (m__id m) (m_message_id m) (m_chat_id m) (m_sender_id m)
    (m_sender_type m) (m_content m) (m_message_type m) (m_timestamp m)
    (m_read_by m) x (m_is_deleted m) (m_is_edited m) (m_deleted_for m)
    (m_deleted_at m) (m_deleted_by m) (m_attachment m) (m_gem_id m)
    (m_reply_to m) (m_reactions m).
Definition with_deleted_for (x : list deleted_entry) (m : message) : message :=
  Message (m__id m) (m_message_id m) (m_chat_id m) (m_sender_id m)
    (m_sender_type m) (m_content m) (m_message_type m) (m_timestamp m)
    (m_read_by m) (m_delivered_to m) (m_is_deleted m) (m_is_edited m) x
    (m_deleted_at m) (m_deleted_by m) (m_attachment m) (m_gem_id m)
    (m_reply_to m) (m_reactions m).
Definition with_reactions (x : gmap string (list reaction)) (m : message)
    : message :=
  Message (m__id m) (m_message_id m) (m_chat_id m) (m_sender_id m)
    (m_sender_type m) (m_content m) (m_message_type m) (m_timestamp m)
    (m_read_by m) (m_delivered_to m) (m_is_deleted m) (m_is_edited m)
    (m_deleted_for m) (m_deleted_at m) (m_deleted_by m) (m_attachment m)
    (m_gem_id m) (m_reply_to m) x.

Definition with_participants (x : list participant) (c : chat) : chat :=
  Chat (c__id c) (c_chat_id c) (c_chat_type c) x (c_title c)
    (c_last_message c) (c_last_activity c) (c_unread_counts c)
    (c_group_admins c) (c_removed_members c).
Definition with_unread_counts (x : gmap string Z) (c : chat) : chat :=
  Chat (c__id c) (c_chat_id c) (c_chat_type c) (c_participants c) (c_title c)
    (c_last_message c) (c_last_activity c) x (c_group_admins c)
    (c_removed_members c).
Definition with_group_admins (x : list admin) (c : chat) : chat :=
  Chat (c__id c) (c_chat_id c) (c_chat_type c) (c_participants c) (c_title c)
    (c_last_message c) (c_last_activity c) (c_unread_counts c) x
    (c_removed_members c).

(** Filters used by several queries. *)
Definition by__id (o : oid) (c : chat) : bool := bool_decide (c__id c = o).
Definition by_chat_id (chat_id : string) (c : chat) : bool :=
  bool_decide (c_chat_id c = Some chat_id).
Definition msg_by__id (o : oid) (m : message) : bool :=
  bool_decide (m__id m = o).

(** [{"$elemMatch": {"user_id": user_id}}] on [read_by] *)
Definition read_by_user (user_id : ident) (m : message) : bool :=
  existsb (λ r, bool_decide (r_user_id r = user_id)) (m_read_by m).
(** [{"$elemMatch": {"user_id": user_id, "user_type": user_type}}]
    on [delivered_to] *)
Definition delivered_to_user (user_id : ident) (user_type : string)
    (m : message) : bool :=
  existsb (λ r, bool_decide (r_user_id r = user_id)
                && bool_decide (r_user_type r = user_type)) (m_delivered_to m).
(** The same on [deleted_for]; an entry written by [clear_chat] has no
    ["user_id"] key and never matches. *)
Definition deleted_for_user (user_id : ident) (user_type : string)
    (m : message) : bool :=
  existsb (λ e, match e with
                | DeletedFor u t _ =>
                    bool_decide (u = user_id) && bool_decide (t = user_type)
                | ClearedFor _ _ _ => false
                end) (m_deleted_for m).

(** [any(str(p["id"]) == str(user_id) for p in chat["participants"])] *)
Definition is_participant (user_id : ident) (c : chat) : bool :=
  existsb (λ p, bool_decide (py_str (p_id p) = py_str user_id))
    (c_participants c).

(** ** [ChatService] *)

Module ChatService.

Definition deletion_placeholder : string := "This message was deleted".

(** A message as [get_message] returns it: ["message_id"] is overwritten
    with [str(_id)]. *)
Definition get_message (message_id : string) (db : store) : option message :=
  match ObjectId message_id with
  | Raise _ => None
  | Ok o =>
      match find_one (msg_by__id o) (messages db) with
      | Some m => Some (with_message_id (Some (m__id m)) m)
      | None => None
      end
  end.

(** The [$set]/[$unset] of a deletion for everyone. *)
Definition set_deleted (user_id : ident) (user_type : string) (now : time)
    (m : message) : message :=
  Message (m__id m) (m_message_id m) (m_chat_id m) (m_sender_id m)
    (m_sender_type m) deletion_placeholder (m_message_type m) (m_timestamp m)
    (m_read_by m) (m_delivered_to m) true (m_is_edited m) (m_deleted_for m)
    (Some now) (Some (Receipt user_id user_type now)) None (m_gem_id m)
    (m_reply_to m) (m_reactions m).

(** The filter that [delete_message] hands to [update_one]:
    [{"$or": [{"_id": ...}, {"message_id": ...}, {"chat_id": ...}]}]. *)
Definition delete_query (o : oid) (found d : message) : bool :=
  bool_decide (m__id d = o)
  || bool_decide (m_message_id d = m_message_id found)
  || bool_decide (m_chat_id d = m_chat_id found).

Definition delete_message (message_id : string) (user_id : ident)
    (user_type : string) (delete_for_everyone : bool) (now : time)
    (db : store) : bool * store :=
  match get_message message_id db with
  | None => (false, db)
  | Some found =>
      match ObjectId (m__id found) with
      | Raise _ => (false, db)
      | Ok o =>
          let update d :=
            if delete_for_everyone
            then set_deleted user_id user_type now d
            else with_deleted_for
                   (addToSet (DeletedFor user_id user_type now)
                      (m_deleted_for d)) d in
          let '(ms, modified_count) :=
            update_one (delete_query o found) update (messages db) in
          (bool_decide (0 < modified_count), set_messages ms db)
      end
  end.

Definition get_chat (chat_id : string) (db : store) : option chat :=
  match find_one (by_chat_id chat_id) (chats db) with
  | Some c => Some c
  | None =>
      match ObjectId chat_id with
      | Raise _ => None
      | Ok o => find_one (by__id o) (chats db)
      end
  end.

Definition get_chat_details (chat_id : string) (db : store) : option chat :=
  match ObjectId chat_id with
  | Raise _ => None
  | Ok o => find_one (λ c, by__id o c || by_chat_id chat_id c) (chats db)
  end.

Definition get_participant_type (chat_id : string) (user_id : ident)
    (db : store) : result string :=
  match get_chat_details chat_id db with
  | None => Raise (HTTPException 404 (Lit "Chat not found"))
  | Some c =>
      match find_one (λ p, bool_decide (py_str (p_id p) = py_str user_id))
              (c_participants c) with
      | Some p => Ok (p_type p)
      | None => Raise (HTTPException 403 (Lit "User not in chat"))
      end
  end.

(** [{"$set": {f"unread_counts.{user_type}_{user_id}": 0}}] *)
Definition reset_unread (user_type : string) (user_id : ident) (c : chat)
    : chat :=
  with_unread_counts
    (<[participant_key user_type user_id := 0%Z]> (c_unread_counts c)) c.

Definition mark_as_read_query (chat_id : string) (user_id : ident)
    (m : message) : bool :=
  bool_decide (m_chat_id m = chat_id)
  && negb (bool_decide (m_sender_id m = user_id))
  && negb (read_by_user user_id m).

Definition mark_as_read (chat_id : string) (user_id : ident)
    (user_type : string) (now : time) (db : store) : bool * store :=
  let '(ms, _) :=
    update_many (mark_as_read_query chat_id user_id)
      (λ m, with_read_by
              (addToSet (Receipt user_id user_type now) (m_read_by m)) m)
      (messages db) in
  let db := set_messages ms db in
  match ObjectId chat_id with
  | Raise _ => (false, db)
  | Ok o =>
      let '(cs, _) :=
        update_one (by__id o) (reset_unread user_type user_id) (chats db) in
      (true, set_chats cs db)
  end.

Definition delivered_query (chat_id : string) (user_id : ident)
    (user_type : string) (ids : list (oid * string)) (restrict : bool)
    (m : message) : bool :=
  bool_decide (m_chat_id m = chat_id)
  && negb (bool_decide (m_sender_id m = user_id))
  && negb (delivered_to_user user_id user_type m)
  && (negb restrict
      || existsb (λ p, bool_decide (m__id m = p.1)
                       || bool_decide (m_message_id m = Some p.2)) ids).

(** [[ObjectId(msg_id) for msg_id in message_ids]], paired with the text. *)
Fixpoint parse_ids (message_ids : list string) : result (list (oid * string)) :=
  match message_ids with
  | [] => Ok []
  | s :: rest =>
      match ObjectId s with
      | Raise e => Raise e
      | Ok o =>
          match parse_ids rest with
          | Raise e => Raise e
          | Ok l => Ok ((o, s) :: l)
          end
      end
  end.

Definition mark_messages_as_delivered (chat_id : string) (user_id : ident)
    (user_type : string) (message_ids : option (list string)) (now : time)
    (db : store) : bool * store :=
  let restrict :=
    match message_ids with Some (_ :: _) => true | _ => false end in
  match parse_ids (if restrict then default [] message_ids else []) with
  | Raise _ => (false, db)
  | Ok ids =>
      let '(ms, modified_count) :=
        update_many (delivered_query chat_id user_id user_type ids restrict)
          (λ m, with_delivered_to
                  (addToSet (Receipt user_id user_type now) (m_delivered_to m))
                  m)
          (messages db) in
      let db := set_messages ms db in
      match ObjectId chat_id with
      | Raise _ => (false, db)
      | Ok o =>
          let '(cs, _) :=
            update_one (λ c, by__id o c || by_chat_id chat_id c)
              (reset_unread user_type user_id) (chats db) in
          (bool_decide (0 < modified_count), set_chats cs db)
      end
  end.

(** One element of the list that [get_chat_messages] returns. *)
Record message_view := MessageView {
  v_message_id : string;
  v_chat_id : string;
  v_sender_id : ident;
  v_sender_type : string;
  v_content : string;
  v_message_type : string;
  v_timestamp : time;
  v_read_by : list receipt;
  v_delivered_to : list receipt;
  v_reactions : gmap string (list reaction);
  v_is_edited : bool;
  v_reply_to : option reply_ref;
  v_attachment : option attachment;
  v_gem_id : option Z
}.

Definition process_message (msg : message) : message_view :=
  {| v_message_id := m__id msg;
     v_chat_id := m_chat_id msg;
     v_sender_id := m_sender_id msg;
     v_sender_type := m_sender_type msg;
     v_content :=
       if m_is_deleted msg then deletion_placeholder else m_content msg;
     v_message_type := m_message_type msg;
     v_timestamp := m_timestamp msg;
     v_read_by := m_read_by msg;
     v_delivered_to := m_delivered_to msg;
     v_reactions := m_reactions msg;
     v_is_edited := m_is_edited msg;
     v_reply_to := m_reply_to msg;
     v_attachment := if m_is_deleted msg then None else m_attachment msg;
     v_gem_id := if m_is_deleted msg then None else m_gem_id msg |}.

(** [cursor.sort("timestamp", -1)]: newest first; documents with equal
    timestamps keep their natural order. *)
Fixpoint insert_desc (m : message) (l : list message) : list message :=
  match l with
  | [] => [m]
  | x :: xs =>
      if (m_timestamp x <=? m_timestamp m)%Z then m :: l
      else x :: insert_desc m xs
  end.

Definition sort_desc (l : list message) : list message :=
  foldr insert_desc [] l.

Definition messages_query (chat_id : string) (user_id : ident)
    (user_type : string) (before_id : option string) (m : message) : bool :=
  bool_decide (m_chat_id m = chat_id)
  && negb (deleted_for_user user_id user_type m)
  && match before_id with
     | None | Some "" => true
     | Some s =>
         match ObjectId s with
         | Ok o => String.ltb (m__id m) o
         | Raise _ => true
         end
     end.

(** [limit] is at least 1 in the calls considered here. *)
Definition get_chat_messages (chat_id : string) (user_id : ident)
    (user_type : string) (limit : nat) (before_id : option string)
    (db : store) : list message_view :=
  process_message <$>
    take limit
      (sort_desc
         (find_all (messages_query chat_id user_id user_type before_id)
            (messages db))).

(** [{"$elemMatch": {"id": user_id, "role": "admin"}}] on
    [settings.group_admins] *)
Definition has_admin (user_id : ident) (c : chat) : bool :=
  existsb (λ a, bool_decide (a_id a = user_id)
                && bool_decide (a_role a = "admin")) (c_group_admins c).

Definition is_group_admin (chat_id : string) (user_id : ident) (db : store)
    : result bool :=
  match ObjectId chat_id with
  | Raise e => Raise e
  | Ok o =>
      match find_one (λ c, by__id o c && has_admin user_id c) (chats db) with
      | Some _ => Ok true
      | None => Ok false
      end
  end.

(** The dictionary that [update_group_admins] returns. *)
Record admins_update := AdminsUpdate {
  au_success : bool;
  au_total_admins : nat;
  au_newly_added : nat;
  au_admin_ids : list ident
}.

Definition new_admin (admin_id current_user_id : ident) (now : time) : admin :=
  {| a_id := admin_id;
     a_type := "user";
     a_role := "admin";
     a_added_by := Some current_user_id;
     a_added_at := Some now;
     a_permissions :=
       ["invite"; "add_members"; "remove_members"; "manage_settings"] |}.

Definition update_group_admins (chat_id : string) (admin_ids : list ident)
    (current_user_id : ident) (now : time) : M store admins_update :=
  try_except
    (λ db,
       match ObjectId chat_id with
       | Raise e => (Raise e, db)
       | Ok o =>
           match find_one (by__id o) (chats db) with
           | None => (Raise (ValueError (Lit "Chat not found")), db)
           | Some c =>
               let current_admins := c_group_admins c in
               let current_admin_ids : list ident := a_id <$> current_admins in
               let admin_ids : list ident :=
                 if bool_decide (current_user_id ∉ admin_ids)
                    && bool_decide (current_user_id ∈ current_admin_ids)
                 then admin_ids ++ [current_user_id]
                 else admin_ids in
               let new_admins :=
                 (λ admin_id, new_admin admin_id current_user_id now) <$>
                   List.filter
                     (λ admin_id, bool_decide (admin_id ∉ current_admin_ids))
                     admin_ids in
               let updated_admins := current_admins ++ new_admins in
               let '(cs, modified_count) :=
                 update_one (by__id o) (with_group_admins updated_admins)
                   (chats db) in
               (Ok {| au_success := bool_decide (0 < modified_count);
                      au_total_admins := length updated_admins;
                      au_newly_added := length new_admins;
                      au_admin_ids := a_id <$> updated_admins |},
                set_chats cs db)
           end
       end)
    (λ e, raise (ValueError (Fmt "Failed to update group admins: " e))).

Definition get_invite (invite_code : string) (now : time) (db : store)
    : option invite :=
  find_one (λ i, bool_decide (i_code i = invite_code)
                 && i_is_active i
                 && bool_decide (now < i_expires_at i)%Z) (invites db).

Definition add_chat_participant (chat_id : string) (user_id : ident)
    (user_type role : string) (now : time) (db : store) : bool * store :=
  match ObjectId chat_id with
  | Raise _ => (false, db)
  | Ok o =>
      let '(cs, modified_count) :=
        update_one (by__id o)
          (λ c, with_participants
                  (addToSet (Participant user_id user_type role now [])
                     (c_participants c)) c)
          (chats db) in
      (bool_decide (0 < modified_count), set_chats cs db)
  end.

Definition set_used (used_by : ident) (now : time) (i : invite) : invite :=
  {| i_code := i_code i; i_chat_id := i_chat_id i;
     i_creator_id := i_creator_id i; i_created_at := i_created_at i;
     i_expires_at := i_expires_at i;
     i_is_active := false; i_used_by := Some used_by; i_used_at := Some now |}.

Definition mark_invite_used (invite_code : string) (used_by : ident)
    (now : time) (db : store) : bool * store :=
  let '(ivs, modified_count) :=
    update_one (λ i, bool_decide (i_code i = invite_code))
      (set_used used_by now) (invites db) in
  (bool_decide (0 < modified_count), set_invites ivs db).

(** [list.remove(x)]: drops the first element equal to [x]. *)
Fixpoint list_remove (x : reaction) (l : list reaction) : list reaction :=
  match l with
  | [] => []
  | y :: ys => if decide (y = x) then ys else y :: list_remove x ys
  end.

(** The new value of [reactions] that [toggle_message_reaction] computes. *)
Definition toggled (reactions : gmap string (list reaction)) (user_id : ident)
    (emoji : string) (now : time) : gmap string (list reaction) :=
  let emoji_reactions := default [] (reactions !! emoji) in
  let existing_reaction :=
    List.find (λ r, bool_decide (rx_user_id r = user_id)) emoji_reactions in
  let emoji_reactions :=
    match existing_reaction with
    | Some r => list_remove r emoji_reactions
    | None => emoji_reactions ++ [Reaction user_id now]
    end in
  match emoji_reactions with
  | _ :: _ => <[emoji := emoji_reactions]> reactions
  | [] => delete emoji reactions
  end.

Definition toggle_message_reaction (message_id : string) (user_id : ident)
    (emoji : string) (now : time)
    : M store (string * gmap string (list reaction)) :=
  try_except
    (λ db,
       match get_message message_id db with
       | None => (Raise (ValueError (Lit "Message not found")), db)
       | Some found =>
           let reactions := toggled (m_reactions found) user_id emoji now in
           match ObjectId message_id with
           | Raise e => (Raise e, db)
           | Ok o =>
               let '(ms, _) :=
                 update_one (msg_by__id o) (with_reactions reactions)
                   (messages db) in
               (Ok (message_id, reactions), set_messages ms db)
           end
       end)
    (λ e, raise (ValueError (Fmt "Failed to update reaction: " e))).

Definition remove_group_member (chat_id : string) (user_id : ident)
    (removed_by : option ident) (is_leaving : bool) (reason : option string)
    (now : time) (db : store) : bool * store :=
  let removal_data :=
    {| rm_chat_id := chat_id; rm_user_id := user_id;
       rm_removed_by := removed_by; rm_is_leaving := is_leaving;
       rm_reason := reason; rm_removed_at := now |} in
  let db := set_removed_members (removed_members db ++ [removal_data]) db in
  match ObjectId chat_id with
  | Raise _ => (false, db)
  | Ok o =>
      let '(cs, modified_count) :=
        update_one (by__id o)
          (λ c, Chat (c__id c) (c_chat_id c) (c_chat_type c)
                  (List.filter (λ p, negb (bool_decide (p_id p = user_id)))
                     (c_participants c))
                  (c_title c) (c_last_message c) (c_last_activity c)
                  (c_unread_counts c) (c_group_admins c)
                  (c_removed_members c ++ [removal_data]))
          (chats db) in
      (bool_decide (0 < modified_count), set_chats cs db)
  end.

Definition get_other_admins (chat_id : string) (current_admin_id : ident)
    (db : store) : list admin :=
  match get_chat chat_id db with
  | None => []
  | Some c =>
      List.filter
        (λ a, negb (bool_decide (py_str (a_id a) = py_str current_admin_id)))
        (c_group_admins c)
  end.

(** The fields of a [ChatMessage] that a handler fills in. *)
Record ChatMessage := {
  cm_chat_id : string;
  cm_sender_id : ident;
  cm_sender_type : string;
  cm_content : string;
  cm_message_type : string;
  cm_reply_to : option reply_ref;
  cm_gem_id : option Z;
  cm_attachment : option attachment
}.

(** The document that [add_message] builds and inserts.  It is assembled
    field by field from the [ChatMessage]; [reply_to], [gem_id] and
    [attachment] are not among the fields copied. *)
Definition message_dict (new_id : oid) (msg : ChatMessage) (now : time)
    : message :=
  {| m__id := new_id;
     m_message_id := None;
     m_chat_id := cm_chat_id msg;
     m_sender_id := IdStr (py_str (cm_sender_id msg));
     m_sender_type := cm_sender_type msg;
     m_content := cm_content msg;
     m_message_type := cm_message_type msg;
     m_timestamp := now;
     m_read_by :=
       [Receipt (IdStr (py_str (cm_sender_id msg))) (cm_sender_type msg) now];
     m_delivered_to := [];
     m_is_deleted := false;
     m_is_edited := false;
     m_deleted_for := [];
     m_deleted_at := None;
     m_deleted_by := None;
     m_attachment := None;
     m_gem_id := None;
     m_reply_to := None;
     m_reactions := ∅ |}.

Definition set_last_message (lm : last_message) (now : time) (c : chat)
    : chat :=
  Chat (c__id c) (c_chat_id c) (c_chat_type c) (c_participants c) (c_title c)
    (Some lm) now (c_unread_counts c) (c_group_admins c)
    (c_removed_members c).

(** [new_id] is the [_id] that [insert_one] assigns.  The returned
    dictionary is the inserted document with ["message_id"] added. *)
Definition add_message (msg : ChatMessage) (new_id : oid) (now : time)
    : M store message :=
  try_except
    (λ db,
       let doc := message_dict new_id msg now in
       let db := set_messages (messages db ++ [doc]) db in
       match ObjectId (cm_chat_id msg) with
       | Raise e => (Raise e, db)
       | Ok o =>
           let '(cs, _) :=
             update_one (by__id o)
               (set_last_message
                  {| lm_message_id := new_id;
                     lm_content := cm_content msg;
                     lm_sender_id := py_str (cm_sender_id msg);
                     lm_sender_type := cm_sender_type msg;
                     lm_timestamp := now;
                     lm_message_type := cm_message_type msg |} now)
               (chats db) in
           (Ok (with_message_id (Some new_id) doc), set_chats cs db)
       end)
    (λ e, raise (HTTPException 500 (Fmt "Failed to add message: " e))).

End ChatService.

(** ** The HTTP handlers of [chat.py] *)

(** A handler acts on the chat store and on the module's
    [ConnectionManager] instance. *)
Record world := World {
  db : store;
  manager : Registry.ConnectionManager
}.

Definition read_db {A} (f : store → A) : M world A :=
  λ w, (Ok (f (db w)), w).
Definition check_db {A} (f : store → result A) : M world A :=
  λ w, (f (db w), w).
Definition call_db {A} (f : store → A * store) : M world A :=
  λ w, let '(a, d) := f (db w) in (Ok a, World d (manager w)).
Definition try_db {A} (f : M store A) : M world A :=
  λ w, let '(r, d) := f (db w) in (r, World d (manager w)).
Definition call_manager {A} (f : M Registry.ConnectionManager A) : M world A :=
  λ w, let '(r, m) := f (manager w) in (r, World (db w) m).

(** [except HTTPException as he: raise he]
    [except Exception as e: raise HTTPException(500, f"{prefix}{str(e)}")] *)
Definition reraise_http {S A} (prefix : string) (m : M S A) : M S A :=
  try_except m
    (λ e, match e with
          | HTTPException _ _ => raise e
          | _ => raise (HTTPException 500 (Fmt prefix e))
          end).

(** [except Exception as e: raise HTTPException(500, f"{prefix}{str(e)}")]
    with no clause for [HTTPException] before it. *)
Definition wrap_500 {S A} (prefix : string) (m : M S A) : M S A :=
  try_except m (λ e, raise (HTTPException 500 (Fmt prefix e))).

(** [jsonable_encoder(result)] for the dict that [add_message] returns.
    That dict holds the [bson.ObjectId] of the new document under
    ["_id"].  The encoder has no rule for that class: it falls back on
    [dict(obj)], then on [vars(obj)], both fail, and it raises
    [ValueError(errors)] with the list of the two failures. *)
Definition cannot_encode_ObjectId : exn :=
  ValueError
    (Errors [TypeError "'ObjectId' object is not iterable";
             TypeError "vars() argument must have __dict__ attribute"]).

Definition jsonable_encoder (obj : message) : result message :=
  Raise cannot_encode_ObjectId.

Module Router.

(** [current_user.user_id] is an integer column. *)
Definition user_connection (current_user : Z) : string :=
  "user_" +:+ pretty current_user.

Record delete_response := {
  dr_message : string;
  dr_deleted_for_everyone : bool
}.

Definition delete_message (message_id : string) (delete_for_everyone : bool)
    (current_user : Z) (now : time) : M world delete_response :=
  reraise_http "Error deleting message: "
    (let! found := read_db (ChatService.get_message message_id) in
     match found with
     | None => raise (HTTPException 404 (Lit "Message not found"))
     | Some found =>
     let! c := read_db (ChatService.get_chat_details (m_chat_id found)) in
     match c with
     | None => raise (HTTPException 404 (Lit "Chat not found"))
     | Some c =>
     if negb (is_participant (IdInt current_user) c)
     then raise (HTTPException 403
                   (Lit "You are not a participant in this chat"))
     else
     let is_sender :=
       bool_decide (py_str (m_sender_id found) = py_str (IdInt current_user)) in
     if delete_for_everyone && negb is_sender
     then raise (HTTPException 403
                   (Lit (if bool_decide (c_chat_type c = "dealer_chat")
                         then "Only the sender can delete messages for everyone in dealer chats"
                         else "Only the sender can delete messages for everyone")))
     else
     let! user_type :=
       check_db (ChatService.get_participant_type (m_chat_id found)
                   (IdInt current_user)) in
     let! success :=
       call_db (ChatService.delete_message
                  (default "" (m_message_id found)) (IdInt current_user)
                  user_type delete_for_everyone now) in
     if negb success
     then raise (HTTPException 400 (Lit "Failed to delete message"))
     else
     let! updated_message :=
       read_db (ChatService.get_message (default "" (m_message_id found))) in
     do! call_manager
           (Registry.broadcast_to_chat (m_chat_id found)
              (Registry.Event "message_deleted" (m_chat_id found)
                 (default "" (m_message_id found)))
              (Some (user_connection current_user))) in
     ret {| dr_message := "Message deleted successfully";
            dr_deleted_for_everyone := delete_for_everyone |}
     end end).

Definition get_chat_messages (chat_id : string) (limit : nat)
    (before_id : option string) (current_user : Z) (now : time)
    : M world (list ChatService.message_view) :=
  reraise_http "Error getting messages: "
    (let! c := read_db (ChatService.get_chat chat_id) in
     match c with
     | None => raise (HTTPException 404 (Lit "Chat not found"))
     | Some c =>
     if negb (is_participant (IdInt current_user) c)
     then raise (HTTPException 403
                   (Lit "You are not a participant in this chat"))
     else
     let! participant_type :=
       check_db (ChatService.get_participant_type chat_id
                   (IdInt current_user)) in
     let! msgs :=
       read_db (ChatService.get_chat_messages chat_id (IdInt current_user)
                  participant_type limit before_id) in
     do! call_db (ChatService.mark_messages_as_delivered chat_id
                    (IdInt current_user) participant_type None now) in
     ret msgs
     end).

Record admins_response := {
  ar_message : string;
  ar_total_admins : nat;
  ar_newly_added : nat;
  ar_admin_ids : list ident
}.

(** [list(set(ids))]: the distinct elements.  The order in which a set
    yields its elements is not fixed by the language; what is stated
    about the result below does not depend on it. *)
Definition list_set (ids : list ident) : list ident := remove_dups ids.

Definition update_group_admins (chat_id : string) (request_admin_ids : list Z)
    (current_user : Z) (now : time) : M world admins_response :=
  reraise_http "An unexpected error occurred while updating group admins"
    (let! c := read_db (ChatService.get_chat chat_id) in
     match c with
     | None => raise (HTTPException 404 (Lit "Chat not found"))
     | Some c =>
     if negb (bool_decide (c_chat_type c = "group_chat"))
     then raise (HTTPException 400
                   (Lit "This operation is only valid for group chats"))
     else
     let! is_admin :=
       check_db (ChatService.is_group_admin chat_id (IdInt current_user)) in
     if negb is_admin
     then raise (HTTPException 403
                   (Lit "Only group admins can update admin list"))
     else
     match request_admin_ids with
     | [] => raise (HTTPException 400 (Lit "Admin IDs list cannot be empty"))
     | _ :: _ =>
     let participants : list string :=
       (λ p, py_str (p_id p)) <$> c_participants c in
     let invalid_admins :=
       List.filter
         (λ admin_id, bool_decide (py_str (IdInt admin_id) ∉ participants))
         request_admin_ids in
     match invalid_admins with
     | _ :: _ =>
         raise (HTTPException 400
                  (FmtIds "Users " (IdInt <$> invalid_admins)
                     " are not participants in this chat"))
     | [] =>
     let admin_ids :=
       if bool_decide (current_user ∉ request_admin_ids)
       then request_admin_ids ++ [current_user]
       else request_admin_ids in
     try_except
       (let! result :=
          try_db (ChatService.update_group_admins chat_id
                    (list_set (IdInt <$> admin_ids)) (IdInt current_user)
                    now) in
        do! call_manager
              (Registry.broadcast_to_chat chat_id
                 (Registry.Event "admins_updated" chat_id "") None) in
        ret {| ar_message := "Group admins updated successfully";
               ar_total_admins := ChatService.au_total_admins result;
               ar_newly_added := ChatService.au_newly_added result;
               ar_admin_ids := ChatService.au_admin_ids result |})
       (λ _, raise (HTTPException 500
                      (Lit "Failed to update group admins. Please try again later.")))
     end end end).

Record join_response := {
  jr_chat_id : string;
  jr_message : string;
  jr_status : string;
  jr_member_count : nat
}.

Definition already_member (i : invite) (c : chat) : join_response :=
  {| jr_chat_id := i_chat_id i;
     jr_message := "You are already a member of this group";
     jr_status := "already_member";
     jr_member_count := length (c_participants c) |}.

Definition joined (i : invite) (c : chat) : join_response :=
  {| jr_chat_id := i_chat_id i;
     jr_message := "Successfully joined group";
     jr_status := "joined";
     jr_member_count := length (c_participants c) + 1 |}.

(** [now] is the instant at which [get_invite] runs its query, [now'] the
    later instant of the handler's own expiry test and of the two writes. *)
Definition join_group_via_invite (invite_code : string) (current_user : Z)
    (now now' : time) : M world join_response :=
  reraise_http "Error joining group: "
    (let! i := read_db (ChatService.get_invite invite_code now) in
     match i with
     | None => raise (HTTPException 404 (Lit "Invite not found or expired"))
     | Some i =>
     if bool_decide (i_expires_at i < now')%Z
     then raise (HTTPException 400 (Lit "Invite has expired"))
     else
     let! c := read_db (ChatService.get_chat (i_chat_id i)) in
     match c with
     | None => raise (HTTPException 404 (Lit "Chat not found"))
     | Some c =>
     if is_participant (IdInt current_user) c
     then ret (already_member i c)
     else
     do! call_db (ChatService.add_chat_participant (i_chat_id i)
                    (IdInt current_user) "user" "member" now') in
     do! call_db (ChatService.mark_invite_used invite_code
                    (IdInt current_user) now') in
     ret (joined i c)
     end end).

Record ReplyMessageRequest := {
  rq_content : string;
  rq_message_type : string;
  rq_attachment : option attachment;
  rq_gem_id : option Z
}.

(** The payload of the notification is built, with
    [jsonable_encoder(result)], before [broadcast_to_chat] is called. *)
Definition reply_to_message (chat_id message_id : string)
    (request : ReplyMessageRequest) (current_user : Z) (new_id : oid)
    (now : time) : M world message :=
  wrap_500 "Error replying to message: "
    (let! original_message := read_db (ChatService.get_message message_id) in
     match original_message with
     | None => raise (HTTPException 404 (Lit "Original message not found"))
     | Some original_message =>
     let! sender_type :=
       check_db (ChatService.get_participant_type chat_id
                   (IdInt current_user)) in
     let msg :=
       {| ChatService.cm_chat_id := chat_id;
          ChatService.cm_sender_id := IdInt current_user;
          ChatService.cm_sender_type := sender_type;
          ChatService.cm_content := rq_content request;
          ChatService.cm_message_type := rq_message_type request;
          ChatService.cm_reply_to :=
            Some {| rp_message_id := message_id;
                    rp_content := m_content original_message;
                    rp_sender_id := m_sender_id original_message |};
          ChatService.cm_gem_id := rq_gem_id request;
          ChatService.cm_attachment := rq_attachment request |} in
     let! result := try_db (ChatService.add_message msg new_id now) in
     let! encoded := of_result (jsonable_encoder result) in
     do! call_manager
           (Registry.broadcast_to_chat chat_id
              (Registry.Event "new_reply" chat_id (m__id encoded)) None) in
     of_result (jsonable_encoder result)
     end).

Definition leave_group (chat_id : string) (reason : option string)
    (current_user : Z) (now : time) : M world string :=
  wrap_500 "Error leaving group: "
    (let! is_admin :=
       check_db (ChatService.is_group_admin chat_id (IdInt current_user)) in
     do! (if is_admin
          then
            let! other_admins :=
              read_db (ChatService.get_other_admins chat_id
                         (IdInt current_user)) in
            match other_admins with
            | [] =>
                raise (HTTPException 400
                         (Lit "You are the only admin. Please assign another admin before leaving"))
            | _ :: _ => ret tt
            end
          else ret tt) in
     do! call_db (ChatService.remove_group_member chat_id
                    (IdInt current_user) None true reason now) in
     do! call_manager
           (Registry.broadcast_to_chat chat_id
              (Registry.Event "member_left" chat_id (pretty current_user))
              None) in
     ret "Left group successfully").

End Router.

(** ** [join_group_via_invite] as a sequence of store operations

    Every [await chat_service....] of the handler is one round trip to the
    store, and between two of them another request may run.  [step]
    performs the handler up to and including its next round trip. *)

Module JoinTask.

Inductive pc :=
  | Start
  | HaveInvite (i : invite)
  | Checked (i : invite) (c : chat)
  | Added (i : invite) (c : chat)
  | Done (r : result Router.join_response).

Definition step (invite_code : string) (current_user : Z) (now now' : time)
    (p : pc) (d : store) : pc * store :=
  match p with
  | Start =>
      match ChatService.get_invite invite_code now d with
      | None =>
          (Done (Raise (HTTPException 404 (Lit "Invite not found or expired"))),
           d)
      | Some i =>
          if bool_decide (i_expires_at i < now')%Z
          then (Done (Raise (HTTPException 400 (Lit "Invite has expired"))), d)
          else (HaveInvite i, d)
      end
  | HaveInvite i =>
      match ChatService.get_chat (i_chat_id i) d with
      | None => (Done (Raise (HTTPException 404 (Lit "Chat not found"))), d)
      | Some c =>
          if is_participant (IdInt current_user) c
          then (Done (Ok (Router.already_member i c)), d)
          else (Checked i c, d)
      end
  | Checked i c =>
      (Added i c,
       (ChatService.add_chat_participant (i_chat_id i) (IdInt current_user)
          "user" "member" now' d).2)
  | Added i c =>
      (Done (Ok (Router.joined i c)),
       (ChatService.mark_invite_used invite_code (IdInt current_user) now' d).2)
  | Done r => (Done r, d)
  end.

(** [n] consecutive steps of one request, with nothing in between. *)
Fixpoint run (n : nat) (invite_code : string) (current_user : Z)
    (now now' : time) (p : pc) (d : store) : pc * store :=
  match n with
  | 0 => (p, d)
  | S n' =>
      let '(p', d') := step invite_code current_user now now' p d in
      run n' invite_code current_user now now' p' d'
  end.

(** Two requests for the same invite code, by two users, served by the
    same process.  A schedule says whose step comes next. *)
Inductive who := First | Second.

Fixpoint interleave (schedule : list who) (invite_code : string)
    (user1 user2 : Z) (now now' : time) (p1 p2 : pc) (d : store)
    : pc * pc * store :=
  match schedule with
  | [] => (p1, p2, d)
  | First :: rest =>
      let '(p1', d') := step invite_code user1 now now' p1 d in
      interleave rest invite_code user1 user2 now now' p1' p2 d'
  | Second :: rest =>
      let '(p2', d') := step invite_code user2 now now' p2 d in
      interleave rest invite_code user1 user2 now now' p1 p2' d'
  end.

(** The invite is redeemable in [d] at time [now]: a request started then
    gets past the lookup. *)
Definition redeemable (invite_code : string) (now : time) (d : store) : bool :=
  match ChatService.get_invite invite_code now d with
  | Some _ => true
  | None => false
  end.

(** [user_id] is a participant of the chat whose [_id] is [o]. *)
Definition member_of (o : oid) (user_id : ident) (d : store) : bool :=
  match find_one (by__id o) (chats d) with
  | Some c => bool_decide (user_id ∈ p_id <$> c_participants c)
  | None => false
  end.

End JoinTask.

(** ** Sample data *)

Module Sample.

Local Open Scope Z_scope.

Definition chat1 : oid := "65a000000000000000000001".
Definition msg1 : oid := "65b000000000000000000001".
Definition msg2 : oid := "65b000000000000000000002".
Definition msg3 : oid := "65b000000000000000000003".

Definition creator_permissions : list string :=
  ["invite"; "add_members"; "remove_members"; "manage_settings";
   "manage_admins"].

(** The group of the scenarios: participants 1 (admin), 2 and 3, as
    [create_group_chat] stores it. *)
Definition group : chat :=
  {| c__id := chat1;
     c_chat_id := Some "65c000000000000000000009";
     c_chat_type := "group_chat";
     c_participants :=
       [Participant (IdInt 1) "user" "admin" 100
          ["invite"; "add_members"; "manage_settings"; "remove_members"];
        Participant (IdInt 2) "dealer" "member" 100 [];
        Participant (IdInt 3) "dealer" "member" 100 []];
     c_title := Some "traders";
     c_last_message := None;
     c_last_activity := 100;
     c_unread_counts := {[ "dealer_2" := 2%Z ]};
     c_group_admins :=
       [Admin (IdInt 1) "user" "admin" None None creator_permissions];
     c_removed_members := [] |}.

(** A text message as [add_message] stores it. *)
Definition text (id : oid) (sender : Z) (kind content : string) (t : time)
    : message :=
  ChatService.message_dict id
    {| ChatService.cm_chat_id := chat1;
       ChatService.cm_sender_id := IdInt sender;
       ChatService.cm_sender_type := kind;
       ChatService.cm_content := content;
       ChatService.cm_message_type := "text";
       ChatService.cm_reply_to := None;
       ChatService.cm_gem_id := None;
       ChatService.cm_attachment := None |} t.

Definition invite1 : invite :=
  {| i_code := "k3Jx0aQ"; i_chat_id := chat1; i_creator_id := IdInt 1;
     i_created_at := 100; i_expires_at := 1000; i_is_active := true;
     i_used_by := None; i_used_at := None |}.

Definition store0 : store :=
  {| chats := [group];
     messages := [text msg1 1 "user" "first" 110;
                  text msg2 1 "user" "second" 120];
     invites := [invite1];
     removed_members := [] |}.

Definition world0 : world := World store0 Registry.init.

(** A registry with a room of three connections; the transport of
    [user_2] is closed. *)
Definition registry1 : Registry.ConnectionManager :=
  {| Registry.active_connections :=
       {[ "user_1" := Registry.Build_WebSocket true [];
          "user_2" := Registry.Build_WebSocket false [];
          "user_3" := Registry.Build_WebSocket true [] ]};
     Registry.chat_rooms := {[ chat1 := ["user_1"; "user_2"; "user_3"] ]} |}.

Definition hello : Registry.payload := Registry.Event "new_message" chat1 msg1.

End Sample.

(** ** The rest of [ConnectionManager] *)

Module RegistryExt.
Import Registry.

Definition get_chat_participants (chat_id : string) (m : ConnectionManager)
    : list string :=
  default [] (chat_rooms m !! chat_id).

(** [send_personal_message] catches what [send_json] raises, and nothing
    iterates here: it returns normally in every case. *)
Definition send_personal_message (msg : payload) (connection_id : string)
    (m : ConnectionManager) : ConnectionManager :=
  match active_connections m !! connection_id with
  | Some websocket =>
      match send_json websocket msg with
      | Ok websocket' =>
          {| active_connections :=
               <[connection_id := websocket']> (active_connections m);
             chat_rooms := chat_rooms m |}
      | Raise _ => disconnect connection_id m
      end
  | None => m
  end.

(** [websocket.send_json(message)] encodes [message] with [json.dumps]
    before it hands anything to the transport.  For a payload that holds
    a [datetime] the encoding raises [TypeError] and nothing is sent,
    whatever the state of the transport; [serializable] tells whether the
    payload can be encoded. *)
Definition send_json_dumps (serializable : bool) (ws : WebSocket)
    (msg : payload) : result WebSocket :=
  if serializable then send_json ws msg
  else Raise (TypeError "Object of type datetime is not JSON serializable").

(** [broadcast_to_chat] for a payload that may not be serializable: the
    loop of [Registry.broadcast_to_chat] with [send_json_dumps] as the
    sending step. *)
Definition broadcast_body_dumps (serializable : bool) (msg : payload)
    (exclude_connection : option string) (connection_id : string)
    (m : ConnectionManager) : ConnectionManager :=
  if decide (Some connection_id = exclude_connection) then m
  else
    match active_connections m !! connection_id with
    | None => m
    | Some websocket =>
        match send_json_dumps serializable websocket msg with
        | Ok websocket' =>
            {| active_connections :=
                 <[connection_id := websocket']> (active_connections m);
               chat_rooms := chat_rooms m |}
        | Raise _ => disconnect connection_id m
        end
    end.

Fixpoint broadcast_loop_dumps (serializable : bool) (chat_id : string)
    (msg : payload) (exclude_connection : option string) (used : nat)
    (todo : list string) : M ConnectionManager unit :=
  λ m,
    if negb (length (default [] (chat_rooms m !! chat_id)) =? used)%nat
    then (Raise (RuntimeError "Set changed size during iteration"), m)
    else
      match todo with
      | [] => (Ok tt, m)
      | connection_id :: rest =>
          broadcast_loop_dumps serializable chat_id msg exclude_connection
            used rest
            (broadcast_body_dumps serializable msg exclude_connection
               connection_id m)
      end.

Definition broadcast_to_chat_dumps (serializable : bool) (chat_id : string)
    (msg : payload) (exclude_connection : option string)
    : M ConnectionManager unit :=
  λ m,
    match chat_rooms m !! chat_id with
    | Some room =>
        broadcast_loop_dumps serializable chat_id msg exclude_connection
          (length room) room m
    | None => (Ok tt, m)
    end.

End RegistryExt.

(** ** More of [ChatService] *)

Module ChatServiceExt.
Import ChatService.

(** The dictionary [updates] of [increment_unread_count]: one entry
    ["unread_counts.{type}_{id}": 1] for every participant that is not
    the sender. *)
Definition unread_updates (sender_id : ident) (sender_type : string)
    (c : chat) : gmap string Z :=
  list_to_map
    ((λ p, (participant_key (p_type p) (p_id p), 1%Z)) <$>
       List.filter
         (λ p, negb (bool_decide (py_str (p_id p) = py_str sender_id))
               || negb (bool_decide (p_type p = sender_type)))
         (c_participants c)).

(** [{"$inc": updates}]: a counter that is absent starts from the
    increment. *)
Definition inc_unread (updates : gmap string Z) (c : chat) : chat :=
  with_unread_counts
    (union_with (λ n k, Some (n + k)%Z) (c_unread_counts c) updates) c.

Definition increment_unread_count (chat_id : string) (sender_id : ident)
    (sender_type : string) (db : store) : store :=
  match get_chat_details chat_id db with
  | None => db
  | Some c =>
      let updates := unread_updates sender_id sender_type c in
      if decide (updates = ∅) then db
      else
        match ObjectId chat_id with
        | Raise _ => db
        | Ok o =>
            set_chats
              (update_one (λ c, by__id o c || by_chat_id chat_id c)
                 (inc_unread updates) (chats db)).1 db
        end
  end.

(** [get_unread_count(chat_info, user_id)], the second definition of that
    name in the class, which is the one in force. *)
Definition get_unread_count (chat_info : chat) (user_id : ident) : Z :=
  let user_id_str := py_str user_id in
  match c_unread_counts chat_info !! ("user_" +:+ user_id_str) with
  | Some n => n
  | None =>
      match c_unread_counts chat_info !! user_id_str with
      | Some n => n
      | None => 0%Z
      end
  end.

(** [{"$elemMatch": {"user_id": user_id, "user_type": user_type}}]
    on [read_by] *)
Definition read_by_user_kind (user_id : ident) (user_type : string)
    (m : message) : bool :=
  existsb (λ r, bool_decide (r_user_id r = user_id)
                && bool_decide (r_user_type r = user_type)) (m_read_by m).

Definition mark_messages_as_read_query (chat_id : string) (user_id : ident)
    (user_type : string) (only : option oid) (m : message) : bool :=
  bool_decide (m_chat_id m = chat_id)
  && negb (bool_decide (m_sender_id m = user_id))
  && negb (read_by_user_kind user_id user_type m)
  && match only with
     | Some o => bool_decide (m__id m = o)
     | None => true
     end.

Definition mark_messages_as_read (chat_id : string) (user_id : ident)
    (user_type : string) (message_id : option string) (now : time)
    (db : store) : bool * store :=
  let only : result (option oid) :=
    match message_id with
    | None | Some "" => Ok None
    | Some s =>
        match ObjectId s with
        | Ok o => Ok (Some o)
        | Raise e => Raise e
        end
    end in
  match only with
  | Raise _ => (false, db)
  | Ok only =>
      let '(ms, modified_count) :=
        update_many (mark_messages_as_read_query chat_id user_id user_type only)
          (λ m, with_read_by
                  (addToSet (Receipt user_id user_type now) (m_read_by m)) m)
          (messages db) in
      (bool_decide (0 < modified_count), set_messages ms db)
  end.

(** One element of the list that [add_group_members] returns. *)
Record added_member := AddedMember {
  am_user_id : ident;
  am_role : string;
  am_joined_at : time
}.

Definition new_member (member_id : Z) (now : time) : participant :=
  {| p_id := IdInt member_id; p_type := "user"; p_role := "member";
     p_joined_at := now; p_permissions := [] |}.

(** [datetime.utcnow()] is read once for every member that is appended;
    [now k] is the reading for the [k]-th of them. *)
Definition add_group_members (chat_id : string) (member_ids : list Z)
    (added_by : Z) (now : nat → time) : M store (list added_member) :=
  try_except
    (λ db,
       match ObjectId chat_id with
       | Raise e => (Raise e, db)
       | Ok o =>
           match find_one (by__id o) (chats db) with
           | None => (Raise (ValueError (Lit "Group not found")), db)
           | Some c =>
               let existing_ids : list string :=
                 (λ p, py_str (p_id p)) <$> c_participants c in
               let new_members : list participant :=
                 imap (λ k member_id, new_member member_id (now k))
                   (List.filter
                      (λ member_id,
                         bool_decide (py_str (IdInt member_id) ∉ existing_ids))
                      member_ids) in
               let db :=
                 match new_members with
                 | [] => db
                 | _ :: _ =>
                     set_chats
                       (update_one (by__id o)
                          (λ c, with_participants
                                  (c_participants c ++ new_members) c)
                          (chats db)).1 db
                 end in
               (Ok ((λ p, AddedMember (p_id p) (p_role p) (p_joined_at p))
                      <$> new_members), db)
           end
       end)
    (λ e, raise (ValueError (Fmt "Failed to add members: " e))).

(** [ChatService.join_group_via_invite], the method of the service (not
    the handler of the same name).  [now] is the instant of the query for
    the invite, [now'] the later one written to [joined_at]. *)
Definition join_group_via_invite (invite_code : string) (user_id : ident)
    (now now' : time) : M store string :=
  λ db,
    match find_one (λ i, bool_decide (i_code i = invite_code)
                         && bool_decide (now < i_expires_at i)%Z
                         && i_is_active i) (invites db) with
    | None => (Raise (ValueError (Lit "Invalid or expired invite link")), db)
    | Some i =>
        match ObjectId (i_chat_id i) with
        | Raise e => (Raise e, db)
        | Ok o =>
            match find_one
                    (λ c, by__id o c
                          && existsb (λ p, bool_decide (p_id p = user_id))
                               (c_participants c)) (chats db) with
            | Some _ =>
                (Raise (ValueError (Lit "You are already in this group")), db)
            | None =>
                (Ok (i_chat_id i),
                 set_chats
                   (update_one (by__id o)
                      (λ c, with_participants
                              (c_participants c
                               ++ [Participant user_id "user" "member" now' []])
                              c)
                      (chats db)).1 db)
            end
        end
    end.

(** [timedelta(hours=h)].  An instant is counted in milliseconds, the
    resolution of a stored date, from [datetime.min]. *)
Definition hours (h : Z) : time := (h * 3600000)%Z.

(** [datetime.max], the last millisecond of the year 9999. *)
Definition datetime_max : time := 315537897599999%Z.

(** [datetime + timedelta] raises [OverflowError] outside this range. *)
Definition in_datetime_range (t : time) : bool :=
  bool_decide (0 ≤ t)%Z && bool_decide (t ≤ datetime_max)%Z.

(** [invite_code] is the value of [secrets.token_urlsafe(16)]; [now] is
    the instant from which the expiry is counted, [now'] the later one
    written to [created_at].  Whatever is raised is answered with the
    same 500. *)
Definition create_group_invite (chat_id : string) (creator_id : ident)
    (expires_in_hours : Z) (invite_code : string) (now now' : time)
    : M store string :=
  λ db,
    if in_datetime_range (now + hours expires_in_hours)%Z
    then
      let invite_data :=
        {| i_code := invite_code; i_chat_id := chat_id;
           i_creator_id := creator_id; i_created_at := now';
           i_expires_at := (now + hours expires_in_hours)%Z;
           i_is_active := true; i_used_by := None; i_used_at := None |} in
      (Ok invite_code, set_invites (invites db ++ [invite_data]) db)
    else (Raise (HTTPException 500 (Lit "Failed to create invite")), db).

End ChatServiceExt.

(** ** More handlers of [chat.py] *)

Module RouterExt.

Record MessageRequest := {
  mq_content : string;
  mq_message_type : string;
  mq_attachment : option attachment;
  mq_gem_id : option Z
}.

(** The payload of the notification is built, with
    [jsonable_encoder(result)], before [broadcast_to_chat] is called. *)
Definition send_message (chat_id : string) (request : MessageRequest)
    (current_user : Z) (new_id : oid) (now : time) : M world message :=
  wrap_500 "Error sending message: "
    (let! sender_type :=
       check_db (ChatService.get_participant_type chat_id
                   (IdInt current_user)) in
     let msg :=
       {| ChatService.cm_chat_id := chat_id;
          ChatService.cm_sender_id := IdInt current_user;
          ChatService.cm_sender_type := sender_type;
          ChatService.cm_content := mq_content request;
          ChatService.cm_message_type := mq_message_type request;
          ChatService.cm_reply_to := None;
          ChatService.cm_gem_id := mq_gem_id request;
          ChatService.cm_attachment := mq_attachment request |} in
     let! result := try_db (ChatService.add_message msg new_id now) in
     do! call_db (λ d, (tt, ChatServiceExt.increment_unread_count chat_id
                              (IdInt current_user) sender_type d)) in
     let! encoded := of_result (jsonable_encoder result) in
     do! call_manager
           (Registry.broadcast_to_chat chat_id
              (Registry.Event "new_message" chat_id (m__id encoded))
              (Some (Router.user_connection current_user))) in
     of_result (jsonable_encoder result)).

Definition mark_chat_as_read (chat_id : string) (current_user : Z)
    (now : time) : M world string :=
  wrap_500 "Error marking messages as read: "
    (let! user_type :=
       check_db (ChatService.get_participant_type chat_id
                   (IdInt current_user)) in
     do! call_db (ChatService.mark_as_read chat_id (IdInt current_user)
                    user_type now) in
     let! o := check_db (λ _, ObjectId chat_id) in
     do! call_db (λ d,
           (tt,
            set_chats
              (update_one (λ c, by__id o c || by_chat_id chat_id c)
                 (ChatService.reset_unread user_type (IdInt current_user))
                 (chats d)).1 d)) in
     ret "Messages marked as read").

Definition remove_group_member (chat_id : string) (user_id : Z)
    (reason : option string) (current_user : Z) (now : time)
    : M world string :=
  wrap_500 "Error removing member: "
    (let! is_admin :=
       check_db (ChatService.is_group_admin chat_id (IdInt current_user)) in
     if negb is_admin
     then raise (HTTPException 403 (Lit "Only admins can remove members"))
     else
     do! call_db (ChatService.remove_group_member chat_id (IdInt user_id)
                    (Some (IdInt current_user)) false reason now) in
     do! call_manager
           (Registry.broadcast_to_chat chat_id
              (Registry.Event "member_removed" chat_id (pretty user_id))
              None) in
     ret "Member removed successfully").

(** Every entry of a reactions dict carries the [datetime] of the
    reaction, which [json.dumps] cannot encode: the dict is serializable
    only when it has no entry at all. *)
Definition json_serializable (reactions : gmap string (list reaction))
    : bool :=
  bool_decide (map_Forall (λ _ entries, entries = []) reactions).

(** The path parameter [chat_id] is used for the notification only.  The
    payload of the notification holds [result["reactions"]] as the
    service returned it. *)
Definition react_to_message (chat_id message_id emoji : string)
    (current_user : Z) (now : time)
    : M world (string * gmap string (list reaction)) :=
  wrap_500 "Error updating reaction: "
    (let! result :=
       try_db (ChatService.toggle_message_reaction message_id
                 (IdInt current_user) emoji now) in
     do! call_manager
           (RegistryExt.broadcast_to_chat_dumps (json_serializable result.2)
              chat_id
              (Registry.Event "reaction_updated" chat_id message_id)
              None) in
     ret result).

End RouterExt.

(** ** More sample data *)

Module Sample2.

Local Open Scope Z_scope.

(** A room of three members: [user_1] and [user_3] have open transports,
    [user_9] joined the room without a transport. *)
Definition registry2 : Registry.ConnectionManager :=
  {| Registry.active_connections :=
       {[ "user_1" := Registry.Build_WebSocket true [];
          "user_3" := Registry.Build_WebSocket true [] ]};
     Registry.chat_rooms :=
       {[ Sample.chat1 := ["user_1"; "user_9"; "user_3"] ]} |}.

End Sample2.

(** ** The WebSocket endpoint ([websocket_chat.py]) *)

Module WebSocketChat.

(** A frame received from the client, after [json.loads]: an object
    whose fields, where present, hold strings.  [data.get(k)] is the
    projection. *)
Record frame_data := {
  fd_type : option string;
  fd_chat_id : option string;
  fd_content : option string;
  fd_message_type : option string;
  fd_message_id : option string
}.

(** [if not x] for the value of [data.get(k)]: absent or empty. *)
Definition falsy (x : option string) : bool :=
  match x with
  | None => true
  | Some s => bool_decide (s = "")
  end.

(** What the endpoint sends to the client's own socket. *)
Inductive reply :=
  | ErrorReply (message : detail)
  | MessageSent (saved_message : message)
  | JoinedChat (chat_id : string).

(** The socket of the connection that is served. *)
Record ClientSocket := {
  cs_open : bool;
  cs_sent : list reply
}.

(** The module's [chat_service] and [manager], and the socket. *)
Record session := Session {
  s_world : world;
  s_socket : ClientSocket
}.

Definition in_world {A} (m : M world A) : M session A :=
  λ s, let '(r, w) := m (s_world s) in (r, Session w (s_socket s)).

(** [await websocket.send_json(...)] *)
Definition send_json (r : reply) : M session unit :=
  λ s,
    if cs_open (s_socket s)
    then (Ok tt,
          Session (s_world s)
            {| cs_open := true; cs_sent := cs_sent (s_socket s) ++ [r] |})
    else (Raise ConnectionClosed, s).

(** [user_id] is the text that [decode_access_token] returns. *)
Definition handle_websocket_message (data : frame_data) (user_id : string)
    (new_id : oid) (now : time) : M session unit :=
  try_except
    (let chat_id := default "" (fd_chat_id data) in
     if falsy (fd_chat_id data)
     then send_json (ErrorReply (Lit "chat_id is required"))
     else
     if bool_decide (fd_type data = Some "message") then
       let content := default "" (fd_content data) in
       if falsy (fd_content data)
       then send_json (ErrorReply (Lit "Message content is required"))
       else
         try_except
           (let msg :=
              {| ChatService.cm_chat_id := chat_id;
                 ChatService.cm_sender_id := IdStr user_id;
                 ChatService.cm_sender_type := "user";
                 ChatService.cm_content := content;
                 ChatService.cm_message_type :=
                   default "text" (fd_message_type data);
                 ChatService.cm_reply_to := None;
                 ChatService.cm_gem_id := None;
                 ChatService.cm_attachment := None |} in
            let! saved_message :=
              in_world (try_db (ChatService.add_message msg new_id now)) in
            do! in_world
                  (call_manager
                     (Registry.broadcast_to_chat chat_id
                        (Registry.Event "new_message" chat_id new_id)
                        (Some ("user_" +:+ user_id)))) in
            do! send_json (MessageSent saved_message) in
            in_world
              (call_db (λ d, (tt, ChatServiceExt.increment_unread_count
                                    chat_id (IdStr user_id) "user" d))))
           (λ e, send_json (ErrorReply (Fmt "Failed to process message: " e)))
     else if bool_decide (fd_type data = Some "join_chat") then
       do! in_world
             (call_manager
                (λ m, (Ok tt,
                       Registry.join_chat chat_id ("user_" +:+ user_id) m))) in
       do! in_world
             (call_db (ChatService.mark_messages_as_delivered chat_id
                         (IdStr user_id) "user" None now)) in
       send_json (JoinedChat chat_id)
     else if bool_decide (fd_type data = Some "mark_read") then
       do! in_world
             (call_db (ChatServiceExt.mark_messages_as_read chat_id
                         (IdStr user_id) "user" (fd_message_id data) now)) in
       ret tt
     else ret tt)
    (λ e, send_json (ErrorReply (Fmt "Error handling message: " e))).

End WebSocketChat.

(** ** The per-chat registry of [chat_manager.py] *)

Module ChatManager.

(** [KeyError]: a subscript on a key that the dictionary does not have. *)
Inductive error := KeyError (key : string).

(** The inner [Dict[int, WebSocket]] is kept in insertion order. *)
Record t := {
  active_connections : gmap string (list (Z * Registry.WebSocket));
  chat_rooms : gmap string (gset Z);
  user_rooms : gmap Z (gset string)
}.

(** [__init__] *)
Definition init : t :=
  {| active_connections := ∅; chat_rooms := ∅; user_rooms := ∅ |}.

(** [d[k] = v]: the value of a key that is present is replaced where it
    stands, a new key goes to the end. *)
Fixpoint dict_set (k : Z) (v : Registry.WebSocket)
    (d : list (Z * Registry.WebSocket)) : list (Z * Registry.WebSocket) :=
  match d with
  | [] => [(k, v)]
  | (k', v') :: rest =>
      if decide (k' = k) then (k, v) :: rest
      else (k', v') :: dict_set k v rest
  end.

(** [d.pop(k, None)] *)
Definition dict_pop (k : Z) (d : list (Z * Registry.WebSocket))
    : list (Z * Registry.WebSocket) :=
  List.filter (λ kv, negb (bool_decide (kv.1 = k))) d.

(** [connect], once [websocket.accept()] has returned. *)
Definition connect (websocket : Registry.WebSocket) (chat_id : string)
    (user_id : Z) (m : t) : option error * t :=
  let m :=
    match active_connections m !! chat_id with
    | Some _ => m
    | None =>
        {| active_connections := <[chat_id := []]> (active_connections m);
           chat_rooms := <[chat_id := ∅]> (chat_rooms m);
           user_rooms := user_rooms m |}
    end in
  let m :=
    {| active_connections :=
         <[chat_id := dict_set user_id websocket
                        (default [] (active_connections m !! chat_id))]>
           (active_connections m);
       chat_rooms := chat_rooms m;
       user_rooms := user_rooms m |} in
  match chat_rooms m !! chat_id with
  | None => (Some (KeyError chat_id), m)
  | Some room =>
      (None,
       {| active_connections := active_connections m;
          chat_rooms := <[chat_id := {[user_id]} ∪ room]> (chat_rooms m);
          user_rooms :=
            <[user_id := {[chat_id]} ∪ default ∅ (user_rooms m !! user_id)]>
              (user_rooms m) |})
  end.

Definition disconnect (chat_id : string) (user_id : Z) (m : t)
    : option error * t :=
  let after_chat : option error * t :=
    match active_connections m !! chat_id with
    | None => (None, m)
    | Some conns =>
        let conns := dict_pop user_id conns in
        let m :=
          {| active_connections := <[chat_id := conns]> (active_connections m);
             chat_rooms := chat_rooms m;
             user_rooms := user_rooms m |} in
        match chat_rooms m !! chat_id with
        | None => (Some (KeyError chat_id), m)
        | Some room =>
            let m :=
              {| active_connections := active_connections m;
                 chat_rooms := <[chat_id := room ∖ {[user_id]}]> (chat_rooms m);
                 user_rooms := user_rooms m |} in
            match conns with
            | [] =>
                (None,
                 {| active_connections := delete chat_id (active_connections m);
                    chat_rooms := delete chat_id (chat_rooms m);
                    user_rooms := user_rooms m |})
            | _ :: _ => (None, m)
            end
        end
    end in
  match after_chat with
  | (Some e, m) => (Some e, m)
  | (None, m) =>
      match user_rooms m !! user_id with
      | None => (None, m)
      | Some rooms =>
          let rooms := rooms ∖ {[chat_id]} in
          (None,
           {| active_connections := active_connections m;
              chat_rooms := chat_rooms m;
              user_rooms :=
                if decide (rooms = ∅) then delete user_id (user_rooms m)
                else <[user_id := rooms]> (user_rooms m) |})
      end
  end.

(** The users with a connection in a chat, and the chats of a user. *)
Definition users_of (m : t) (chat_id : string) : list Z :=
  (default [] (active_connections m !! chat_id)).*1.
Definition rooms_of (m : t) (user_id : Z) : gset string :=
  default ∅ (user_rooms m !! user_id).

(** The three dictionaries describe the same relation between chats and
    users, and none of them holds an empty entry. *)
Definition consistent (m : t) : Prop :=
  (∀ c conns, active_connections m !! c = Some conns →
     conns ≠ [] ∧ NoDup conns.*1
     ∧ chat_rooms m !! c = Some (list_to_set conns.*1))
  ∧ (∀ c, is_Some (chat_rooms m !! c) → is_Some (active_connections m !! c))
  ∧ (∀ u c, c ∈ rooms_of m u ↔ u ∈ users_of m c)
  ∧ (∀ u, user_rooms m !! u ≠ Some ∅).

End ChatManager.

(** * Properties *)

(** ** Collections *)

Section CollectionFacts.
Context {D : Type} `{EqDecision D}.
Implicit Types (f : D → bool) (upd : D → D) (l : list D).

Lemma find_one_Some f l d :
  find_one f l = Some d → f d = true ∧ d ∈ l.
Proof.
  induction l as [|x l IH]; simpl; [done|].
  destruct (f x) eqn:Hx.
  - intros [= <-]. split; [done | by left].
  - intros Hd. destruct (IH Hd). split; [done | by right].
Qed.

Lemma find_one_None f l :
  find_one f l = None ↔ ∀ d, d ∈ l → f d = false.
Proof.
  induction l as [|x l IH]; simpl.
  - split; [intros _ d Hd; inversion Hd | done].
  - destruct (f x) eqn:Hx.
    + split; [done|]. intros Hall.
      specialize (Hall x (list_elem_of_here _ _)). congruence.
    + rewrite IH. split.
      * intros Hall d Hd. inversion Hd; subst; auto.
      * intros Hall d Hd. apply Hall. by right.
Qed.

Lemma find_one_split f l d :
  find_one f l = Some d →
  ∃ pre post, l = pre ++ d :: post ∧ find_one f pre = None ∧ f d = true.
Proof.
  induction l as [|x l IH]; simpl; [done|].
  destruct (f x) eqn:Hx.
  - intros [= <-]. by exists [], l.
  - intros Hd. destruct (IH Hd) as (pre & post & -> & Hpre & Hfd).
    exists (x :: pre), post. simpl. by rewrite Hx.
Qed.

Lemma find_one_app f pre l :
  find_one f pre = None → find_one f (pre ++ l) = find_one f l.
Proof.
  induction pre as [|x pre IH]; simpl; [done|].
  destruct (f x); [done | exact IH].
Qed.

Lemma update_one_app f upd pre l :
  find_one f pre = None →
  update_one f upd (pre ++ l) =
    (pre ++ (update_one f upd l).1, (update_one f upd l).2).
Proof.
  induction pre as [|x pre IH]; simpl.
  - by destruct (update_one f upd l).
  - destruct (f x); [done|]. intros Hpre. by rewrite (IH Hpre).
Qed.

Lemma update_one_no_match f upd l :
  find_one f l = None → update_one f upd l = (l, 0).
Proof.
  induction l as [|x l IH]; simpl; [done|].
  destruct (f x); [done|]. intros Hl. by rewrite (IH Hl).
Qed.

(** [update_one] rewrites the document that [find_one] returns for the
    same filter, and nothing else. *)
Lemma update_one_first f upd l d :
  find_one f l = Some d →
  ∃ pre post, l = pre ++ d :: post ∧ find_one f pre = None ∧
    (update_one f upd l).1 = pre ++ upd d :: post.
Proof.
  intros Hd. destruct (find_one_split _ _ _ Hd) as (pre & post & -> & Hpre & Hfd).
  exists pre, post. split; [done|]. split; [done|].
  rewrite (update_one_app _ _ _ _ Hpre). simpl. by rewrite Hfd.
Qed.

Lemma find_one_update_one f upd l d :
  find_one f l = Some d → f (upd d) = true →
  find_one f (update_one f upd l).1 = Some (upd d).
Proof.
  intros Hd Hupd.
  destruct (update_one_first f upd l d Hd) as (pre & post & -> & Hpre & ->).
  rewrite (find_one_app _ _ _ Hpre). simpl. by rewrite Hupd.
Qed.

Lemma update_many_fst f upd l :
  (update_many f upd l).1 = (λ d, if f d then upd d else d) <$> l.
Proof.
  induction l as [|x l IH]; [done|].
  cbn [update_many]. destruct (update_many f upd l) as [l' n].
  cbn [fst] in IH. rewrite fmap_cons, <- IH. by destruct (f x).
Qed.

Lemma update_many_none f upd l :
  (∀ d, d ∈ l → f d = false) → (update_many f upd l).1 = l.
Proof.
  intros Hall. rewrite update_many_fst.
  induction l as [|x l IH]; [done|].
  rewrite fmap_cons, (Hall x (list_elem_of_here _ _)). f_equal.
  apply IH. intros d Hd. apply Hall. by right.
Qed.

Lemma addToSet_fresh (x : D) (l : list D) : x ∉ l → addToSet x l = l ++ [x].
Proof. intros Hx. unfold addToSet. by rewrite decide_False. Qed.

End CollectionFacts.

(** ** The connection registry *)

Section RegistryFacts.
Import Registry.
Implicit Types (m : ConnectionManager) (c x : string).

Lemma discard_length c (room : list string) :
  c ∈ room → length (discard c room) < length room.
Proof.
  unfold discard. induction room as [|y room IH]; [by inversion 1|].
  intros Hc. cbn [List.filter]. destruct (decide (y = c)) as [->|Hne].
  - rewrite bool_decide_eq_true_2 by done. cbn [negb length].
    pose proof (List.filter_length_le
                  (λ y, negb (bool_decide (y = c))) room). lia.
  - rewrite bool_decide_eq_false_2 by done. cbn [negb length].
    apply elem_of_cons in Hc as [->|Hc]; [done|].
    specialize (IH Hc). lia.
Qed.

Lemma room_of_disconnect chat_id c m ws :
  active_connections m !! c = Some ws →
  room_of chat_id (disconnect c m) = discard c (room_of chat_id m).
Proof.
  intros Hc. unfold room_of, disconnect. rewrite Hc. cbn [chat_rooms].
  rewrite lookup_fmap. by destruct (chat_rooms m !! chat_id).
Qed.

Lemma body_deliverable msg ex m x :
  deliverable ex m x →
  chat_rooms (broadcast_body msg ex x m) = chat_rooms m
  ∧ ∀ y, y ≠ x →
      active_connections (broadcast_body msg ex x m) !! y
      = active_connections m !! y.
Proof.
  unfold broadcast_body. intros [Hex | [Hnone | (ws & Hws & Hopen)]].
  - by rewrite decide_True.
  - destruct (decide _); [done|]. by rewrite Hnone.
  - destruct (decide _); [done|]. rewrite Hws. unfold send_json.
    rewrite Hopen. cbn [active_connections chat_rooms]. split; [done|].
    intros y Hy. by rewrite lookup_insert_ne.
Qed.

Lemma body_closed msg ex m c ws :
  Some c ≠ ex → active_connections m !! c = Some ws → ws_open ws = false →
  broadcast_body msg ex c m = disconnect c m.
Proof.
  intros Hex Hws Hclosed. unfold broadcast_body.
  rewrite decide_False by done. rewrite Hws. unfold send_json.
  by rewrite Hclosed.
Qed.

Lemma loop_size_changed chat_id msg ex used todo m :
  length (room_of chat_id m) ≠ used →
  broadcast_loop chat_id msg ex used todo m = (Raise set_changed, m).
Proof.
  intros Hne. apply Nat.eqb_neq in Hne. unfold room_of in Hne.
  destruct todo; cbn [broadcast_loop]; by rewrite Hne.
Qed.

Lemma loop_next chat_id msg ex used x todo m :
  length (room_of chat_id m) = used →
  broadcast_loop chat_id msg ex used (x :: todo) m
  = broadcast_loop chat_id msg ex used todo (broadcast_body msg ex x m).
Proof.
  intros Heq. apply Nat.eqb_eq in Heq. unfold room_of in Heq.
  cbn [broadcast_loop]. by rewrite Heq.
Qed.

Lemma loop_failure chat_id msg ex c ws post pre : ∀ m,
  c ∈ room_of chat_id m →
  NoDup (pre ++ [c]) →
  Forall (deliverable ex m) pre →
  Some c ≠ ex → active_connections m !! c = Some ws → ws_open ws = false →
  ∃ m',
    broadcast_loop chat_id msg ex (length (room_of chat_id m))
      (pre ++ c :: post) m = (Raise set_changed, m')
    ∧ (∀ x, x ∉ pre → x ≠ c →
         active_connections m' !! x = active_connections m !! x)
    ∧ active_connections m' !! c = None.
Proof.
  induction pre as [|y pre IH]; intros m Hin Hnd Hgood Hex Hws Hclosed.
  - exists (disconnect c m). cbn [app].
    rewrite loop_next by done.
    rewrite (body_closed _ _ _ _ _ Hex Hws Hclosed).
    rewrite loop_size_changed.
    + split; [done|]. unfold disconnect. rewrite Hws.
      cbn [active_connections]. split.
      * intros x _ Hx. by rewrite lookup_delete_ne.
      * apply lookup_delete_eq.
    + rewrite (room_of_disconnect _ _ _ _ Hws).
      pose proof (discard_length _ _ Hin). lia.
  - cbn [app] in Hnd |- *. apply NoDup_cons in Hnd as [Hy Hnd].
    apply Forall_cons in Hgood as [Hgy Hgood].
    destruct (body_deliverable msg ex m y Hgy) as [Hrooms Hact].
    assert (Hyc : c ≠ y) by (intros ->; apply Hy; set_solver).
    rewrite loop_next by done.
    set (m1 := broadcast_body msg ex y m) in *.
    assert (Hroom : room_of chat_id m1 = room_of chat_id m)
      by (unfold room_of; by rewrite Hrooms).
    destruct (IH m1) as (m' & Hrun & Hothers & Hgone).
    + by rewrite Hroom.
    + done.
    + apply Forall_forall. intros x Hx.
      assert (Hxy : x ≠ y) by (intros ->; apply Hy; set_solver).
      rewrite Forall_forall in Hgood. specialize (Hgood x Hx).
      unfold deliverable in *. by rewrite (Hact x Hxy).
    + done.
    + by rewrite (Hact c Hyc).
    + done.
    + exists m'. rewrite Hroom in Hrun. split; [done|]. split; [|done].
      intros x Hx Hxc. rewrite Hothers; [|set_solver|done].
      apply Hact. set_solver.
Qed.

(** C1.  When the transport of a member [c] of the room is closed and
    every member visited before it is harmless, [broadcast_to_chat]
    disconnects [c] and then raises [RuntimeError] to its caller: the room
    is the very set being iterated, so removing [c] from it invalidates
    the iterator.  The members after [c] in iteration order are sent
    nothing. *)
Theorem broadcast_send_failure_raises m chat_id msg ex pre c post ws :
  chat_rooms m !! chat_id = Some (pre ++ c :: post) →
  NoDup (pre ++ c :: post) →
  Forall (deliverable ex m) pre →
  Some c ≠ ex → active_connections m !! c = Some ws → ws_open ws = false →
  ∃ m',
    broadcast_to_chat chat_id msg ex m = (Raise set_changed, m')
    ∧ active_connections m' !! c = None
    ∧ ∀ x, x ∈ post → delivered m' x = delivered m x.
Proof.
  intros Hroom Hnd Hgood Hex Hws Hclosed.
  unfold broadcast_to_chat. rewrite Hroom.
  assert (Hr : room_of chat_id m = pre ++ c :: post)
    by (unfold room_of; by rewrite Hroom).
  destruct (loop_failure chat_id msg ex c ws post pre m)
    as (m' & Hrun & Hothers & Hgone); try done.
  - rewrite Hr. set_solver.
  - apply NoDup_app in Hnd as (Hpre & Hdisj & Hcpost).
    apply NoDup_app. split; [done|]. split; [|apply NoDup_singleton].
    intros x Hx Hxc. apply (Hdisj x Hx).
    apply list_elem_of_singleton in Hxc as ->. by left.
  - exists m'. rewrite Hr in Hrun. split; [done|]. split; [done|].
    intros x Hx. unfold delivered.
    apply NoDup_app in Hnd as (Hpre & Hdisj & Hcpost).
    apply NoDup_cons in Hcpost as [Hc Hpost].
    rewrite Hothers; [done| |].
    + intros Hxpre. apply (Hdisj x Hxpre). set_solver.
    + intros ->. done.
Qed.

(** The registry of [Sample.registry1]: [user_1] is served, the closed
    transport of [user_2] ends the broadcast with an error, and [user_3],
    whose transport is open, has received nothing. *)
Lemma broadcast_send_failure_raises_witness :
  ∃ m',
    broadcast_to_chat Sample.chat1 Sample.hello None Sample.registry1
    = (Raise set_changed, m')
    ∧ active_connections m' !! "user_2" = None
    ∧ ∀ x, x ∈ ["user_3"] → delivered m' x = delivered Sample.registry1 x.
Proof.
  apply (broadcast_send_failure_raises Sample.registry1 Sample.chat1
           Sample.hello None ["user_1"] "user_2" ["user_3"]
           (Build_WebSocket false [])).
  - reflexivity.
  - apply (bool_decide_unpack _). vm_compute. reflexivity.
  - constructor; [|constructor]. right. right.
    exists (Build_WebSocket true []). split; reflexivity.
  - discriminate.
  - reflexivity.
  - reflexivity.
Defined.

End RegistryFacts.

(** ** Reactions *)

Section ReactionFacts.
Import ChatService.
Implicit Types (R : gmap string (list reaction)) (l : list reaction).

(** The entries of [user_id] in a list of reactions. *)
Lemma find_user_None user_id l :
  List.find (λ r, bool_decide (rx_user_id r = user_id)) l = None ↔
  ∀ r, r ∈ l → rx_user_id r ≠ user_id.
Proof.
  induction l as [|y l IH]; cbn [List.find].
  - split; [intros _ r Hr; inversion Hr | done].
  - destruct (decide (rx_user_id y = user_id)) as [Hy|Hy].
    + rewrite bool_decide_eq_true_2 by done. split; [done|].
      intros Hall. by destruct (Hall y (list_elem_of_here _ _)).
    + rewrite bool_decide_eq_false_2 by done. rewrite IH. split.
      * intros Hall r Hr. apply elem_of_cons in Hr as [->|Hr]; auto.
      * intros Hall r Hr. apply Hall. by right.
Qed.

Lemma find_user_app_new user_id l now :
  List.find (λ r, bool_decide (rx_user_id r = user_id)) l = None →
  List.find (λ r, bool_decide (rx_user_id r = user_id))
    (l ++ [Reaction user_id now]) = Some (Reaction user_id now).
Proof.
  induction l as [|y l IH]; cbn [List.find app].
  - intros _. by rewrite bool_decide_eq_true_2.
  - destruct (bool_decide (rx_user_id y = user_id)); [done | exact IH].
Qed.

Lemma list_remove_app_new x l : x ∉ l → list_remove x (l ++ [x]) = l.
Proof.
  induction l as [|y l IH]; cbn [list_remove app]; intros Hx.
  - by rewrite decide_True.
  - apply not_elem_of_cons in Hx as [Hxy Hx].
    rewrite decide_False by done. by rewrite (IH Hx).
Qed.

Lemma toggled_absent R user_id emoji now :
  List.find (λ r, bool_decide (rx_user_id r = user_id))
    (default [] (R !! emoji)) = None →
  toggled R user_id emoji now
  = <[emoji := default [] (R !! emoji) ++ [Reaction user_id now]]> R.
Proof.
  intros Hnone. unfold toggled. rewrite Hnone.
  by destruct (default [] (R !! emoji)).
Qed.

Lemma toggled_present R user_id emoji now r :
  List.find (λ r, bool_decide (rx_user_id r = user_id))
    (default [] (R !! emoji)) = Some r →
  toggled R user_id emoji now
  = match list_remove r (default [] (R !! emoji)) with
    | [] => delete emoji R
    | rest => <[emoji := rest]> R
    end.
Proof.
  intros Hsome. unfold toggled. rewrite Hsome.
  by destruct (list_remove r (default [] (R !! emoji))).
Qed.

Lemma toggled_other R user_id emoji now other :
  other ≠ emoji → toggled R user_id emoji now !! other = R !! other.
Proof.
  intros Hne. unfold toggled.
  destruct (match List.find _ _ with Some _ => _ | None => _ end).
  - by rewrite lookup_delete_ne.
  - by rewrite lookup_insert_ne.
Qed.

Lemma toggled_twice R user_id emoji t1 t2 :
  R !! emoji ≠ Some [] →
  List.find (λ r, bool_decide (rx_user_id r = user_id))
    (default [] (R !! emoji)) = None →
  toggled (toggled R user_id emoji t1) user_id emoji t2 = R.
Proof.
  intros Hinv Hnone. rewrite (toggled_absent _ _ _ _ Hnone).
  set (old := default [] (R !! emoji)) in *.
  assert (Hfresh : Reaction user_id t1 ∉ old).
  { intros Hin. by apply (proj1 (find_user_None _ _) Hnone _ Hin). }
  erewrite toggled_present; rewrite lookup_insert_eq; cbn [default id];
    [| by apply find_user_app_new].
  rewrite (list_remove_app_new _ _ Hfresh).
  subst old. destruct (R !! emoji) as [[|r l]|] eqn:Hlook; cbn [default id].
  - done.
  - rewrite insert_insert_eq. by apply insert_id.
  - rewrite delete_insert_eq. by apply delete_id.
Qed.

(** No emoji is mapped to an empty list; [toggled] keeps it so. *)
Lemma toggled_pruned R user_id emoji now :
  (∀ e, R !! e ≠ Some []) →
  ∀ e, toggled R user_id emoji now !! e ≠ Some [].
Proof.
  intros Hinv e. destruct (decide (e = emoji)) as [->|Hne].
  - unfold toggled.
    destruct (match List.find _ _ with Some _ => _ | None => _ end) eqn:Hl.
    + by rewrite lookup_delete_eq.
    + by rewrite lookup_insert_eq.
  - by rewrite toggled_other.
Qed.

Lemma get_message_Some message_id db found :
  get_message message_id db = Some found →
  ∃ o d, ObjectId message_id = Ok o
    ∧ find_one (msg_by__id o) (messages db) = Some d
    ∧ found = with_message_id (Some (m__id d)) d.
Proof.
  unfold get_message. destruct (ObjectId message_id) as [o|]; [|done].
  destruct (find_one _ _) as [d|] eqn:Hd; [|done].
  intros [= <-]. by exists o, d.
Qed.

Lemma with_reactions_id (d : message) : with_reactions (m_reactions d) d = d.
Proof. by destruct d. Qed.

Lemma with_reactions_twice R1 R2 (d : message) :
  with_reactions R2 (with_reactions R1 d) = with_reactions R2 d.
Proof. by destruct d. Qed.

Lemma set_messages_id (db : store) : set_messages (messages db) db = db.
Proof. by destruct db. Qed.

Lemma toggle_message_reaction_found db message_id user_id emoji now o d :
  ObjectId message_id = Ok o →
  find_one (msg_by__id o) (messages db) = Some d →
  toggle_message_reaction message_id user_id emoji now db
  = (Ok (message_id, toggled (m_reactions d) user_id emoji now),
     set_messages
       (update_one (msg_by__id o)
          (with_reactions (toggled (m_reactions d) user_id emoji now))
          (messages db)).1 db).
Proof.
  intros Ho Hd. unfold toggle_message_reaction, try_except, get_message.
  rewrite Ho, Hd. cbn [m_reactions with_message_id].
  by destruct (update_one _ _ _).
Qed.

(** C8.  [toggle_message_reaction] on a stored message: when the user has
    no entry under [emoji] the entry [{user_id, timestamp}] is appended;
    when the user has one, it is removed, and the emoji disappears from
    the mapping if that leaves it without entries; the other emojis are
    untouched.  Toggling a second time after a toggle that added the entry
    gives back the store as it was. *)
Theorem toggle_message_reaction_semantics db message_id user_id emoji t1 t2
    found :
  get_message message_id db = Some found →
  m_reactions found !! emoji ≠ Some [] →
  ∃ R1 db1,
    toggle_message_reaction message_id user_id emoji t1 db
    = (Ok (message_id, R1), db1)
    ∧ m_reactions <$> get_message message_id db1 = Some R1
    ∧ R1 !! emoji
      = match List.find (λ r, bool_decide (rx_user_id r = user_id))
                (default [] (m_reactions found !! emoji)) with
        | None =>
            Some (default [] (m_reactions found !! emoji)
                  ++ [Reaction user_id t1])
        | Some r =>
            match list_remove r (default [] (m_reactions found !! emoji)) with
            | [] => None
            | rest => Some rest
            end
        end
    ∧ (∀ other, other ≠ emoji → R1 !! other = m_reactions found !! other)
    ∧ (List.find (λ r, bool_decide (rx_user_id r = user_id))
         (default [] (m_reactions found !! emoji)) = None →
       toggle_message_reaction message_id user_id emoji t2 db1
       = (Ok (message_id, m_reactions found), db)).
Proof.
  intros Hget Hinv.
  destruct (get_message_Some _ _ _ Hget) as (o & d & Ho & Hd & ->).
  cbn [m_reactions with_message_id] in *.
  set (R1 := toggled (m_reactions d) user_id emoji t1).
  destruct (update_one_first (msg_by__id o) (with_reactions R1) _ _ Hd)
    as (pre & post & Hsplit & Hpre & Hupd).
  assert (Hd1 : find_one (msg_by__id o)
                  (update_one (msg_by__id o) (with_reactions R1)
                     (messages db)).1 = Some (with_reactions R1 d)).
  { apply find_one_update_one; [done|].
    apply find_one_Some in Hd as [Hd _]. by destruct d. }
  exists R1, (set_messages (update_one (msg_by__id o) (with_reactions R1)
                              (messages db)).1 db).
  split; [by apply toggle_message_reaction_found|].
  split.
  { unfold get_message. rewrite Ho. cbn [messages set_messages].
    by rewrite Hd1. }
  split.
  { subst R1.
    destruct (List.find _ (default [] (m_reactions d !! emoji))) as [r|] eqn:Hf.
    - rewrite (toggled_present _ _ _ _ _ Hf).
      destruct (list_remove r _).
      + apply lookup_delete_eq.
      + apply lookup_insert_eq.
    - rewrite (toggled_absent _ _ _ _ Hf). apply lookup_insert_eq. }
  split; [intros other Hne; by apply toggled_other|].
  intros Hnone.
  rewrite (toggle_message_reaction_found _ _ _ _ _ o (with_reactions R1 d));
    [|done|done].
  cbn [messages set_messages].
  replace (m_reactions (with_reactions R1 d)) with R1 by (by destruct d).
  subst R1. rewrite (toggled_twice _ _ _ _ _ Hinv Hnone).
  f_equal. rewrite Hupd, (update_one_app _ _ _ _ Hpre). cbn [update_one fst].
  replace (msg_by__id o (with_reactions _ d)) with true
    by (apply find_one_Some in Hd as [Hd _]; by destruct d).
  cbn [fst]. rewrite with_reactions_twice, with_reactions_id.
  rewrite <- Hsplit. by destruct db.
Qed.

(** User 2 reacts to the first message of [Sample.store0], twice. *)
Lemma toggle_message_reaction_semantics_witness :
  ∃ R1 db1,
    toggle_message_reaction Sample.msg1 (IdInt 2) "+1" 500%Z Sample.store0
    = (Ok (Sample.msg1, R1), db1)
    ∧ m_reactions <$> get_message Sample.msg1 db1 = Some R1
    ∧ R1 !! "+1" = Some ([] ++ [Reaction (IdInt 2) 500%Z])
    ∧ (∀ other, other ≠ "+1" → R1 !! other = (∅ : gmap string (list reaction)) !! other)
    ∧ (@None reaction = None →
       toggle_message_reaction Sample.msg1 (IdInt 2) "+1" 501%Z db1
       = (Ok (Sample.msg1, ∅), Sample.store0)).
Proof.
  refine (toggle_message_reaction_semantics Sample.store0 Sample.msg1
            (IdInt 2) "+1" 500%Z 501%Z
            (with_message_id (Some Sample.msg1)
               (Sample.text Sample.msg1 1 "user" "first" 110%Z)) _ _).
  - reflexivity.
  - discriminate.
Defined.

End ReactionFacts.

(** ** Read and delivery receipts *)

Section ReceiptFacts.
Import ChatService.

Lemma mark_as_read_unfold db chat_id user_id user_type now o :
  ObjectId chat_id = Ok o →
  mark_as_read chat_id user_id user_type now db
  = (true,
     set_chats
       (update_one (by__id o) (reset_unread user_type user_id) (chats db)).1
       (set_messages
          (update_many (mark_as_read_query chat_id user_id)
             (λ m, with_read_by
                     (addToSet (Receipt user_id user_type now) (m_read_by m))
                     m)
             (messages db)).1 db)).
Proof.
  intros Ho. unfold mark_as_read. destruct (update_many _ _ _) as [ms n].
  rewrite Ho. cbn [chats set_messages fst].
  by destruct (update_one _ _ _).
Qed.

Lemma unread_receipt_fresh user_id user_type now (m : message) :
  read_by_user user_id m = false →
  Receipt user_id user_type now ∉ m_read_by m.
Proof.
  unfold read_by_user. intros Hno Hin.
  apply not_true_iff_false in Hno. apply Hno.
  apply existsb_exists. exists (Receipt user_id user_type now).
  split; [by apply list_elem_of_In|]. by apply bool_decide_eq_true_2.
Qed.

Lemma read_after_mark chat_id user_id user_type now l (m : message) :
  mark_as_read_query chat_id user_id
    (with_read_by (l ++ [Receipt user_id user_type now]) m) = false.
Proof.
  unfold mark_as_read_query, read_by_user. cbn [m_read_by with_read_by].
  rewrite existsb_app. cbn [existsb r_user_id].
  rewrite (bool_decide_eq_true_2 (user_id = user_id)) by reflexivity.
  rewrite orb_true_l, orb_true_r. cbn [negb]. by rewrite andb_false_r.
Qed.

(** What [mark_as_read] does to one message. *)
Lemma mark_as_read_message chat_id user_id user_type now (m : message) :
  (if mark_as_read_query chat_id user_id m
   then with_read_by (addToSet (Receipt user_id user_type now) (m_read_by m)) m
   else m)
  = (if mark_as_read_query chat_id user_id m
     then with_read_by (m_read_by m ++ [Receipt user_id user_type now]) m
     else m).
Proof.
  destruct (mark_as_read_query chat_id user_id m) eqn:Hq; [|done].
  unfold mark_as_read_query in Hq.
  apply andb_true_iff in Hq as [_ Hq]. apply negb_true_iff in Hq.
  by rewrite (addToSet_fresh _ _ (unread_receipt_fresh _ user_type now _ Hq)).
Qed.

Lemma reset_unread_lookup user_type user_id (c : chat) :
  c_unread_counts (reset_unread user_type user_id c)
    !! participant_key user_type user_id = Some 0%Z.
Proof. unfold reset_unread. cbn. apply lookup_insert_eq. Qed.

Lemma reset_unread_twice user_type user_id (c : chat) :
  reset_unread user_type user_id (reset_unread user_type user_id c)
  = reset_unread user_type user_id c.
Proof.
  unfold reset_unread, with_unread_counts. cbn. by rewrite insert_insert_eq.
Qed.

(** C9.  [mark_as_read] appends the viewer's entry to [read_by] of
    exactly the messages that carry the chat id, whose [sender_id] is not
    the viewer's id and that have no [read_by] entry with the viewer's
    id, of whatever kind; it leaves every other message as it is, and
    sets the viewer's unread counter of the chat to 0.  A second call with
    the same chat, viewer and kind leaves the store exactly as the first
    call left it.

    Both comparisons are between typed values.  For a viewer given by
    the integer id, as the handlers pass it, a message that the viewer
    sent, as [add_message] stored it (sender and the sender's own
    [read_by] entry under the text of the id), is therefore selected too,
    and ends with two entries for its sender. *)
Theorem mark_as_read_idempotent db chat_id user_id user_type now now' o c :
  ObjectId chat_id = Ok o →
  find_one (by__id o) (chats db) = Some c →
  ∃ db1 c1,
    mark_as_read chat_id user_id user_type now db = (true, db1)
    ∧ messages db1
      = (λ m, if bool_decide (m_chat_id m = chat_id)
                 && negb (bool_decide (m_sender_id m = user_id))
                 && negb (existsb
                            (λ r, bool_decide (r_user_id r = user_id))
                            (m_read_by m))
              then with_read_by
                     (m_read_by m ++ [Receipt user_id user_type now]) m
              else m) <$> messages db
    ∧ (∀ n m,
         user_id = IdInt n →
         m ∈ messages db →
         m_chat_id m = chat_id →
         m_sender_id m = IdStr (pretty n) →
         m_read_by m
         = [Receipt (IdStr (pretty n)) (m_sender_type m) (m_timestamp m)] →
         with_read_by
           [Receipt (IdStr (pretty n)) (m_sender_type m) (m_timestamp m);
            Receipt (IdInt n) user_type now] m
         ∈ messages db1)
    ∧ find_one (by__id o) (chats db1) = Some c1
    ∧ c_unread_counts c1 !! participant_key user_type user_id = Some 0%Z
    ∧ mark_as_read chat_id user_id user_type now' db1 = (true, db1).
Proof.
  intros Ho Hc.
  rewrite (mark_as_read_unfold _ _ _ _ _ _ Ho).
  set (g := λ m, if mark_as_read_query chat_id user_id m
                 then with_read_by
                        (m_read_by m ++ [Receipt user_id user_type now]) m
                 else m).
  assert (Hms : (update_many (mark_as_read_query chat_id user_id)
                   (λ m, with_read_by
                           (addToSet (Receipt user_id user_type now)
                              (m_read_by m)) m)
                   (messages db)).1 = g <$> messages db).
  { rewrite update_many_fst. apply list_fmap_ext. intros i m _.
    apply mark_as_read_message. }
  destruct (update_one_first (by__id o) (reset_unread user_type user_id)
              _ _ Hc) as (pre & post & Hsplit & Hpre & Hupd).
  assert (Hid : by__id o (reset_unread user_type user_id c) = true).
  { apply find_one_Some in Hc as [Hc _]. by destruct c. }
  eexists _, (reset_unread user_type user_id c).
  split; [reflexivity|]. cbn [messages chats set_chats set_messages].
  split; [exact Hms|].
  split.
  { intros n m -> Hm Hchat Hsender Hread. rewrite Hms.
    apply list_elem_of_fmap. exists m. split; [|done]. unfold g.
    unfold mark_as_read_query, read_by_user. rewrite Hchat, Hsender, Hread.
    cbn [existsb r_user_id]. rewrite bool_decide_eq_true_2 by done.
    by rewrite !bool_decide_eq_false_2 by done. }
  split; [by apply find_one_update_one|].
  split; [apply reset_unread_lookup|].
  rewrite (mark_as_read_unfold _ _ _ _ _ _ Ho).
  cbn [messages chats set_chats set_messages]. f_equal.
  unfold set_chats, set_messages. cbn [chats messages invites removed_members].
  f_equal.
  - rewrite Hupd, (update_one_app _ _ _ _ Hpre). cbn [update_one fst].
    rewrite Hid. cbn [fst]. by rewrite reset_unread_twice.
  - rewrite Hms. apply update_many_none. intros m Hm.
    apply list_elem_of_fmap in Hm as (m0 & -> & _). unfold g.
    destruct (mark_as_read_query chat_id user_id m0) eqn:Hq; [|done].
    apply read_after_mark.
Qed.

(** User 1, who sent both messages of [Sample.store0], marks the chat as
    read, twice: both messages get a second entry for their sender. *)
Lemma mark_as_read_idempotent_witness :
  ∃ db1 c1,
    mark_as_read Sample.chat1 (IdInt 1) "user" 500%Z Sample.store0
    = (true, db1)
    ∧ (λ m, (m_sender_id m, m_read_by m)) <$> messages db1
      = [(IdStr "1",
          [Receipt (IdStr "1") "user" 110%Z; Receipt (IdInt 1) "user" 500%Z]);
         (IdStr "1",
          [Receipt (IdStr "1") "user" 120%Z; Receipt (IdInt 1) "user" 500%Z])]
    ∧ find_one (by__id Sample.chat1) (chats db1) = Some c1
    ∧ c_unread_counts c1 !! "user_1" = Some 0%Z
    ∧ mark_as_read Sample.chat1 (IdInt 1) "user" 501%Z db1 = (true, db1).
Proof.
  destruct (mark_as_read_idempotent Sample.store0 Sample.chat1 (IdInt 1)
              "user" 500%Z 501%Z Sample.chat1 Sample.group eq_refl eq_refl)
    as (db1 & c1 & Hrun & Hmsgs & _ & Hc1 & Hcount & Hagain).
  exists db1, c1. split; [exact Hrun|]. split; [by rewrite Hmsgs|].
  split; [exact Hc1|]. split; [exact Hcount | exact Hagain].
Defined.

(** Viewer 2, who sent nothing, marks the same chat as read: both
    messages get the entry, once. *)
Lemma mark_as_read_other_viewer :
  let db1 :=
    (mark_as_read Sample.chat1 (IdInt 2) "dealer" 500%Z Sample.store0).2 in
  (λ m, r_user_id <$> m_read_by m) <$> messages db1
  = [[IdStr "1"; IdInt 2]; [IdStr "1"; IdInt 2]]
  ∧ mark_as_read Sample.chat1 (IdInt 2) "dealer" 501%Z db1 = (true, db1).
Proof. vm_compute. split; reflexivity. Qed.

(** The comparisons of the query are those of the store, which keeps an
    integer apart from its decimal text.  [add_message] stores
    [str(sender_id)], the handlers pass the integer id: user 1, who sent
    both messages of [Sample.store0], is recorded as a reader of both. *)
Lemma mark_as_read_compares_typed_ids :
  (λ m, (m_sender_id m, r_user_id <$> m_read_by m)) <$>
    messages (mark_as_read Sample.chat1 (IdInt 1) "user" 500%Z Sample.store0).2
  = [(IdStr "1", [IdStr "1"; IdInt 1]); (IdStr "1", [IdStr "1"; IdInt 1])].
Proof. vm_compute. reflexivity. Qed.

(** The test for an earlier entry looks at [user_id] alone: once user 2
    has an entry of kind ["user"], a call for the same id with kind
    ["dealer"] adds nothing. *)
Lemma mark_as_read_ignores_kind :
  let db1 :=
    (mark_as_read Sample.chat1 (IdInt 2) "user" 500%Z Sample.store0).2 in
  let db2 := (mark_as_read Sample.chat1 (IdInt 2) "dealer" 501%Z db1).2 in
  messages db2 = messages db1
  ∧ (λ m, (λ r, (r_user_id r, r_user_type r)) <$> m_read_by m) <$>
      messages db2
    = [[(IdStr "1", "user"); (IdInt 2, "user")];
       [(IdStr "1", "user"); (IdInt 2, "user")]].
Proof. vm_compute. split; reflexivity. Qed.

Lemma get_chat_details_Some chat_id db c :
  get_chat_details chat_id db = Some c →
  ∃ o, ObjectId chat_id = Ok o
    ∧ find_one (λ c, by__id o c || by_chat_id chat_id c) (chats db) = Some c.
Proof.
  unfold get_chat_details. destruct (ObjectId chat_id) as [o|]; [|done].
  intros Hc. by exists o.
Qed.

Lemma mark_messages_as_delivered_unfold db chat_id user_id user_type now o :
  ObjectId chat_id = Ok o →
  mark_messages_as_delivered chat_id user_id user_type None now db
  = (bool_decide
       (0 < (update_many
               (delivered_query chat_id user_id user_type [] false)
               (λ m, with_delivered_to
                       (addToSet (Receipt user_id user_type now)
                          (m_delivered_to m)) m)
               (messages db)).2),
     set_chats
       (update_one (λ c, by__id o c || by_chat_id chat_id c)
          (reset_unread user_type user_id) (chats db)).1
       (set_messages
          (update_many
             (delivered_query chat_id user_id user_type [] false)
             (λ m, with_delivered_to
                     (addToSet (Receipt user_id user_type now)
                        (m_delivered_to m)) m)
             (messages db)).1 db)).
Proof.
  intros Ho. unfold mark_messages_as_delivered. cbn [parse_ids].
  destruct (update_many _ _ _) as [ms n].
  rewrite Ho. cbn [chats set_messages fst snd].
  by destruct (update_one _ _ _).
Qed.




End ReceiptFacts.

(** ** Group administration *)

Section AdminFacts.
Import ChatService.

Lemma find_one_narrow {D} (f g : D → bool) (l : list D) (d : D) :
  find_one f l = Some d → g d = true →
  find_one (λ x, f x && g x) l = Some d.
Proof.
  induction l as [|x l IH]; cbn [find_one]; [done|].
  destruct (f x) eqn:Hx.
  - intros [= ->] Hg. by rewrite Hg.
  - cbn [andb]. exact IH.
Qed.

Lemma find_one_narrow_None {D} (f g : D → bool) (l : list D) (d : D) :
  find_one f l = Some d → g d = false → NoDup_by f l →
  find_one (λ x, f x && g x) l = None.
Proof.
  induction l as [|x l IH]; cbn [find_one NoDup_by]; [done|].
  destruct (f x) eqn:Hx.
  - intros [= ->] Hg Hrest. rewrite Hg. cbn [andb].
    apply find_one_None. intros y Hy.
    rewrite (proj1 (find_one_None f l) Hrest y Hy). done.
  - cbn [andb]. intros Hd Hg Hnd. by apply IH.
Qed.

Lemma get_chat_by__id chat_id d o c :
  ObjectId chat_id = Ok o →
  find_one (by_chat_id chat_id) (chats d) = None →
  find_one (by__id o) (chats d) = Some c →
  get_chat chat_id d = Some c.
Proof. intros Ho Halias Hc. unfold get_chat. by rewrite Halias, Ho. Qed.

Lemma is_group_admin_true chat_id user_id d o c :
  ObjectId chat_id = Ok o →
  find_one (by__id o) (chats d) = Some c →
  has_admin user_id c = true →
  is_group_admin chat_id user_id d = Ok true.
Proof.
  intros Ho Hc Hadm. unfold is_group_admin. rewrite Ho.
  by rewrite (find_one_narrow _ _ _ _ Hc Hadm).
Qed.

Lemma has_admin_elem user_id (c : chat) :
  has_admin user_id c = true → user_id ∈ a_id <$> c_group_admins c.
Proof.
  unfold has_admin. intros Hex. apply existsb_exists in Hex as (a & Ha & Hm).
  apply andb_true_iff in Hm as [Hid _]. apply bool_decide_eq_true_1 in Hid.
  apply list_elem_of_fmap. exists a. split; [done | by apply list_elem_of_In].
Qed.

Lemma update_group_admins_found chat_id admin_ids current_user_id now d o c :
  ObjectId chat_id = Ok o →
  find_one (by__id o) (chats d) = Some c →
  current_user_id ∈ admin_ids →
  update_group_admins chat_id admin_ids current_user_id now d
  = (Ok {| au_success :=
             bool_decide
               (0 < (update_one (by__id o)
                       (with_group_admins
                          (c_group_admins c ++
                           ((λ x, new_admin x current_user_id now) <$>
                              List.filter
                                (λ x, bool_decide
                                        (x ∉ a_id <$> c_group_admins c))
                                admin_ids)))
                       (chats d)).2);
           au_total_admins :=
             length (c_group_admins c ++
                     ((λ x, new_admin x current_user_id now) <$>
                        List.filter
                          (λ x, bool_decide (x ∉ a_id <$> c_group_admins c))
                          admin_ids));
           au_newly_added :=
             length ((λ x, new_admin x current_user_id now) <$>
                       List.filter
                         (λ x, bool_decide (x ∉ a_id <$> c_group_admins c))
                         admin_ids);
           au_admin_ids :=
             a_id <$> (c_group_admins c ++
                       ((λ x, new_admin x current_user_id now) <$>
                          List.filter
                            (λ x, bool_decide
                                    (x ∉ a_id <$> c_group_admins c))
                            admin_ids)) |},
     set_chats
       (update_one (by__id o)
          (with_group_admins
             (c_group_admins c ++
              ((λ x, new_admin x current_user_id now) <$>
                 List.filter
                   (λ x, bool_decide (x ∉ a_id <$> c_group_admins c))
                   admin_ids)))
          (chats d)).1 d).
Proof.
  intros Ho Hc Hin. unfold update_group_admins, try_except.
  rewrite Ho, Hc.
  rewrite (bool_decide_eq_false_2 (current_user_id ∉ admin_ids)) by tauto.
  cbn [andb]. by destruct (update_one _ _ _).
Qed.

Lemma new_admin_ids current_user_id now (ids : list ident) :
  a_id <$> ((λ x, new_admin x current_user_id now) <$> ids) = ids.
Proof.
  rewrite <- list_fmap_compose. induction ids as [|x ids IH]; [done|].
  rewrite fmap_cons, IH. done.
Qed.

Lemma elem_of_filter_bool {A} (f : A → bool) (l : list A) (x : A) :
  x ∈ List.filter f l ↔ x ∈ l ∧ f x = true.
Proof. rewrite !list_elem_of_In. apply filter_In. Qed.

Lemma NoDup_filter_bool {A} (f : A → bool) (l : list A) :
  NoDup l → NoDup (List.filter f l).
Proof.
  induction 1 as [|x l Hx Hnd IH]; cbn [List.filter]; [constructor|].
  destruct (f x); [|done]. constructor; [|done].
  rewrite elem_of_filter_bool. tauto.
Qed.

Lemma filter_all_false {A} (f : A → bool) (l : list A) :
  (∀ x, x ∈ l → f x = false) → List.filter f l = [].
Proof.
  induction l as [|x l IH]; cbn [List.filter]; [done|].
  intros Hall. rewrite (Hall x (list_elem_of_here _ _)).
  apply IH. intros y Hy. apply Hall. by right.
Qed.

Lemma has_admin_new_admins x current_user_id now (ids : list ident) :
  existsb (λ a, bool_decide (a_id a = x) && bool_decide (a_role a = "admin"))
    ((λ y, new_admin y current_user_id now) <$> ids) = true
  ↔ x ∈ ids.
Proof.
  induction ids as [|y ids IH]; [by rewrite elem_of_nil|].
  rewrite fmap_cons. cbn [existsb new_admin a_id a_role].
  rewrite orb_true_iff, IH, elem_of_cons, andb_true_iff,
    !bool_decide_eq_true.
  split; [intros [[-> _] | H]; auto | intros [-> | H]; auto].
Qed.

Lemma is_group_admin_no_chat chat_id user_id d o :
  ObjectId chat_id = Ok o →
  find_one (by__id o) (chats d) = None →
  is_group_admin chat_id user_id d = Ok false.
Proof.
  intros Ho Hno. unfold is_group_admin. rewrite Ho.
  assert (find_one (λ c, by__id o c && has_admin user_id c) (chats d) = None)
    as ->; [|done].
  apply find_one_None. intros c Hc.
  by rewrite (proj1 (find_one_None _ _) Hno c Hc).
Qed.

(** C5.  A current admin of a group grants admin rights to a non-empty
    list of participants; [get_chat] finds the group under the
    [chat_id] of the request.

    When that text is the [_id] of the group: whatever the broadcast
    that follows does, the stored admin list is the previous list
    followed by new entries; its ids are exactly the previous ids
    together with the requested ones; the caller is among them; the new
    entries are pairwise distinct and none repeats a previous admin.
    Every new entry has the role ["admin"], so that the users who pass
    the admin test of the handlers ([is_group_admin]) afterwards are
    those who passed it before and the requested ones who were not
    listed; the caller still passes it.  When the handler answers, the
    answer lists these ids, and it does answer when no connection is
    registered for the chat.

    When that text is only the [chat_id] field of the group
    ([get_chat] accepts either), [is_group_admin], which matches on
    [_id] alone, does not find the group: the same admin is refused
    with a 403 and nothing is written. *)
Theorem update_group_admins_union w chat_id request_admin_ids current_user
    now o c :
  ObjectId chat_id = Ok o →
  get_chat chat_id (db w) = Some c →
  c_chat_type c = "group_chat" →
  has_admin (IdInt current_user) c = true →
  request_admin_ids ≠ [] →
  (∀ x, x ∈ request_admin_ids →
        py_str (IdInt x) ∈ (λ p, py_str (p_id p)) <$> c_participants c) →
  (find_one (by__id o) (chats (db w)) = Some c →
   ∃ r w' c' added,
     Router.update_group_admins chat_id request_admin_ids current_user now w
     = (r, w')
     ∧ find_one (by__id o) (chats (db w')) = Some c'
     ∧ c_group_admins c' = c_group_admins c ++ added
     ∧ (∀ x, x ∈ a_id <$> c_group_admins c' ↔
             x ∈ a_id <$> c_group_admins c
             ∨ x ∈ IdInt <$> request_admin_ids)
     ∧ IdInt current_user ∈ a_id <$> c_group_admins c'
     ∧ NoDup (a_id <$> added)
     ∧ (∀ x, x ∈ a_id <$> added → x ∉ a_id <$> c_group_admins c)
     ∧ (∀ a, a ∈ added →
             a_role a = "admin" ∧ a_type a = "user"
             ∧ a_added_by a = Some (IdInt current_user)
             ∧ a_permissions a
               = ["invite"; "add_members"; "remove_members";
                  "manage_settings"])
     ∧ (∀ x, has_admin x c' = true ↔
             has_admin x c = true
             ∨ (x ∈ IdInt <$> request_admin_ids
                ∧ x ∉ a_id <$> c_group_admins c))
     ∧ (∀ x, has_admin x c' = true →
             is_group_admin chat_id x (db w') = Ok true)
     ∧ is_group_admin chat_id (IdInt current_user) (db w') = Ok true
     ∧ (∀ resp, r = Ok resp →
                Router.ar_admin_ids resp = a_id <$> c_group_admins c')
     ∧ (Registry.chat_rooms (manager w) !! chat_id = None → is_ok r = true))
  ∧ (find_one (by__id o) (chats (db w)) = None →
     Router.update_group_admins chat_id request_admin_ids current_user now w
     = (Raise (HTTPException 403
                 (Lit "Only group admins can update admin list")), w)).
Proof.
  intros Ho Hchat Htype Hadm Hne Hpart. split; last first.
  { intros Hno.
    unfold Router.update_group_admins, reraise_http, try_except, bind,
      read_db, check_db, raise.
    rewrite Hchat. cbn beta iota.
    rewrite bool_decide_eq_true_2 by exact Htype. cbn [negb].
    by rewrite (is_group_admin_no_chat _ _ _ _ Ho Hno). }
  intros Hc.
  pose proof (has_admin_elem _ _ Hadm) as Hcur.
  set (admin_ids :=
         if bool_decide (current_user ∉ request_admin_ids)
         then request_admin_ids ++ [current_user] else request_admin_ids).
  assert (Hin : IdInt current_user ∈ Router.list_set (IdInt <$> admin_ids)).
  { unfold Router.list_set. rewrite elem_of_remove_dups.
    apply list_elem_of_fmap_2. subst admin_ids. case_bool_decide.
    - apply elem_of_app. right. by apply list_elem_of_singleton.
    - destruct (decide (current_user ∈ request_admin_ids)); tauto. }
  assert (Hreq : ∀ x, x ∈ Router.list_set (IdInt <$> admin_ids) ↔
                      x ∈ IdInt <$> request_admin_ids ∨ x = IdInt current_user).
  { intros x. unfold Router.list_set. rewrite elem_of_remove_dups.
    subst admin_ids. case_bool_decide as Hcu.
    - rewrite fmap_app, elem_of_app. cbn. rewrite list_elem_of_singleton. done.
    - split; [tauto|]. intros [Hx | ->]; [done|].
      apply list_elem_of_fmap_2.
      destruct (decide (current_user ∈ request_admin_ids)); tauto. }
  set (new_ids :=
         List.filter (λ x, bool_decide (x ∉ a_id <$> c_group_admins c))
           (Router.list_set (IdInt <$> admin_ids))).
  set (added := (λ x, new_admin x (IdInt current_user) now) <$> new_ids).
  set (chats' := (update_one (by__id o)
                    (with_group_admins (c_group_admins c ++ added))
                    (chats (db w))).1).
  set (c' := with_group_admins (c_group_admins c ++ added) c).
  assert (Hc' : find_one (by__id o) chats' = Some c').
  { apply find_one_update_one; [done|].
    apply find_one_Some in Hc as [Hc _]. by destruct c. }
  assert (Hids : a_id <$> added = new_ids) by apply new_admin_ids.
  assert (Hnew : ∀ x, x ∈ new_ids ↔
                      x ∈ IdInt <$> request_admin_ids
                      ∧ x ∉ a_id <$> c_group_admins c).
  { intros x. subst new_ids. rewrite elem_of_filter_bool, Hreq.
    rewrite bool_decide_eq_true. split; [|tauto].
    intros [[Hx | ->] Hfresh]; [done | by destruct Hfresh]. }
  assert (Hhas : ∀ x, has_admin x c' = true ↔
                      has_admin x c = true
                      ∨ (x ∈ IdInt <$> request_admin_ids
                         ∧ x ∉ a_id <$> c_group_admins c)).
  { intros x. unfold has_admin at 1. subst c'.
    cbn [c_group_admins with_group_admins].
    rewrite existsb_app, orb_true_iff. subst added.
    by rewrite has_admin_new_admins, Hnew. }
  destruct (Registry.broadcast_to_chat chat_id
              (Registry.Event "admins_updated" chat_id "") None (manager w))
    as [rb mgr'] eqn:Hb.
  exists (match rb with
          | Ok _ =>
              Ok {| Router.ar_message := "Group admins updated successfully";
                    Router.ar_total_admins :=
                      length (c_group_admins c ++ added);
                    Router.ar_newly_added := length added;
                    Router.ar_admin_ids :=
                      a_id <$> (c_group_admins c ++ added) |}
          | Raise _ =>
              Raise (HTTPException 500
                       (Lit "Failed to update group admins. Please try again later."))
          end),
    (World (set_chats chats' (db w)) mgr'), c', added.
  split.
  { unfold Router.update_group_admins, reraise_http, try_except, bind,
      read_db, check_db, try_db, call_manager, ret, raise.
    cbn [db manager].
    rewrite Hchat. cbn [db manager].
    rewrite Htype. cbn [negb bool_decide decide_rel].
    rewrite bool_decide_eq_true_2 by done. cbn [negb db manager].
    rewrite (is_group_admin_true _ _ _ _ _ Ho Hc Hadm). cbn [negb db manager].
    assert (Hm : ∀ (B : Type) (x y : B),
               match request_admin_ids with [] => x | _ :: _ => y end = y)
      by (intros; by destruct request_admin_ids).
    rewrite Hm. rewrite filter_all_false.
    2:{ intros x Hx. apply bool_decide_eq_false_2. intros Hn.
        apply Hn. by apply Hpart. }
    fold admin_ids. cbn [db manager].
    rewrite (update_group_admins_found _ _ _ _ _ _ _ Ho Hc Hin).
    fold new_ids. fold added. fold chats'.
    cbn [db manager au_total_admins au_newly_added au_admin_ids].
    rewrite Hb. by destruct rb. }
  cbn [db chats set_chats]. split; [done|].
  split; [done|].
  split.
  { intros x. subst c'. cbn [c_group_admins with_group_admins].
    rewrite fmap_app, elem_of_app, Hids, Hnew.
    destruct (decide (x ∈ a_id <$> c_group_admins c)); tauto. }
  split.
  { subst c'. cbn [c_group_admins with_group_admins].
    rewrite fmap_app, elem_of_app; by left. }
  split.
  { rewrite Hids. subst new_ids. apply NoDup_filter_bool.
    apply NoDup_remove_dups. }
  split.
  { intros x. rewrite Hids, Hnew. tauto. }
  split.
  { intros a Ha. subst added.
    apply list_elem_of_fmap in Ha as (x & -> & _). done. }
  split; [exact Hhas|].
  split.
  { intros x Hx. by apply (is_group_admin_true _ _ _ o c'). }
  split.
  { apply (is_group_admin_true _ _ _ o c'); [done|done|].
    apply Hhas. by left. }
  split.
  { intros resp Hr. destruct rb; [|done]. by injection Hr as <-. }
  intros Hroom. unfold Registry.broadcast_to_chat in Hb.
  rewrite Hroom in Hb. by injection Hb as <- <-.
Qed.

(** The scenario of the specification: in the group of [Sample.world0]
    with participants 1 (admin), 2 and 3, user 1 grants admin rights
    to 2; the admins are then exactly 1 and 2, and both pass the admin
    test.  The same request with the group's [chat_id] field in the path
    is refused. *)
Lemma update_group_admins_union_witness :
  (∃ r w' c' added,
     Router.update_group_admins Sample.chat1 [2%Z] 1%Z 500%Z Sample.world0
     = (r, w')
     ∧ find_one (by__id Sample.chat1) (chats (db w')) = Some c'
     ∧ c_group_admins c' = c_group_admins Sample.group ++ added
     ∧ (∀ x, x ∈ a_id <$> c_group_admins c' ↔
             x ∈ [IdInt 1] ∨ x ∈ [IdInt 2])
     ∧ IdInt 1 ∈ a_id <$> c_group_admins c'
     ∧ NoDup (a_id <$> added)
     ∧ (∀ x, x ∈ a_id <$> added → x ∉ [IdInt 1])
     ∧ (∀ a, a ∈ added →
             a_role a = "admin" ∧ a_type a = "user"
             ∧ a_added_by a = Some (IdInt 1)
             ∧ a_permissions a
               = ["invite"; "add_members"; "remove_members";
                  "manage_settings"])
     ∧ (∀ x, has_admin x c' = true ↔
             has_admin x Sample.group = true
             ∨ (x ∈ [IdInt 2] ∧ x ∉ [IdInt 1]))
     ∧ (∀ x, has_admin x c' = true →
             is_group_admin Sample.chat1 x (db w') = Ok true)
     ∧ is_group_admin Sample.chat1 (IdInt 1) (db w') = Ok true
     ∧ (∀ resp, r = Ok resp →
                Router.ar_admin_ids resp = a_id <$> c_group_admins c')
     ∧ (Registry.chat_rooms (manager Sample.world0) !! Sample.chat1 = None →
        is_ok r = true))
  ∧ Router.update_group_admins "65c000000000000000000009" [2%Z] 1%Z 500%Z
      Sample.world0
    = (Raise (HTTPException 403
                (Lit "Only group admins can update admin list")),
       Sample.world0).
Proof.
  split.
  - refine (proj1 (update_group_admins_union Sample.world0 Sample.chat1
                     [2%Z] 1%Z 500%Z Sample.chat1 Sample.group _ _ _ _ _ _)
              _).
    + reflexivity.
    + reflexivity.
    + reflexivity.
    + reflexivity.
    + discriminate.
    + intros x Hx. apply list_elem_of_singleton in Hx as ->.
      apply (bool_decide_unpack _). vm_compute. reflexivity.
    + reflexivity.
  - refine (proj2 (update_group_admins_union Sample.world0
                     "65c000000000000000000009" [2%Z] 1%Z 500%Z
                     "65c000000000000000000009" Sample.group _ _ _ _ _ _)
              _).
    + reflexivity.
    + reflexivity.
    + reflexivity.
    + reflexivity.
    + discriminate.
    + intros x Hx. apply list_elem_of_singleton in Hx as ->.
      apply (bool_decide_unpack _). vm_compute. reflexivity.
    + reflexivity.
Defined.

(** In the sample group after the grant, the stored admin list and what
    the admin test answers for users 1, 2 and 3. *)
Lemma update_group_admins_sample :
  let '(r, w') :=
    Router.update_group_admins Sample.chat1 [2%Z] 1%Z 500%Z Sample.world0 in
  (Router.ar_admin_ids <$> (match r with Ok x => Some x | Raise _ => None end))
  = Some [IdInt 1; IdInt 2]
  ∧ (c_group_admins <$> find_one (by__id Sample.chat1) (chats (db w')))
    = Some [Admin (IdInt 1) "user" "admin" None None
              Sample.creator_permissions;
            Admin (IdInt 2) "user" "admin" (Some (IdInt 1)) (Some 500%Z)
              ["invite"; "add_members"; "remove_members";
               "manage_settings"]]
  ∧ is_group_admin Sample.chat1 (IdInt 1) (db w') = Ok true
  ∧ is_group_admin Sample.chat1 (IdInt 2) (db w') = Ok true
  ∧ is_group_admin Sample.chat1 (IdInt 3) (db w') = Ok false.
Proof. vm_compute. repeat split; reflexivity. Qed.

Lemma get_other_admins_sole chat_id user_id d o c :
  ObjectId chat_id = Ok o →
  find_one (by_chat_id chat_id) (chats d) = None →
  find_one (by__id o) (chats d) = Some c →
  (∀ a, a ∈ c_group_admins c → py_str (a_id a) = py_str user_id) →
  get_other_admins chat_id user_id d = [].
Proof.
  intros Ho Halias Hc Hsole. unfold get_other_admins.
  rewrite (get_chat_by__id _ _ _ _ Ho Halias Hc).
  apply filter_all_false. intros a Ha.
  by rewrite (bool_decide_eq_true_2 _ (Hsole a Ha)).
Qed.

(** C7.  The only admin of a group asks to leave.  The handler raises its
    400 "You are the only admin" inside a [try] whose single handler is
    [except Exception]; that handler turns it into a 500.  Nothing is
    written: the store and the registry are as before. *)
Theorem leave_group_sole_admin_is_500 w chat_id reason current_user now o c :
  ObjectId chat_id = Ok o →
  find_one (by_chat_id chat_id) (chats (db w)) = None →
  find_one (by__id o) (chats (db w)) = Some c →
  has_admin (IdInt current_user) c = true →
  (∀ a, a ∈ c_group_admins c → py_str (a_id a) = py_str (IdInt current_user)) →
  Router.leave_group chat_id reason current_user now w
  = (Raise
       (HTTPException 500
          (Fmt "Error leaving group: "
             (HTTPException 400
                (Lit "You are the only admin. Please assign another admin before leaving")))),
     w).
Proof.
  intros Ho Halias Hc Hadm Hsole.
  unfold Router.leave_group, wrap_500, try_except, bind, check_db, read_db,
    raise.
  rewrite (is_group_admin_true _ _ _ _ _ Ho Hc Hadm).
  by rewrite (get_other_admins_sole _ _ _ _ _ Ho Halias Hc Hsole).
Qed.

(** User 1, the only admin of the group of [Sample.world0], asks to
    leave: the answer is a 500 and the world is unchanged. *)
Lemma leave_group_sole_admin_is_500_witness :
  status_of (Router.leave_group Sample.chat1 None 1%Z 500%Z Sample.world0).1
  = Some 500%Z
  ∧ (Router.leave_group Sample.chat1 None 1%Z 500%Z Sample.world0).2
    = Sample.world0.
Proof.
  rewrite (leave_group_sole_admin_is_500 Sample.world0 Sample.chat1 None
             1%Z 500%Z Sample.chat1 Sample.group).
  - split; reflexivity.
  - reflexivity.
  - reflexivity.
  - reflexivity.
  - reflexivity.
  - intros a Ha. apply list_elem_of_singleton in Ha as ->. reflexivity.
Defined.

(** Once user 1 has made user 2 an admin, the same request is served:
    user 1 is no longer a participant (and is still listed as an admin). *)
Lemma leave_group_after_grant :
  let w1 :=
    (Router.update_group_admins Sample.chat1 [2%Z] 1%Z 500%Z Sample.world0).2 in
  let '(r, w2) := Router.leave_group Sample.chat1 None 1%Z 600%Z w1 in
  r = Ok "Left group successfully"
  ∧ (c_participants <$> find_one (by__id Sample.chat1) (chats (db w2)))
    = Some [Participant (IdInt 2) "dealer" "member" 100%Z [];
            Participant (IdInt 3) "dealer" "member" 100%Z []]
  ∧ (fmap a_id <$> (c_group_admins <$>
                      find_one (by__id Sample.chat1) (chats (db w2))))
    = Some [IdInt 1; IdInt 2].
Proof. vm_compute. repeat split; reflexivity. Qed.

End AdminFacts.

(** ** Replies *)

Section ReplyFacts.
Import ChatService.

Lemma get_participant_type_Ok chat_id user_id d kind :
  get_participant_type chat_id user_id d = Ok kind →
  ∃ o, ObjectId chat_id = Ok o.
Proof.
  unfold get_participant_type.
  destruct (get_chat_details chat_id d) as [c|] eqn:Hc; [|done].
  destruct (get_chat_details_Some _ _ _ Hc) as (o & Ho & _). by exists o.
Qed.

Lemma add_message_stores msg new_id now d o :
  ObjectId (cm_chat_id msg) = Ok o →
  ∃ cs,
    add_message msg new_id now d
    = (Ok (with_message_id (Some new_id) (message_dict new_id msg now)),
       set_chats cs
         (set_messages (messages d ++ [message_dict new_id msg now]) d)).
Proof.
  intros Ho. unfold add_message, try_except. rewrite Ho.
  destruct (update_one _ _ _) as [cs n]. by exists cs.
Qed.

(** C3.  A participant replies to a message that exists.  The handler
    puts the quotation into the [ChatMessage] it builds, but the document
    that [add_message] inserts is assembled from other fields of that
    object only: the reply is stored with no [reply_to].  The handler then
    fails to encode the dict that [add_message] returned, which holds the
    [ObjectId] of the new document: nobody is notified and the answer is
    a 500, with the reply in the store. *)
Theorem reply_to_message_stores_no_quote w chat_id message_id request
    current_user new_id now original sender_type :
  get_message message_id (db w) = Some original →
  get_participant_type chat_id (IdInt current_user) (db w) = Ok sender_type →
  ∃ w' doc,
    Router.reply_to_message chat_id message_id request current_user new_id
      now w
    = (Raise (HTTPException 500
                (Fmt "Error replying to message: " cannot_encode_ObjectId)),
       w')
    ∧ messages (db w') = messages (db w) ++ [doc]
    ∧ m__id doc = new_id
    ∧ m_chat_id doc = chat_id
    ∧ m_content doc = Router.rq_content request
    ∧ m_reply_to doc = None
    ∧ manager w' = manager w.
Proof.
  intros Horig Htype.
  destruct (get_participant_type_Ok _ _ _ _ Htype) as (o & Ho).
  set (msg :=
         {| cm_chat_id := chat_id;
            cm_sender_id := IdInt current_user;
            cm_sender_type := sender_type;
            cm_content := Router.rq_content request;
            cm_message_type := Router.rq_message_type request;
            cm_reply_to :=
              Some {| rp_message_id := message_id;
                      rp_content := m_content original;
                      rp_sender_id := m_sender_id original |};
            cm_gem_id := Router.rq_gem_id request;
            cm_attachment := Router.rq_attachment request |}).
  destruct (add_message_stores msg new_id now (db w) o Ho) as (cs & Hadd).
  exists (World (set_chats cs
                   (set_messages
                      (messages (db w) ++ [message_dict new_id msg now])
                      (db w))) (manager w)),
    (message_dict new_id msg now).
  split.
  { unfold Router.reply_to_message, wrap_500, try_except, bind, read_db,
      check_db, try_db, call_manager, of_result, jsonable_encoder, ret, raise.
    rewrite Horig, Htype. fold msg. by rewrite Hadd. }
  cbn [db manager messages set_chats set_messages]. repeat split; done.
Qed.

(** User 2 replies to the first message of [Sample.world0]. *)
Lemma reply_to_message_stores_no_quote_witness :
  ∃ w' doc,
    Router.reply_to_message Sample.chat1 Sample.msg1
      (Router.Build_ReplyMessageRequest "re" "text" None None) 2%Z
      Sample.msg3 500%Z Sample.world0
    = (Raise (HTTPException 500
                (Fmt "Error replying to message: " cannot_encode_ObjectId)),
       w')
    ∧ messages (db w') = messages Sample.store0 ++ [doc]
    ∧ m__id doc = Sample.msg3
    ∧ m_chat_id doc = Sample.chat1
    ∧ m_content doc = "re"
    ∧ m_reply_to doc = None
    ∧ manager w' = manager Sample.world0.
Proof.
  refine (reply_to_message_stores_no_quote Sample.world0 Sample.chat1
            Sample.msg1
            (Router.Build_ReplyMessageRequest "re" "text" None None) 2%Z
            Sample.msg3 500%Z
            (with_message_id (Some Sample.msg1)
               (Sample.text Sample.msg1 1 "user" "first" 110%Z))
            "dealer" _ _).
  - reflexivity.
  - reflexivity.
Defined.

(** A reply to a message that does not exist is answered with a 500 that
    wraps the handler's own 404: the [try] of this handler has no
    [except HTTPException] clause. *)
Lemma reply_to_message_absent_is_500 w chat_id message_id request current_user
    new_id now :
  get_message message_id (db w) = None →
  Router.reply_to_message chat_id message_id request current_user new_id
    now w
  = (Raise
       (HTTPException 500
          (Fmt "Error replying to message: "
             (HTTPException 404 (Lit "Original message not found")))),
     w).
Proof.
  intros Hnone.
  unfold Router.reply_to_message, wrap_500, try_except, bind, read_db, raise.
  by rewrite Hnone.
Qed.

End ReplyFacts.

(** ** Deleting a message *)

Section DeleteFacts.
Import ChatService.

Lemma lower_hex_is_hex c : is_hex c = true → is_hex (lower_hex c) = true.
Proof. destruct c as [[] [] [] [] [] [] [] []]; vm_compute; congruence. Qed.

Lemma lower_hex_idem c : lower_hex (lower_hex c) = lower_hex c.
Proof. destruct c as [[] [] [] [] [] [] [] []]; reflexivity. Qed.

Lemma string_map_length f s : String.length (string_map f s) = String.length s.
Proof. induction s as [|c s IH]; cbn; congruence. Qed.

Lemma string_map_lower_hex s :
  string_forallb is_hex s = true →
  string_forallb is_hex (string_map lower_hex s) = true
  ∧ string_map lower_hex (string_map lower_hex s) = string_map lower_hex s.
Proof.
  induction s as [|c s IH]; cbn [string_forallb string_map]; [done|].
  intros Hs. apply andb_true_iff in Hs as [Hc Hs]. destruct (IH Hs) as [H1 H2].
  by rewrite (lower_hex_is_hex _ Hc), H1, lower_hex_idem, H2.
Qed.

(** [ObjectId(str(oid)) == oid] *)
Lemma ObjectId_str s o : ObjectId s = Ok o → ObjectId o = Ok o.
Proof.
  unfold ObjectId.
  destruct (String.length s =? 24)%nat eqn:Hlen; [|done].
  destruct (string_forallb is_hex s) eqn:Hhex; [|done].
  cbn [andb]. intros [= <-].
  destruct (string_map_lower_hex s Hhex) as [H1 H2].
  by rewrite string_map_length, Hlen, H1, H2.
Qed.

Lemma get_message_again message_id d found :
  get_message message_id d = Some found →
  m_message_id found = Some (m__id found)
  ∧ ObjectId (m__id found) = Ok (m__id found)
  ∧ get_message (m__id found) d = Some found.
Proof.
  intros Hget.
  destruct (get_message_Some _ _ _ Hget) as (o & d0 & Ho & Hd0 & ->).
  pose proof (find_one_Some _ _ _ Hd0) as [Hid _].
  apply bool_decide_eq_true_1 in Hid.
  cbn [m_message_id m__id with_message_id]. rewrite Hid.
  pose proof (ObjectId_str _ _ Ho) as Ho'.
  split; [done|]. split; [done|].
  unfold get_message. by rewrite Ho', Hd0, Hid.
Qed.

(** The filter of [delete_message] accepts every message of the chat of
    the message that was asked for; [update_one] rewrites the first
    document it accepts. *)
Lemma delete_message_first_of_chat d message_id user_id user_type
    for_everyone now first rest found :
  messages d = first :: rest →
  get_message message_id d = Some found →
  m_chat_id first = m_chat_id found →
  delete_message message_id user_id user_type for_everyone now d
  = (let first' :=
       if for_everyone then set_deleted user_id user_type now first
       else with_deleted_for
              (addToSet (DeletedFor user_id user_type now)
                 (m_deleted_for first)) first in
     (bool_decide (0 < (if decide (first' = first) then 0 else 1)),
      set_messages (first' :: rest) d)).
Proof.
  intros Hms Hget Hchat.
  destruct (get_message_Some _ _ _ Hget) as (o & d0 & Ho & Hd0 & Hfound).
  destruct (get_message_again _ _ _ Hget) as (_ & Ho' & _).
  unfold delete_message. rewrite Hget, Ho', Hms. cbn [update_one].
  unfold delete_query at 1. rewrite (bool_decide_eq_true_2 _ Hchat).
  by rewrite orb_true_r.
Qed.

Lemma get_message_skip_first d message_id found first first' rest :
  messages d = first :: rest →
  get_message message_id d = Some found →
  m__id first ≠ m__id found →
  m__id first' = m__id first →
  get_message message_id (set_messages (first' :: rest) d) = Some found.
Proof.
  intros Hms Hget Hne Hid.
  destruct (get_message_Some _ _ _ Hget) as (o & d0 & Ho & Hd0 & ->).
  pose proof (find_one_Some _ _ _ Hd0) as [Hd0id _].
  apply bool_decide_eq_true_1 in Hd0id.
  cbn [m__id with_message_id] in Hne.
  unfold get_message in *. rewrite Ho in *. cbn [messages set_messages].
  rewrite Hms in Hd0. cbn [find_one] in *. unfold msg_by__id in *.
  rewrite Hid.
  rewrite (bool_decide_eq_false_2 (m__id first = o)) in * by congruence.
  by rewrite Hd0.
Qed.

(** C4.  The sender of a message deletes it for everyone; an older
    message of the same chat is the first document of the collection.
    The document that is marked deleted, loses its content and its
    attachment, and is stamped with [deleted_by] and [deleted_at] is that
    older message; the message that was asked for stays as it was. *)
Theorem delete_for_everyone_rewrites_first_of_chat w message_id current_user
    now first rest found c user_type :
  messages (db w) = first :: rest →
  get_message message_id (db w) = Some found →
  m_chat_id first = m_chat_id found →
  m__id first ≠ m__id found →
  m_is_deleted first = false →
  get_chat_details (m_chat_id found) (db w) = Some c →
  is_participant (IdInt current_user) c = true →
  py_str (m_sender_id found) = py_str (IdInt current_user) →
  get_participant_type (m_chat_id found) (IdInt current_user) (db w)
  = Ok user_type →
  ∃ r w',
    Router.delete_message message_id true current_user now w = (r, w')
    ∧ messages (db w')
      = set_deleted (IdInt current_user) user_type now first :: rest
    ∧ get_message message_id (db w') = Some found
    ∧ (Registry.chat_rooms (manager w) !! m_chat_id found = None →
       is_ok r = true).
Proof.
  intros Hms Hget Hchat Hne Hlive Hc Hpart Hsender Htype.
  destruct (get_message_again _ _ _ Hget) as (Hmid & Ho' & Hget').
  set (first' := set_deleted (IdInt current_user) user_type now first).
  assert (Hchanged : first' ≠ first).
  { intros Heq. apply (f_equal m_is_deleted) in Heq.
    cbn in Heq. congruence. }
  destruct (Registry.broadcast_to_chat (m_chat_id found)
              (Registry.Event "message_deleted" (m_chat_id found)
                 (m__id found))
              (Some (Router.user_connection current_user)) (manager w))
    as [rb mgr'] eqn:Hb.
  exists (match rb with
          | Ok _ =>
              Ok {| Router.dr_message := "Message deleted successfully";
                    Router.dr_deleted_for_everyone := true |}
          | Raise (HTTPException code detail) =>
              Raise (HTTPException code detail)
          | Raise e =>
              Raise (HTTPException 500 (Fmt "Error deleting message: " e))
          end),
    (World (set_messages (first' :: rest) (db w)) mgr').
  split.
  { unfold Router.delete_message, reraise_http, try_except, bind, read_db,
      check_db, call_db, call_manager, ret, raise.
    rewrite Hget, Hc, Hpart. cbn [negb].
    rewrite (bool_decide_eq_true_2 _ Hsender). cbn [negb andb].
    rewrite Htype, Hmid. cbn [default id].
    rewrite (delete_message_first_of_chat _ _ _ _ _ _ _ _ _ Hms Hget' Hchat).
    fold first'. cbn zeta. rewrite (decide_False (P := first' = first)) by done.
    rewrite (bool_decide_eq_true_2 (0 < 1)) by lia. cbn [negb db manager].
    rewrite Hb. destruct rb as [[]|e]; [done|]. by destruct e. }
  cbn [db messages set_messages]. split; [done|]. split.
  - by apply (get_message_skip_first _ _ _ first).
  - intros Hroom. unfold Registry.broadcast_to_chat in Hb.
    rewrite Hroom in Hb. by injection Hb as <- <-.
Qed.

(** User 1 deletes the second message of [Sample.world0] for everyone:
    the first one is replaced by the placeholder. *)
Lemma delete_for_everyone_rewrites_first_of_chat_witness :
  ∃ r w',
    Router.delete_message Sample.msg2 true 1%Z 500%Z Sample.world0 = (r, w')
    ∧ messages (db w')
      = [set_deleted (IdInt 1) "user" 500%Z
           (Sample.text Sample.msg1 1 "user" "first" 110%Z);
         Sample.text Sample.msg2 1 "user" "second" 120%Z]
    ∧ get_message Sample.msg2 (db w')
      = Some (with_message_id (Some Sample.msg2)
                (Sample.text Sample.msg2 1 "user" "second" 120%Z))
    ∧ (Registry.chat_rooms (manager Sample.world0) !! Sample.chat1 = None →
       is_ok r = true).
Proof.
  refine (delete_for_everyone_rewrites_first_of_chat Sample.world0
            Sample.msg2 1%Z 500%Z
            (Sample.text Sample.msg1 1 "user" "first" 110%Z)
            [Sample.text Sample.msg2 1 "user" "second" 120%Z]
            (with_message_id (Some Sample.msg2)
               (Sample.text Sample.msg2 1 "user" "second" 120%Z))
            Sample.group "user" _ _ _ _ _ _ _ _ _).
  - reflexivity.
  - reflexivity.
  - reflexivity.
  - discriminate.
  - reflexivity.
  - reflexivity.
  - reflexivity.
  - reflexivity.
  - reflexivity.
Defined.

(** A participant who is not the sender is refused with a 403, and
    nothing is written. *)
Lemma delete_for_everyone_non_sender_forbidden w message_id current_user now
    found c :
  get_message message_id (db w) = Some found →
  get_chat_details (m_chat_id found) (db w) = Some c →
  py_str (m_sender_id found) ≠ py_str (IdInt current_user) →
  ∃ e,
    Router.delete_message message_id true current_user now w
    = (Raise (HTTPException 403 e), w).
Proof.
  intros Hget Hc Hsender.
  unfold Router.delete_message, reraise_http, try_except, bind, read_db,
    raise.
  rewrite Hget, Hc.
  destruct (is_participant (IdInt current_user) c); cbn [negb].
  - rewrite (bool_decide_eq_false_2 _ Hsender). cbn [negb andb]. by eexists.
  - by eexists.
Qed.

(** C6.  A participant deletes a message for themselves; an older message
    of the same chat is the first document of the collection.  The entry
    is added to [deleted_for] of that older message, which the
    participant no longer sees; the message that was asked for is
    unchanged, so it is still shown to the participant. *)
Theorem delete_for_me_hides_first_of_chat w message_id current_user now first
    rest found c user_type :
  messages (db w) = first :: rest →
  get_message message_id (db w) = Some found →
  m_chat_id first = m_chat_id found →
  m__id first ≠ m__id found →
  DeletedFor (IdInt current_user) user_type now ∉ m_deleted_for first →
  get_chat_details (m_chat_id found) (db w) = Some c →
  is_participant (IdInt current_user) c = true →
  get_participant_type (m_chat_id found) (IdInt current_user) (db w)
  = Ok user_type →
  ∃ r w' first',
    Router.delete_message message_id false current_user now w = (r, w')
    ∧ messages (db w') = first' :: rest
    ∧ first'
      = with_deleted_for
          (m_deleted_for first ++ [DeletedFor (IdInt current_user) user_type now])
          first
    ∧ messages_query (m_chat_id found) (IdInt current_user) user_type None
        first' = false
    ∧ get_message message_id (db w') = Some found
    ∧ (Registry.chat_rooms (manager w) !! m_chat_id found = None →
       is_ok r = true).
Proof.
  intros Hms Hget Hchat Hne Hfresh Hc Hpart Htype.
  destruct (get_message_again _ _ _ Hget) as (Hmid & Ho' & Hget').
  set (first' :=
         with_deleted_for
           (m_deleted_for first
            ++ [DeletedFor (IdInt current_user) user_type now]) first).
  assert (Hchanged : first' ≠ first).
  { intros Heq. apply (f_equal m_deleted_for) in Heq.
    cbn in Heq. apply (f_equal length) in Heq.
    rewrite length_app in Heq. cbn in Heq. lia. }
  destruct (Registry.broadcast_to_chat (m_chat_id found)
              (Registry.Event "message_deleted" (m_chat_id found)
                 (m__id found))
              (Some (Router.user_connection current_user)) (manager w))
    as [rb mgr'] eqn:Hb.
  exists (match rb with
          | Ok _ =>
              Ok {| Router.dr_message := "Message deleted successfully";
                    Router.dr_deleted_for_everyone := false |}
          | Raise (HTTPException code detail) =>
              Raise (HTTPException code detail)
          | Raise e =>
              Raise (HTTPException 500 (Fmt "Error deleting message: " e))
          end),
    (World (set_messages (first' :: rest) (db w)) mgr'), first'.
  split.
  { unfold Router.delete_message, reraise_http, try_except, bind, read_db,
      check_db, call_db, call_manager, ret, raise.
    rewrite Hget, Hc, Hpart. cbn [negb andb].
    rewrite Htype, Hmid. cbn [default id].
    rewrite (delete_message_first_of_chat _ _ _ _ _ _ _ _ _ Hms Hget' Hchat).
    rewrite (addToSet_fresh _ _ Hfresh).
    fold first'. cbn zeta. rewrite (decide_False (P := first' = first)) by done.
    rewrite (bool_decide_eq_true_2 (0 < 1)) by lia. cbn [negb db manager].
    rewrite Hb. destruct rb as [[]|e]; [done|]. by destruct e. }
  cbn [db messages set_messages]. split; [done|]. split; [done|]. split.
  { unfold messages_query, deleted_for_user.
    cbn [m_deleted_for with_deleted_for first'].
    rewrite existsb_app. cbn [existsb].
    rewrite !bool_decide_eq_true_2 by done.
    cbn [andb orb]. rewrite orb_true_r. reflexivity. }
  split.
  - by apply (get_message_skip_first _ _ _ first).
  - intros Hroom. unfold Registry.broadcast_to_chat in Hb.
    rewrite Hroom in Hb. by injection Hb as <- <-.
Qed.

(** Participant 2 deletes the second message of [Sample.world0] for
    themselves.  Their list of messages afterwards holds the second
    message and not the first. *)
Lemma delete_for_me_hides_first_of_chat_witness :
  (∃ r w' first',
     Router.delete_message Sample.msg2 false 2%Z 500%Z Sample.world0 = (r, w')
     ∧ messages (db w')
       = [first'; Sample.text Sample.msg2 1 "user" "second" 120%Z]
     ∧ first'
       = with_deleted_for ([] ++ [DeletedFor (IdInt 2) "dealer" 500%Z])
           (Sample.text Sample.msg1 1 "user" "first" 110%Z)
     ∧ messages_query Sample.chat1 (IdInt 2) "dealer" None first' = false
     ∧ get_message Sample.msg2 (db w')
       = Some (with_message_id (Some Sample.msg2)
                 (Sample.text Sample.msg2 1 "user" "second" 120%Z))
     ∧ (Registry.chat_rooms (manager Sample.world0) !! Sample.chat1 = None →
        is_ok r = true))
  ∧ v_message_id <$>
      get_chat_messages Sample.chat1 (IdInt 2) "dealer" 50 None
        (db (Router.delete_message Sample.msg2 false 2%Z 500%Z
               Sample.world0).2)
    = [Sample.msg2].
Proof.
  split.
  - refine (delete_for_me_hides_first_of_chat Sample.world0 Sample.msg2 2%Z
              500%Z (Sample.text Sample.msg1 1 "user" "first" 110%Z)
              [Sample.text Sample.msg2 1 "user" "second" 120%Z]
              (with_message_id (Some Sample.msg2)
                 (Sample.text Sample.msg2 1 "user" "second" 120%Z))
              Sample.group "dealer" _ _ _ _ _ _ _ _).
    + reflexivity.
    + reflexivity.
    + reflexivity.
    + discriminate.
    + apply not_elem_of_nil.
    + reflexivity.
    + reflexivity.
    + reflexivity.
  - vm_compute. reflexivity.
Defined.

End DeleteFacts.

(** ** Invites *)

Section InviteFacts.
Import ChatService.

(** The handler is [JoinTask.step] run to its end, one round trip after
    the other. *)
Lemma join_run_agrees invite_code current_user now now' d mgr :
  ∃ r,
    (JoinTask.run 4 invite_code current_user now now' JoinTask.Start d).1
    = JoinTask.Done r
    ∧ Router.join_group_via_invite invite_code current_user now now'
        (World d mgr)
      = (r,
         World
           (JoinTask.run 4 invite_code current_user now now' JoinTask.Start
              d).2 mgr).
Proof.
  unfold Router.join_group_via_invite, reraise_http, try_except, bind,
    read_db, call_db, ret, raise.
  cbn [JoinTask.run JoinTask.step db manager].
  destruct (get_invite invite_code now d) as [i|]; [|by eexists].
  case_bool_decide; [by eexists|].
  cbn [JoinTask.step db manager].
  destruct (get_chat (i_chat_id i) d) as [c|]; [|by eexists].
  destruct (is_participant (IdInt current_user) c); [by eexists|].
  cbn [JoinTask.step db manager].
  destruct (add_chat_participant _ _ _ _ _ d) as [b1 d1].
  cbn [snd db manager].
  destruct (mark_invite_used _ _ _ d1) as [b2 d2].
  cbn [snd db manager]. by eexists.
Qed.

Lemma join_without_invite invite_code current_user now now' w :
  get_invite invite_code now (db w) = None →
  Router.join_group_via_invite invite_code current_user now now' w
  = (Raise (HTTPException 404 (Lit "Invite not found or expired")), w).
Proof.
  intros Hnone.
  unfold Router.join_group_via_invite, reraise_http, try_except, bind,
    read_db, raise.
  by rewrite Hnone.
Qed.

(** With unique codes, marking the invite that [get_invite] found leaves
    no invite that [get_invite] would find under that code. *)
Lemma mark_used_unredeemable invite_code used_by now now' (l : list invite) :
  NoDup (i_code <$> l) →
  ∀ i,
    find_one (λ i, bool_decide (i_code i = invite_code) && i_is_active i
                   && bool_decide (now < i_expires_at i)%Z) l = Some i →
    find_one (λ i, bool_decide (i_code i = invite_code))
      (update_one (λ i, bool_decide (i_code i = invite_code))
         (set_used used_by now') l).1
    = Some (set_used used_by now' i)
    ∧ ∀ t,
        find_one (λ i, bool_decide (i_code i = invite_code) && i_is_active i
                       && bool_decide (t < i_expires_at i)%Z)
          (update_one (λ i, bool_decide (i_code i = invite_code))
             (set_used used_by now') l).1
        = None.
Proof.
  induction l as [|x l IH]; intros Hnd i; [done|].
  rewrite fmap_cons in Hnd. apply NoDup_cons in Hnd as [Hx Hnd].
  cbn [find_one update_one].
  destruct (decide (i_code x = invite_code)) as [Hcode|Hcode].
  - rewrite (bool_decide_eq_true_2 _ Hcode). cbn [andb fst find_one].
    assert (Hrest : ∀ j, j ∈ l → i_code j ≠ invite_code).
    { intros j Hj Hjc. apply Hx. rewrite Hcode, <- Hjc.
      by apply list_elem_of_fmap_2. }
    intros Hi.
    assert (i = x) as ->.
    { destruct (i_is_active x && bool_decide (now < i_expires_at x)%Z);
        [congruence|].
      apply find_one_Some in Hi as [Hi Hin].
      apply andb_true_iff in Hi as [Hi _]. apply andb_true_iff in Hi as [Hi _].
      apply bool_decide_eq_true_1 in Hi. by destruct (Hrest i Hin). }
    cbn [i_code set_used]. rewrite (bool_decide_eq_true_2 _ Hcode).
    split; [done|]. intros t. cbn [i_is_active andb].
    apply find_one_None. intros j Hj.
    by rewrite (bool_decide_eq_false_2 _ (Hrest j Hj)).
  - rewrite (bool_decide_eq_false_2 _ Hcode). cbn [andb].
    intros Hi. destruct (IH Hnd i Hi) as [H1 H2].
    destruct (update_one _ _ l) as [l' n]. cbn [fst find_one] in *.
    rewrite (bool_decide_eq_false_2 _ Hcode). cbn [andb]. done.
Qed.

Lemma add_chat_participant_unfold chat_id user_id user_type role now d o :
  ObjectId chat_id = Ok o →
  (add_chat_participant chat_id user_id user_type role now d).2
  = set_chats
      (update_one (by__id o)
         (λ c, with_participants
                 (addToSet (Participant user_id user_type role now [])
                    (c_participants c)) c)
         (chats d)).1 d.
Proof.
  intros Ho. unfold add_chat_participant. rewrite Ho.
  by destruct (update_one _ _ _).
Qed.

Lemma mark_invite_used_unfold invite_code used_by now d :
  (mark_invite_used invite_code used_by now d).2
  = set_invites
      (update_one (λ i, bool_decide (i_code i = invite_code))
         (set_used used_by now) (invites d)).1 d.
Proof. unfold mark_invite_used. by destruct (update_one _ _ _). Qed.

Lemma call_db_snd {A} (f : store → A * store) (w : world) :
  call_db f w = (Ok (f (db w)).1, World (f (db w)).2 (manager w)).
Proof. unfold call_db. by destruct (f (db w)). Qed.

Lemma not_participant_fresh user_id user_type role now perms (c : chat) :
  is_participant user_id c = false →
  Participant user_id user_type role now perms ∉ c_participants c.
Proof.
  unfold is_participant. intros Hno Hin.
  apply not_true_iff_false in Hno. apply Hno.
  apply existsb_exists. eexists. split; [by apply list_elem_of_In|].
  by apply bool_decide_eq_true_2.
Qed.

(** C2, as amended.  The request runs with nothing in between its round
    trips.  A code under which every invite is inactive or expired is
    refused with a 404 and nothing is written.  When codes are unique,
    [get_invite] finds the invite (it is active and unexpired), the
    invite is still unexpired at the handler's own test, the invite names
    its chat by the chat's [_id] (the chat that [get_chat] returns for
    [invite["chat_id"]] is the one with that [_id]) and the caller is not
    yet a participant of it, then the caller is appended to the
    participants as a member, the invite is made inactive and stamped
    with the caller, and from then on every attempt to redeem the code is
    refused. *)
Theorem join_group_via_invite_sequential w invite_code current_user now
    now' :
  ((∀ j, j ∈ invites (db w) → i_code j = invite_code →
         i_is_active j = false ∨ (i_expires_at j ≤ now)%Z) →
   Router.join_group_via_invite invite_code current_user now now' w
   = (Raise (HTTPException 404 (Lit "Invite not found or expired")), w))
  ∧ (∀ i o c,
       NoDup (i_code <$> invites (db w)) →
       get_invite invite_code now (db w) = Some i →
       (now' ≤ i_expires_at i)%Z →
       ObjectId (i_chat_id i) = Ok o →
       get_chat (i_chat_id i) (db w) = Some c →
       find_one (by__id o) (chats (db w)) = Some c →
       is_participant (IdInt current_user) c = false →
       ∃ w' c' i',
         Router.join_group_via_invite invite_code current_user now now' w
         = (Ok (Router.joined i c), w')
         ∧ find_one (by__id o) (chats (db w')) = Some c'
         ∧ c_participants c'
           = c_participants c
             ++ [Participant (IdInt current_user) "user" "member" now' []]
         ∧ find_one (λ i, bool_decide (i_code i = invite_code))
             (invites (db w'))
           = Some i'
         ∧ i_is_active i' = false
         ∧ i_used_by i' = Some (IdInt current_user)
         ∧ (∀ t, get_invite invite_code t (db w') = None)
         ∧ (∀ user t t',
              (Router.join_group_via_invite invite_code user t t' w').1
              = Raise (HTTPException 404
                         (Lit "Invite not found or expired")))).
Proof.
  split.
  { intros Hall. apply join_without_invite. unfold get_invite.
    apply find_one_None. intros j Hj.
    destruct (decide (i_code j = invite_code)) as [Hcode|Hcode].
    - rewrite (bool_decide_eq_true_2 _ Hcode). cbn [andb].
      destruct (Hall j Hj Hcode) as [-> | Hexp]; [done|].
      rewrite bool_decide_eq_false_2 by lia. by destruct (i_is_active j).
    - by rewrite (bool_decide_eq_false_2 _ Hcode). }
  intros i o c Hnd Hi Hexp Ho Hchat Hc Hpart.
  set (p := Participant (IdInt current_user) "user" "member" now' []).
  set (upd := λ c : chat, with_participants (addToSet p (c_participants c)) c).
  set (chats' := (update_one (by__id o) upd (chats (db w))).1).
  set (invites' := (update_one (λ i, bool_decide (i_code i = invite_code))
                      (set_used (IdInt current_user) now')
                      (invites (db w))).1).
  destruct (mark_used_unredeemable invite_code (IdInt current_user) now now'
              _ Hnd i Hi) as [Hused Hgone].
  fold invites' in Hused, Hgone.
  set (w' := World (set_invites invites' (set_chats chats' (db w)))
               (manager w)).
  assert (Hrun : Router.join_group_via_invite invite_code current_user now
                   now' w = (Ok (Router.joined i c), w')).
  { unfold Router.join_group_via_invite, reraise_http, try_except, bind,
      read_db, ret, raise.
    rewrite Hi. rewrite bool_decide_eq_false_2 by lia.
    rewrite Hchat, Hpart.
    rewrite !call_db_snd. cbn [db manager].
    rewrite mark_invite_used_unfold.
    by rewrite (add_chat_participant_unfold _ _ _ _ _ _ _ Ho). }
  assert (Hnone : ∀ t, get_invite invite_code t (db w') = None)
    by (intros t; apply Hgone).
  exists w', (upd c), (set_used (IdInt current_user) now' i).
  split; [done|]. split.
  { subst w'. cbn [db chats set_invites set_chats]. subst chats'.
    apply find_one_update_one; [done|].
    apply find_one_Some in Hc as [Hc _]. by destruct c. }
  split.
  { subst upd. cbn [c_participants with_participants].
    apply addToSet_fresh. by apply not_participant_fresh. }
  split; [done|]. split; [done|]. split; [done|]. split; [done|].
  intros user t t'. by rewrite (join_without_invite _ _ _ _ _ (Hnone t)).
Qed.

(** User 7 redeems the invite of [Sample.world0]; a code that no invite
    carries is refused. *)
Lemma join_group_via_invite_sequential_witness :
  Router.join_group_via_invite "nocode" 7%Z 500%Z 501%Z Sample.world0
  = (Raise (HTTPException 404 (Lit "Invite not found or expired")),
     Sample.world0)
  ∧ ∃ w' c' i',
      Router.join_group_via_invite "k3Jx0aQ" 7%Z 500%Z 501%Z Sample.world0
      = (Ok (Router.joined Sample.invite1 Sample.group), w')
      ∧ find_one (by__id Sample.chat1) (chats (db w')) = Some c'
      ∧ c_participants c'
        = c_participants Sample.group
          ++ [Participant (IdInt 7) "user" "member" 501%Z []]
      ∧ find_one (λ i, bool_decide (i_code i = "k3Jx0aQ")) (invites (db w'))
        = Some i'
      ∧ i_is_active i' = false
      ∧ i_used_by i' = Some (IdInt 7)
      ∧ (∀ t, get_invite "k3Jx0aQ" t (db w') = None)
      ∧ (∀ user t t',
           (Router.join_group_via_invite "k3Jx0aQ" user t t' w').1
           = Raise (HTTPException 404 (Lit "Invite not found or expired"))).
Proof.
  split.
  - apply (join_group_via_invite_sequential Sample.world0 "nocode" 7%Z 500%Z
             501%Z).
    intros j Hj Hcode. apply list_elem_of_singleton in Hj as ->.
    discriminate Hcode.
  - refine (proj2 (join_group_via_invite_sequential Sample.world0 "k3Jx0aQ"
                     7%Z 500%Z 501%Z)
              Sample.invite1 Sample.chat1 Sample.group _ _ _ _ _ _ _).
    + apply NoDup_singleton.
    + reflexivity.
    + vm_compute. discriminate.
    + reflexivity.
    + reflexivity.
    + reflexivity.
    + reflexivity.
Defined.

(** An invite that names its chat by the chat's [chat_id] field, which
    [create_group_invite] stores when it is called with that text.
    [get_chat] finds the chat by that field, [add_chat_participant]
    filters on [_id] and changes nothing, and the handler does not look at
    what it returns: the caller is told that they joined, no chat has
    changed, and the invite is consumed. *)
Lemma join_group_via_invite_by_alias w invite_code current_user now now' i o
    c :
  NoDup (i_code <$> invites (db w)) →
  get_invite invite_code now (db w) = Some i →
  (now' ≤ i_expires_at i)%Z →
  ObjectId (i_chat_id i) = Ok o →
  find_one (by_chat_id (i_chat_id i)) (chats (db w)) = Some c →
  find_one (by__id o) (chats (db w)) = None →
  is_participant (IdInt current_user) c = false →
  ∃ w',
    Router.join_group_via_invite invite_code current_user now now' w
    = (Ok (Router.joined i c), w')
    ∧ chats (db w') = chats (db w)
    ∧ (∀ t, get_invite invite_code t (db w') = None).
Proof.
  intros Hnd Hi Hexp Ho Halias Hno Hpart.
  destruct (mark_used_unredeemable invite_code (IdInt current_user) now now'
              _ Hnd i Hi) as [_ Hgone].
  eexists. split.
  { unfold Router.join_group_via_invite, reraise_http, try_except, bind,
      read_db, ret, raise.
    rewrite Hi. rewrite bool_decide_eq_false_2 by lia.
    unfold get_chat. rewrite Halias, Hpart.
    rewrite !call_db_snd. cbn [db manager].
    rewrite mark_invite_used_unfold.
    rewrite (add_chat_participant_unfold _ _ _ _ _ _ _ Ho).
    rewrite (update_one_no_match _ _ _ Hno). cbn [fst]. reflexivity. }
  cbn [db chats invites set_invites set_chats]. split; [done|].
  intros t. apply Hgone.
Qed.

(** The invite of [Sample.store0], naming the sample group by its
    [chat_id] field: user 7 is told that they joined a group of four, the
    group has its three participants, and the code is spent. *)
Lemma join_group_via_invite_by_alias_sample :
  let alias := "65c000000000000000000009" in
  let invite2 :=
    {| i_code := "k3Jx0aQ"; i_chat_id := alias; i_creator_id := IdInt 2;
       i_created_at := 100%Z; i_expires_at := 1000%Z; i_is_active := true;
       i_used_by := None; i_used_at := None |} in
  let w :=
    World (set_invites [invite2] Sample.store0) Registry.init in
  let '(r, w') := Router.join_group_via_invite "k3Jx0aQ" 7%Z 500%Z 501%Z w in
  r = Ok {| Router.jr_chat_id := alias;
            Router.jr_message := "Successfully joined group";
            Router.jr_status := "joined";
            Router.jr_member_count := 4 |}
  ∧ chats (db w') = [Sample.group]
  ∧ i_is_active <$> invites (db w') = [false]
  ∧ i_used_by <$> invites (db w') = [Some (IdInt 7)].
Proof. vm_compute. repeat split; reflexivity. Qed.

(** C2, as stated, fails.  Three round trips into a redemption the caller
    is a participant of the chat and the invite is still redeemable; and
    when the round trips of two requests for the same code alternate,
    both callers are told that they joined, and both are participants. *)
Lemma join_group_via_invite_not_atomic :
  (let '(p, d) :=
     JoinTask.run 3 "k3Jx0aQ" 7%Z 500%Z 501%Z JoinTask.Start Sample.store0 in
   p = JoinTask.Added Sample.invite1 Sample.group
   ∧ JoinTask.member_of Sample.chat1 (IdInt 7) d = true
   ∧ JoinTask.redeemable "k3Jx0aQ" 501%Z d = true)
  ∧ (let '(p1, p2, d) :=
       JoinTask.interleave
         [JoinTask.First; JoinTask.Second; JoinTask.First; JoinTask.Second;
          JoinTask.First; JoinTask.Second; JoinTask.First; JoinTask.Second]
         "k3Jx0aQ" 7%Z 8%Z 500%Z 501%Z JoinTask.Start JoinTask.Start
         Sample.store0 in
     p1 = JoinTask.Done (Ok (Router.joined Sample.invite1 Sample.group))
     ∧ p2 = JoinTask.Done (Ok (Router.joined Sample.invite1 Sample.group))
     ∧ JoinTask.member_of Sample.chat1 (IdInt 7) d = true
     ∧ JoinTask.member_of Sample.chat1 (IdInt 8) d = true).
Proof. vm_compute. repeat split; reflexivity. Qed.

End InviteFacts.

(** ** The connection registry, continued *)

Section RegistryExtFacts.
Import Registry RegistryExt.
Implicit Types (m : ConnectionManager) (c x : string).

(** What a successful send leaves in the transport. *)
Lemma body_at_deliverable msg ex m y :
  deliverable ex m y →
  active_connections (broadcast_body msg ex y m) !! y
  = if decide (Some y = ex) then active_connections m !! y
    else (λ ws, Build_WebSocket true (ws_sent ws ++ [msg])) <$>
           active_connections m !! y.
Proof.
  unfold broadcast_body. intros Hy. destruct (decide (Some y = ex)); [done|].
  destruct Hy as [Hex | [Hnone | (ws & Hws & Hopen)]]; [done| |].
  - by rewrite Hnone.
  - rewrite Hws. unfold send_json. rewrite Hopen.
    cbn [active_connections]. by rewrite lookup_insert_eq.
Qed.

Lemma loop_all_deliverable chat_id msg ex todo : ∀ m,
  NoDup todo →
  Forall (deliverable ex m) todo →
  ∃ m',
    broadcast_loop chat_id msg ex (length (room_of chat_id m)) todo m
    = (Ok tt, m')
    ∧ chat_rooms m' = chat_rooms m
    ∧ ∀ x,
        active_connections m' !! x
        = if decide (x ∈ todo ∧ Some x ≠ ex)
          then (λ ws, Build_WebSocket true (ws_sent ws ++ [msg])) <$>
                 active_connections m !! x
          else active_connections m !! x.
Proof.
  induction todo as [|y todo IH]; intros m Hnd Hgood.
  - exists m. split.
    + cbn [broadcast_loop]. unfold room_of. by rewrite Nat.eqb_refl.
    + split; [done|]. intros x. rewrite decide_False; [done|].
      intros [Hx _]. by apply not_elem_of_nil in Hx.
  - apply NoDup_cons in Hnd as [Hy Hnd].
    apply Forall_cons in Hgood as [Hgy Hgood].
    destruct (body_deliverable msg ex m y Hgy) as [Hrooms Hact].
    pose proof (body_at_deliverable msg ex m y Hgy) as Haty.
    rewrite loop_next by done.
    set (m1 := broadcast_body msg ex y m) in *.
    assert (Hroom : room_of chat_id m1 = room_of chat_id m)
      by (unfold room_of; by rewrite Hrooms).
    destruct (IH m1 Hnd) as (m' & Hrun & Hrooms' & Hact').
    { apply Forall_forall. intros x Hx.
      assert (Hxy : x ≠ y) by (by intros ->).
      rewrite Forall_forall in Hgood. specialize (Hgood x Hx).
      unfold deliverable in *. by rewrite (Hact x Hxy). }
    exists m'. rewrite Hroom in Hrun. split; [done|].
    split; [by rewrite Hrooms'|].
    intros x. rewrite Hact'. destruct (decide (x = y)) as [->|Hxy].
    + rewrite (decide_False (P := y ∈ todo ∧ _)) by tauto.
      rewrite Haty. destruct (decide (Some y = ex)) as [Hex|Hex].
      * rewrite decide_False; [done|]. tauto.
      * rewrite decide_True; [done|]. split; [by left | done].
    + rewrite (Hact x Hxy).
      destruct (decide (x ∈ todo ∧ Some x ≠ ex)) as [[Hin Hex]|Hno].
      * rewrite decide_True; [done|]. split; [by right | done].
      * rewrite decide_False; [done|]. intros [Hin Hex].
        apply elem_of_cons in Hin as [->|Hin]; tauto.
Qed.

(** X1.  When no member of the room has a closed transport (each is the
    excluded connection, or is not registered, or has an open transport),
    [broadcast_to_chat] returns normally, leaves the rooms as they are,
    hands the payload exactly once to every registered member other than
    the excluded one, and touches no other transport. *)
Theorem broadcast_reaches_every_member m chat_id msg ex room :
  chat_rooms m !! chat_id = Some room →
  NoDup room →
  Forall (deliverable ex m) room →
  ∃ m',
    broadcast_to_chat chat_id msg ex m = (Ok tt, m')
    ∧ chat_rooms m' = chat_rooms m
    ∧ ∀ x,
        active_connections m' !! x
        = if decide (x ∈ room ∧ Some x ≠ ex)
          then (λ ws, Build_WebSocket true (ws_sent ws ++ [msg])) <$>
                 active_connections m !! x
          else active_connections m !! x.
Proof.
  intros Hroom Hnd Hgood. unfold broadcast_to_chat. rewrite Hroom.
  assert (Hr : room_of chat_id m = room)
    by (unfold room_of; by rewrite Hroom).
  destruct (loop_all_deliverable chat_id msg ex room m Hnd Hgood)
    as (m' & Hrun & Hrest).
  exists m'. rewrite Hr in Hrun. by split.
Qed.

(** A broadcast to the room of [Sample2.registry2] that excludes
    [user_1]. *)
Lemma broadcast_reaches_every_member_witness :
  ∃ m',
    broadcast_to_chat Sample.chat1 Sample.hello (Some "user_1")
      Sample2.registry2 = (Ok tt, m')
    ∧ chat_rooms m' = chat_rooms Sample2.registry2
    ∧ ∀ x,
        active_connections m' !! x
        = if decide (x ∈ ["user_1"; "user_9"; "user_3"]
                     ∧ Some x ≠ Some "user_1")
          then (λ ws, Build_WebSocket true (ws_sent ws ++ [Sample.hello])) <$>
                 active_connections Sample2.registry2 !! x
          else active_connections Sample2.registry2 !! x.
Proof.
  apply (broadcast_reaches_every_member Sample2.registry2 Sample.chat1
           Sample.hello (Some "user_1") ["user_1"; "user_9"; "user_3"]).
  - reflexivity.
  - apply (bool_decide_unpack _). vm_compute. reflexivity.
  - constructor; [left; reflexivity|].
    constructor; [right; left; reflexivity|].
    constructor; [|constructor].
    right. right. exists (Build_WebSocket true []). split; reflexivity.
Defined.

Lemma discard_absent c (room : list string) : c ∉ room → discard c room = room.
Proof.
  unfold discard. induction room as [|y room IH]; [done|].
  intros Hc. apply not_elem_of_cons in Hc as [Hcy Hc]. cbn [List.filter].
  rewrite (bool_decide_eq_false_2 (y = c)) by congruence. cbn [negb].
  by rewrite (IH Hc).
Qed.

Lemma elem_of_discard c x (room : list string) :
  x ∈ discard c room ↔ x ∈ room ∧ x ≠ c.
Proof.
  unfold discard. rewrite elem_of_filter_bool, negb_true_iff.
  by rewrite bool_decide_eq_false.
Qed.

Lemma discard_idem c (room : list string) :
  discard c (discard c room) = discard c room.
Proof. apply discard_absent. rewrite elem_of_discard. tauto. Qed.

(** X2.  [disconnect] of a registered connection removes it from the live
    map and from every room, and changes neither the membership nor the
    transport of any other connection.  For a connection that is not
    registered it does nothing at all: a connection that joined rooms
    without being registered stays a member of them. *)
Theorem disconnect_leaves_every_room m c :
  (is_Some (active_connections m !! c) →
   active_connections (disconnect c m) !! c = None
   ∧ (∀ chat_id, c ∉ get_chat_participants chat_id (disconnect c m))
   ∧ (∀ chat_id x, x ≠ c →
        (x ∈ get_chat_participants chat_id (disconnect c m)
         ↔ x ∈ get_chat_participants chat_id m))
   ∧ (∀ x, x ≠ c →
        active_connections (disconnect c m) !! x = active_connections m !! x))
  ∧ (active_connections m !! c = None → disconnect c m = m).
Proof.
  split.
  - intros [ws Hws].
    assert (Hroom : ∀ chat_id,
              get_chat_participants chat_id (disconnect c m)
              = discard c (get_chat_participants chat_id m))
      by (intros chat_id; apply (room_of_disconnect _ _ _ _ Hws)).
    unfold disconnect at 1 4. rewrite Hws. cbn [active_connections].
    split; [apply lookup_delete_eq|]. split.
    + intros chat_id. rewrite Hroom, elem_of_discard. tauto.
    + split.
      * intros chat_id x Hx. rewrite Hroom, elem_of_discard. tauto.
      * intros x Hx. by rewrite lookup_delete_ne.
  - intros Hnone. unfold disconnect. by rewrite Hnone.
Qed.

(** In [Sample2.registry2], [user_1] is registered and [user_9] is a
    member of the room without being registered. *)
Lemma disconnect_leaves_every_room_witness :
  ("user_1" ∉ get_chat_participants Sample.chat1
                (disconnect "user_1" Sample2.registry2))
  ∧ disconnect "user_9" Sample2.registry2 = Sample2.registry2.
Proof.
  split.
  - destruct (disconnect_leaves_every_room Sample2.registry2 "user_1")
      as [H _].
    destruct H as (_ & Hout & _); [by eexists|]. apply Hout.
  - destruct (disconnect_leaves_every_room Sample2.registry2 "user_9")
      as [_ H].
    exact (H eq_refl).
Defined.

Lemma get_chat_participants_join chat_id c m :
  get_chat_participants chat_id (join_chat chat_id c m)
  = set_add c (get_chat_participants chat_id m).
Proof.
  unfold get_chat_participants, join_chat. cbn [chat_rooms].
  by rewrite lookup_insert_eq.
Qed.

Lemma get_chat_participants_leave chat_id c m :
  get_chat_participants chat_id (leave_chat chat_id c m)
  = discard c (get_chat_participants chat_id m).
Proof.
  unfold get_chat_participants, leave_chat.
  destruct (chat_rooms m !! chat_id) as [room|] eqn:Hroom.
  - cbn [chat_rooms]. by rewrite lookup_insert_eq.
  - by rewrite Hroom.
Qed.

Lemma set_add_elem c x (room : list string) :
  x ∈ set_add c room ↔ x = c ∨ x ∈ room.
Proof.
  unfold set_add. destruct (decide (c ∈ room)) as [Hc|Hc].
  - split; [tauto|]. by intros [->|Hx].
  - rewrite elem_of_app, list_elem_of_singleton. tauto.
Qed.

(** X3.  [join_chat] and [leave_chat] are idempotent, make the connection
    a member and a non-member of the room, leave the other members of
    the room, the other rooms and the live map alone, and a [leave_chat]
    after the [join_chat] of a connection that was not in the room gives
    the room back as it was. *)
Theorem join_leave_chat m chat_id c :
  join_chat chat_id c (join_chat chat_id c m) = join_chat chat_id c m
  ∧ leave_chat chat_id c (leave_chat chat_id c m) = leave_chat chat_id c m
  ∧ (c ∈ get_chat_participants chat_id (join_chat chat_id c m))
  ∧ (c ∉ get_chat_participants chat_id (leave_chat chat_id c m))
  ∧ (∀ x, x ≠ c →
       (x ∈ get_chat_participants chat_id (join_chat chat_id c m)
        ↔ x ∈ get_chat_participants chat_id m)
       ∧ (x ∈ get_chat_participants chat_id (leave_chat chat_id c m)
          ↔ x ∈ get_chat_participants chat_id m))
  ∧ (∀ other, other ≠ chat_id →
       get_chat_participants other (join_chat chat_id c m)
       = get_chat_participants other m
       ∧ get_chat_participants other (leave_chat chat_id c m)
         = get_chat_participants other m)
  ∧ active_connections (join_chat chat_id c m) = active_connections m
  ∧ active_connections (leave_chat chat_id c m) = active_connections m
  ∧ (c ∉ get_chat_participants chat_id m →
     get_chat_participants chat_id
       (leave_chat chat_id c (join_chat chat_id c m))
     = get_chat_participants chat_id m).
Proof.
  split.
  { unfold join_chat at 1 2. cbn [chat_rooms active_connections].
    rewrite lookup_insert_eq. cbn [default id]. unfold join_chat. f_equal.
    rewrite insert_insert_eq. f_equal. unfold set_add at 1.
    rewrite decide_True; [done|]. apply set_add_elem. by left. }
  split.
  { unfold leave_chat at 1 2.
    destruct (chat_rooms m !! chat_id) as [room|] eqn:Hroom.
    - cbn [chat_rooms active_connections]. rewrite lookup_insert_eq.
      unfold leave_chat. rewrite Hroom. f_equal.
      by rewrite insert_insert_eq, discard_idem.
    - rewrite Hroom. unfold leave_chat. by rewrite Hroom. }
  split.
  { rewrite get_chat_participants_join. apply set_add_elem. by left. }
  split.
  { rewrite get_chat_participants_leave, elem_of_discard. tauto. }
  split.
  { intros x Hx. rewrite get_chat_participants_join,
      get_chat_participants_leave, set_add_elem, elem_of_discard. tauto. }
  split.
  { intros other Hne. unfold get_chat_participants, join_chat, leave_chat.
    destruct (chat_rooms m !! chat_id); cbn [chat_rooms];
      by rewrite ?lookup_insert_ne. }
  split; [done|]. split.
  { unfold leave_chat. by destruct (chat_rooms m !! chat_id). }
  intros Hc. rewrite get_chat_participants_leave, get_chat_participants_join.
  unfold set_add. rewrite decide_False by done.
  unfold discard. rewrite List.filter_app. cbn [List.filter].
  rewrite bool_decide_eq_true_2 by done. cbn [negb].
  rewrite app_nil_r. by apply discard_absent.
Qed.

(** X4.  [send_personal_message] never raises.  To an unknown connection
    it does nothing; on an open transport it hands over the payload; on a
    closed one it drops the connection from the live map and from every
    room. *)
Theorem send_personal_message_prunes m msg c :
  (active_connections m !! c = None → send_personal_message msg c m = m)
  ∧ (∀ ws, active_connections m !! c = Some ws → ws_open ws = true →
       active_connections (send_personal_message msg c m) !! c
       = Some (Build_WebSocket true (ws_sent ws ++ [msg]))
       ∧ chat_rooms (send_personal_message msg c m) = chat_rooms m
       ∧ ∀ x, x ≠ c →
           active_connections (send_personal_message msg c m) !! x
           = active_connections m !! x)
  ∧ (∀ ws, active_connections m !! c = Some ws → ws_open ws = false →
       active_connections (send_personal_message msg c m) !! c = None
       ∧ ∀ chat_id,
           get_chat_participants chat_id (send_personal_message msg c m)
           = discard c (get_chat_participants chat_id m)).
Proof.
  unfold send_personal_message. split; [by intros ->|]. split.
  - intros ws Hws Hopen. rewrite Hws. unfold send_json. rewrite Hopen.
    cbn [active_connections chat_rooms]. rewrite lookup_insert_eq.
    split; [done|]. split; [done|]. intros x Hx. by rewrite lookup_insert_ne.
  - intros ws Hws Hclosed. rewrite Hws. unfold send_json. rewrite Hclosed.
    split.
    + unfold disconnect. rewrite Hws. apply lookup_delete_eq.
    + intros chat_id. apply (room_of_disconnect _ _ _ _ Hws).
Qed.

(** In [Sample.registry1] the transport of [user_2] is closed and that of
    [user_1] is open. *)
Lemma send_personal_message_prunes_witness :
  active_connections
    (send_personal_message Sample.hello "user_2" Sample.registry1)
  !! "user_2" = None
  ∧ active_connections
      (send_personal_message Sample.hello "user_1" Sample.registry1)
    !! "user_1" = Some (Build_WebSocket true [Sample.hello]).
Proof.
  destruct (send_personal_message_prunes Sample.registry1 Sample.hello
              "user_2") as (_ & _ & Hclosed).
  destruct (send_personal_message_prunes Sample.registry1 Sample.hello
              "user_1") as (_ & Hopen & _).
  split.
  - exact (proj1 (Hclosed _ eq_refl eq_refl)).
  - exact (proj1 (Hopen _ eq_refl eq_refl)).
Defined.

Lemma loop_no_transport chat_id msg ex m todo :
  active_connections m = ∅ →
  broadcast_loop chat_id msg ex (length (room_of chat_id m)) todo m
  = (Ok tt, m).
Proof.
  intros Hempty. induction todo as [|y todo IH].
  - cbn [broadcast_loop]. unfold room_of. by rewrite Nat.eqb_refl.
  - rewrite loop_next by done.
    replace (broadcast_body msg ex y m) with m; [done|].
    unfold broadcast_body. destruct (decide _); [done|].
    by rewrite Hempty, lookup_empty.
Qed.

(** X5.  Only [connect] registers a transport.  In a registry without
    transports, [join_chat], [leave_chat], [disconnect] and
    [send_personal_message] register none, and [broadcast_to_chat]
    returns normally without sending or changing anything, whoever is in
    the room. *)
Theorem nothing_sent_without_connect m chat_id c msg ex :
  active_connections m = ∅ →
  broadcast_to_chat chat_id msg ex m = (Ok tt, m)
  ∧ active_connections (join_chat chat_id c m) = ∅
  ∧ active_connections (leave_chat chat_id c m) = ∅
  ∧ disconnect c m = m
  ∧ send_personal_message msg c m = m.
Proof.
  intros Hempty. split.
  { unfold broadcast_to_chat.
    destruct (chat_rooms m !! chat_id) as [room|] eqn:Hroom; [|done].
    replace (length room) with (length (room_of chat_id m))
      by (unfold room_of; by rewrite Hroom).
    by apply loop_no_transport. }
  split; [done|]. split.
  { unfold leave_chat. by destruct (chat_rooms m !! chat_id). }
  split.
  - unfold disconnect. by rewrite Hempty, lookup_empty.
  - unfold send_personal_message. by rewrite Hempty, lookup_empty.
Qed.

(** The registry in which [user_7] has joined the sample chat and
    nobody was connected. *)
Lemma nothing_sent_without_connect_witness :
  broadcast_to_chat Sample.chat1 Sample.hello None
    (join_chat Sample.chat1 "user_7" init)
  = (Ok tt, join_chat Sample.chat1 "user_7" init)
  ∧ active_connections
      (join_chat Sample.chat1 "user_8" (join_chat Sample.chat1 "user_7" init))
    = ∅
  ∧ active_connections
      (leave_chat Sample.chat1 "user_8" (join_chat Sample.chat1 "user_7" init))
    = ∅
  ∧ disconnect "user_8" (join_chat Sample.chat1 "user_7" init)
    = join_chat Sample.chat1 "user_7" init
  ∧ send_personal_message Sample.hello "user_8"
      (join_chat Sample.chat1 "user_7" init)
    = join_chat Sample.chat1 "user_7" init.
Proof.
  apply (nothing_sent_without_connect (join_chat Sample.chat1 "user_7" init)
           Sample.chat1 "user_8" Sample.hello None).
  reflexivity.
Defined.

End RegistryExtFacts.

(** ** Unread counters *)

Section UnreadFacts.
Import ChatService ChatServiceExt.

Lemma lookup_const_map {A} (g : A → string) (v : Z) (l : list A) (i : string) :
  (list_to_map ((λ a, (g a, v)) <$> l) : gmap string Z) !! i
  = if decide (i ∈ g <$> l) then Some v else None.
Proof.
  induction l as [|a l IH].
  - rewrite decide_False; [done|]. apply not_elem_of_nil.
  - rewrite !fmap_cons, list_to_map_cons, lookup_insert.
    destruct (decide (g a = i)) as [<-|Hne].
    + rewrite decide_True; [done | by left].
    + rewrite IH. destruct (decide (i ∈ g <$> l)) as [Hin|Hin].
      * rewrite decide_True; [done | by right].
      * rewrite decide_False; [done|].
        intros Hc. apply elem_of_cons in Hc as [->|Hc]; tauto.
Qed.

Lemma find_one_widen {D} (f g : D → bool) (l : list D) (d : D) :
  find_one (λ x, f x || g x) l = Some d → f d = true →
  find_one f l = Some d.
Proof.
  induction l as [|x l IH]; cbn [find_one]; [done|].
  destruct (f x) eqn:Hfx; cbn [orb].
  - by intros [= ->].
  - destruct (g x); [|exact IH]. intros [= ->]. congruence.
Qed.

Lemma increment_unread_count_chat db chat_id sender_id sender_type c :
  get_chat_details chat_id db = Some c →
  ∃ c',
    get_chat_details chat_id
      (increment_unread_count chat_id sender_id sender_type db) = Some c'
    ∧ c' = with_unread_counts (c_unread_counts c') c
    ∧ (∀ key,
         c_unread_counts c' !! key
         = if decide
                (key ∈ (λ p, participant_key (p_type p) (p_id p)) <$>
                   List.filter
                     (λ p, negb (bool_decide
                                   (py_str (p_id p) = py_str sender_id))
                           || negb (bool_decide (p_type p = sender_type)))
                     (c_participants c))
           then Some (default 0%Z (c_unread_counts c !! key) + 1)%Z
           else c_unread_counts c !! key)
    ∧ messages (increment_unread_count chat_id sender_id sender_type db)
      = messages db
    ∧ invites (increment_unread_count chat_id sender_id sender_type db)
      = invites db.
Proof.
  intros Hc.
  destruct (get_chat_details_Some _ _ _ Hc) as (o & Ho & Hfind).
  unfold increment_unread_count. rewrite Hc.
  assert (Hlook : ∀ key,
            unread_updates sender_id sender_type c !! key
            = if decide
                   (key ∈ (λ p, participant_key (p_type p) (p_id p)) <$>
                      List.filter
                        (λ p, negb (bool_decide
                                      (py_str (p_id p) = py_str sender_id))
                              || negb (bool_decide (p_type p = sender_type)))
                        (c_participants c))
              then Some 1%Z else None)
    by (intros key; apply lookup_const_map).
  destruct (decide (unread_updates sender_id sender_type c = ∅)) as [He|He].
  - exists c. split; [done|]. split; [by destruct c|]. split; [|done].
    intros key. specialize (Hlook key). rewrite He, lookup_empty in Hlook.
    by destruct (decide _).
  - rewrite Ho.
    exists (inc_unread (unread_updates sender_id sender_type c) c).
    split.
    { unfold get_chat_details. rewrite Ho. cbn [chats set_chats].
      apply find_one_update_one; [done|].
      apply find_one_Some in Hfind as [Hfind _]. by destruct c. }
    split; [done|]. split; [|done].
    intros key. unfold inc_unread. cbn [c_unread_counts with_unread_counts].
    rewrite lookup_union_with, Hlook.
    destruct (decide _); by destruct (c_unread_counts c !! key).
Qed.

(** X6.  [increment_unread_count] on a chat that exists adds one to the
    counter of every participant other than the sender (a participant is
    the sender when both the text of the id and the kind agree), starting
    from 0 where a counter is absent, and changes nothing else: the
    sender's counter, the other fields of the chat, the messages. *)
Theorem increment_unread_count_others db chat_id sender_id sender_type c :
  get_chat_details chat_id db = Some c →
  ∃ c',
    get_chat_details chat_id
      (increment_unread_count chat_id sender_id sender_type db) = Some c'
    ∧ c' = with_unread_counts (c_unread_counts c') c
    ∧ (∀ key,
         c_unread_counts c' !! key
         = if decide
                (key ∈ (λ p, participant_key (p_type p) (p_id p)) <$>
                   List.filter
                     (λ p, negb (bool_decide
                                   (py_str (p_id p) = py_str sender_id))
                           || negb (bool_decide (p_type p = sender_type)))
                     (c_participants c))
           then Some (default 0%Z (c_unread_counts c !! key) + 1)%Z
           else c_unread_counts c !! key)
    ∧ messages (increment_unread_count chat_id sender_id sender_type db)
      = messages db
    ∧ invites (increment_unread_count chat_id sender_id sender_type db)
      = invites db.
Proof. apply increment_unread_count_chat. Qed.

(** A message by user 1 in the chat of [Sample.store0]. *)
Lemma increment_unread_count_others_witness :
  ∃ c',
    get_chat_details Sample.chat1
      (increment_unread_count Sample.chat1 (IdInt 1) "user" Sample.store0)
    = Some c'
    ∧ c' = with_unread_counts (c_unread_counts c') Sample.group
    ∧ (∀ key,
         c_unread_counts c' !! key
         = if decide (key ∈ ["dealer_2"; "dealer_3"])
           then Some (default 0%Z (c_unread_counts Sample.group !! key) + 1)%Z
           else c_unread_counts Sample.group !! key)
    ∧ messages (increment_unread_count Sample.chat1 (IdInt 1) "user"
                  Sample.store0) = messages Sample.store0
    ∧ invites (increment_unread_count Sample.chat1 (IdInt 1) "user"
                 Sample.store0) = invites Sample.store0.
Proof.
  exact (increment_unread_count_others Sample.store0 Sample.chat1 (IdInt 1)
           "user" Sample.group eq_refl).
Defined.

(** X7.  The counter as [get_unread_count] reads it.  After
    [increment_unread_count] for a message of somebody else, a
    participant of kind ["user"] reads one more than the counter stored
    under ["user_{id}"] before (0 if there was none); after that
    participant's [mark_messages_as_delivered] the reading is 0. *)
Theorem unread_count_round_trip db chat_id sender_id sender_type c p now :
  get_chat_details chat_id db = Some c →
  p ∈ c_participants c →
  p_type p = "user" →
  py_str (p_id p) ≠ py_str sender_id ∨ sender_type ≠ "user" →
  ∃ c1 c2,
    get_chat_details chat_id
      (increment_unread_count chat_id sender_id sender_type db) = Some c1
    ∧ get_unread_count c1 (p_id p)
      = (default 0 (c_unread_counts c !! ("user_" +:+ py_str (p_id p))) + 1)%Z
    ∧ get_chat_details chat_id
        (mark_messages_as_delivered chat_id (p_id p) "user" None now
           (increment_unread_count chat_id sender_id sender_type db)).2
      = Some c2
    ∧ get_unread_count c2 (p_id p) = 0%Z.
Proof.
  intros Hc Hp Hkind Hother.
  destruct (increment_unread_count_chat db chat_id sender_id sender_type c Hc)
    as (c1 & Hc1 & _ & Hcount & _).
  destruct (get_chat_details_Some _ _ _ Hc1) as (o & Ho & Hfind1).
  exists c1, (reset_unread "user" (p_id p) c1).
  split; [done|]. split.
  { unfold get_unread_count.
    change ("user_" +:+ py_str (p_id p))
      with (participant_key "user" (p_id p)).
    rewrite Hcount. rewrite decide_True; [done|].
    apply list_elem_of_fmap. exists p. split; [by rewrite Hkind|].
    apply elem_of_filter_bool. split; [done|].
    apply orb_true_iff. destruct Hother as [Hid|Hty].
    - left. by rewrite bool_decide_eq_false_2.
    - right. rewrite Hkind. rewrite bool_decide_eq_false_2; [done|].
      congruence. }
  split.
  { rewrite (mark_messages_as_delivered_unfold _ _ _ _ _ _ Ho).
    unfold get_chat_details. rewrite Ho. cbn [chats set_chats set_messages].
    apply find_one_update_one; [done|].
    apply find_one_Some in Hfind1 as [Hfind1 _]. by destruct c1. }
  unfold get_unread_count.
  change ("user_" +:+ py_str (p_id p)) with (participant_key "user" (p_id p)).
  by rewrite reset_unread_lookup.
Qed.

(** Participant 2 posts in the chat of [Sample.store0]; user 1 reads
    the counter. *)
Lemma unread_count_round_trip_witness :
  ∃ c1 c2,
    get_chat_details Sample.chat1
      (increment_unread_count Sample.chat1 (IdInt 2) "dealer" Sample.store0)
    = Some c1
    ∧ get_unread_count c1 (IdInt 1) = (0 + 1)%Z
    ∧ get_chat_details Sample.chat1
        (mark_messages_as_delivered Sample.chat1 (IdInt 1) "user" None 500%Z
           (increment_unread_count Sample.chat1 (IdInt 2) "dealer"
              Sample.store0)).2
      = Some c2
    ∧ get_unread_count c2 (IdInt 1) = 0%Z.
Proof.
  refine (unread_count_round_trip Sample.store0 Sample.chat1 (IdInt 2)
            "dealer" Sample.group
            (Participant (IdInt 1) "user" "admin" 100%Z
               ["invite"; "add_members"; "manage_settings"; "remove_members"])
            500%Z _ _ _ _).
  - reflexivity.
  - by left.
  - reflexivity.
  - left. vm_compute. discriminate.
Defined.

Lemma update_many_none_count {D} `{EqDecision D} (f : D → bool) (upd : D → D)
    (l : list D) :
  (∀ d, d ∈ l → f d = false) → update_many f upd l = (l, 0).
Proof.
  induction l as [|x l IH]; [done|]. intros Hall. cbn [update_many].
  rewrite IH by (intros d Hd; apply Hall; by right).
  by rewrite (Hall x (list_elem_of_here _ _)).
Qed.

Lemma mark_messages_as_read_unfold db chat_id user_id user_type s o now :
  ObjectId s = Ok o →
  mark_messages_as_read chat_id user_id user_type (Some s) now db
  = (bool_decide
       (0 < (update_many
               (mark_messages_as_read_query chat_id user_id user_type (Some o))
               (λ m, with_read_by
                       (addToSet (Receipt user_id user_type now) (m_read_by m))
                       m)
               (messages db)).2),
     set_messages
       (update_many
          (mark_messages_as_read_query chat_id user_id user_type (Some o))
          (λ m, with_read_by
                  (addToSet (Receipt user_id user_type now) (m_read_by m)) m)
          (messages db)).1 db).
Proof.
  intros Ho. unfold mark_messages_as_read.
  destruct s as [|a s]; [by vm_compute in Ho|].
  rewrite Ho. by destruct (update_many _ _ _).
Qed.

Lemma unread_kind_receipt_fresh user_id user_type now (m : message) :
  read_by_user_kind user_id user_type m = false →
  Receipt user_id user_type now ∉ m_read_by m.
Proof.
  unfold read_by_user_kind. intros Hno Hin.
  apply not_true_iff_false in Hno. apply Hno.
  apply existsb_exists. exists (Receipt user_id user_type now).
  split; [by apply list_elem_of_In|]. cbn [r_user_id r_user_type].
  by rewrite !bool_decide_eq_true_2.
Qed.

(** X8.  [mark_messages_as_read] with a message id adds the reader's
    entry to that message alone, and only if the message belongs to the
    chat, was sent by somebody else and has no entry of this reader and
    kind yet.  It writes nothing but [read_by]: the chats, and with them
    the unread counters, are as before.  A second call changes nothing
    and returns [False]. *)
Theorem mark_messages_as_read_one db chat_id user_id user_type s o now now' :
  ObjectId s = Ok o →
  ∃ b db1,
    mark_messages_as_read chat_id user_id user_type (Some s) now db = (b, db1)
    ∧ messages db1
      = (λ m, if bool_decide (m__id m = o)
                 && bool_decide (m_chat_id m = chat_id)
                 && negb (bool_decide (m_sender_id m = user_id))
                 && negb (read_by_user_kind user_id user_type m)
              then with_read_by
                     (m_read_by m ++ [Receipt user_id user_type now]) m
              else m) <$> messages db
    ∧ chats db1 = chats db
    ∧ invites db1 = invites db
    ∧ removed_members db1 = removed_members db
    ∧ mark_messages_as_read chat_id user_id user_type (Some s) now' db1
      = (false, db1).
Proof.
  intros Ho. rewrite (mark_messages_as_read_unfold _ _ _ _ _ _ _ Ho).
  set (q := mark_messages_as_read_query chat_id user_id user_type (Some o)).
  set (g := λ m : message,
              if q m
              then with_read_by
                     (m_read_by m ++ [Receipt user_id user_type now]) m
              else m).
  assert (Hms : (update_many q
                   (λ m, with_read_by
                           (addToSet (Receipt user_id user_type now)
                              (m_read_by m)) m)
                   (messages db)).1 = g <$> messages db).
  { rewrite update_many_fst. apply list_fmap_ext. intros i m _. unfold g.
    destruct (q m) eqn:Hq; [|done]. subst q.
    unfold mark_messages_as_read_query in Hq.
    apply andb_true_iff in Hq as [Hq _]. apply andb_true_iff in Hq as [_ Hq].
    apply negb_true_iff in Hq.
    by rewrite (addToSet_fresh _ _ (unread_kind_receipt_fresh _ _ now _ Hq)). }
  eexists _, _. split; [reflexivity|].
  cbn [messages chats invites removed_members set_messages].
  split.
  { rewrite Hms. apply list_fmap_ext. intros i m _. unfold g. subst q.
    unfold mark_messages_as_read_query.
    by destruct (bool_decide (m__id m = o)),
      (bool_decide (m_chat_id m = chat_id)),
      (bool_decide (m_sender_id m = user_id)),
      (read_by_user_kind user_id user_type m). }
  split; [done|]. split; [done|]. split; [done|].
  rewrite (mark_messages_as_read_unfold _ _ _ _ _ _ _ Ho).
  cbn [messages set_messages]. fold q. rewrite Hms.
  rewrite update_many_none_count.
  - cbn [fst snd]. rewrite bool_decide_eq_false_2 by lia. reflexivity.
  - intros m Hm. apply list_elem_of_fmap in Hm as (m0 & -> & _). unfold g.
    destruct (q m0) eqn:Hq; [|done]. subst q.
    unfold mark_messages_as_read_query, read_by_user_kind.
    cbn [m_read_by with_read_by]. rewrite existsb_app. cbn [existsb].
    cbn [r_user_id r_user_type].
    rewrite (bool_decide_eq_true_2 (user_id = user_id)) by done.
    rewrite (bool_decide_eq_true_2 (user_type = user_type)) by done.
    cbn [andb orb]. rewrite orb_true_r. cbn [negb].
    by rewrite andb_false_r, andb_false_l.
Qed.

(** The reader ["2"] of a websocket session marks the second message of
    [Sample.store0] as read. *)
Lemma mark_messages_as_read_one_witness :
  ∃ b db1,
    mark_messages_as_read Sample.chat1 (IdStr "2") "user" (Some Sample.msg2)
      500%Z Sample.store0 = (b, db1)
    ∧ messages db1
      = (λ m, if bool_decide (m__id m = Sample.msg2)
                 && bool_decide (m_chat_id m = Sample.chat1)
                 && negb (bool_decide (m_sender_id m = IdStr "2"))
                 && negb (read_by_user_kind (IdStr "2") "user" m)
              then with_read_by
                     (m_read_by m ++ [Receipt (IdStr "2") "user" 500%Z]) m
              else m) <$> messages Sample.store0
    ∧ chats db1 = chats Sample.store0
    ∧ invites db1 = invites Sample.store0
    ∧ removed_members db1 = removed_members Sample.store0
    ∧ mark_messages_as_read Sample.chat1 (IdStr "2") "user"
        (Some Sample.msg2) 501%Z db1 = (false, db1).
Proof.
  exact (mark_messages_as_read_one Sample.store0 Sample.chat1 (IdStr "2")
           "user" Sample.msg2 Sample.msg2 500%Z 501%Z eq_refl).
Defined.

End UnreadFacts.

(** ** Membership *)

Section MembershipFacts.
Import ChatService ChatServiceExt.

Lemma find_one_ext {D} (f g : D → bool) (l : list D) :
  (∀ x, f x = g x) → find_one f l = find_one g l.
Proof.
  intros Hfg. induction l as [|x l IH]; [done|]. cbn [find_one].
  by rewrite Hfg, IH.
Qed.

Lemma find_one_unique_split {D} (f : D → bool) (l : list D) (d : D) :
  find_one f l = Some d → NoDup_by f l →
  ∃ pre post, l = pre ++ d :: post ∧ find_one f pre = None
    ∧ find_one f post = None ∧ f d = true.
Proof.
  induction l as [|x l IH]; cbn [find_one NoDup_by]; [done|].
  destruct (f x) eqn:Hx.
  - intros [= <-] Hpost. by exists [], l.
  - intros Hd Hnd. destruct (IH Hd Hnd) as (pre & post & -> & Hpre & Hpost & Hfd).
    exists (x :: pre), post. cbn [find_one app]. by rewrite Hx.
Qed.

Lemma find_one_update_is_some {D} `{EqDecision D} (f g : D → bool)
    (upd : D → D) (l : list D) :
  (∀ x, f (upd x) = f x) →
  match find_one f (update_one g upd l).1 with Some _ => true | None => false end
  = match find_one f l with Some _ => true | None => false end.
Proof.
  intros Hupd. induction l as [|x l IH]; [done|]. cbn [update_one].
  destruct (g x).
  - cbn [fst find_one]. rewrite Hupd. by destruct (f x).
  - destruct (update_one g upd l) as [l' n]. cbn [fst find_one] in *.
    by destruct (f x).
Qed.

Lemma with_participants_id (c : chat) : with_participants (c_participants c) c = c.
Proof. by destruct c. Qed.

Lemma push_each_found o (new : list participant) (db : store) (c : chat) :
  find_one (by__id o) (chats db) = Some c →
  find_one (by__id o)
    (chats
       match new with
       | [] => db
       | _ :: _ =>
           set_chats
             (update_one (by__id o)
                (λ c, with_participants (c_participants c ++ new) c)
                (chats db)).1 db
       end)
  = Some (with_participants (c_participants c ++ new) c).
Proof.
  intros Hc. destruct new as [|p0 new'].
  - by rewrite app_nil_r, with_participants_id.
  - cbn [chats set_chats].
    apply (find_one_update_one (by__id o)
             (λ c, with_participants (c_participants c ++ p0 :: new') c));
      [done|].
    apply find_one_Some in Hc as [Hc _]. by destruct c.
Qed.

(** X9.  [add_group_members] keeps the participants of the group in place
    and appends, as members of kind ["user"], the requested ids whose text
    is not the text of a participant's id; the ids that are already
    participants are passed over without an error.  It returns the
    entries it appended.  Afterwards every requested id is a participant,
    and the same call again appends nothing and leaves the store as it
    is. *)
Theorem add_group_members_appends_new db chat_id member_ids added_by
    (now now' : nat → time) o c :
  ObjectId chat_id = Ok o →
  find_one (by__id o) (chats db) = Some c →
  ∃ added db1 c1 new,
    add_group_members chat_id member_ids added_by now db = (Ok added, db1)
    ∧ find_one (by__id o) (chats db1) = Some c1
    ∧ c_participants c1 = c_participants c ++ new
    ∧ p_id <$> new
      = IdInt <$>
          List.filter
            (λ member_id,
               bool_decide
                 (py_str (IdInt member_id)
                  ∉ (λ p, py_str (p_id p)) <$> c_participants c))
            member_ids
    ∧ (∀ k p, new !! k = Some p →
         p_role p = "member" ∧ p_type p = "user" ∧ p_joined_at p = now k)
    ∧ added = (λ p, AddedMember (p_id p) (p_role p) (p_joined_at p)) <$> new
    ∧ (∀ member_id, member_id ∈ member_ids →
         py_str (IdInt member_id)
         ∈ (λ p, py_str (p_id p)) <$> c_participants c1)
    ∧ add_group_members chat_id member_ids added_by now' db1 = (Ok [], db1).
Proof.
  intros Ho Hc.
  set (existing := (λ p, py_str (p_id p)) <$> c_participants c).
  set (fresh := List.filter
                  (λ member_id,
                     bool_decide (py_str (IdInt member_id) ∉ existing))
                  member_ids).
  set (new := imap (λ k member_id, new_member member_id (now k)) fresh).
  set (c1 := with_participants (c_participants c ++ new) c).
  set (db1 := match new with
              | [] => db
              | _ :: _ =>
                  set_chats
                    (update_one (by__id o)
                       (λ c, with_participants (c_participants c ++ new) c)
                       (chats db)).1 db
              end).
  assert (Hrun : add_group_members chat_id member_ids added_by now db
                 = (Ok ((λ p, AddedMember (p_id p) (p_role p) (p_joined_at p))
                          <$> new), db1)).
  { unfold add_group_members, try_except. rewrite Ho, Hc. reflexivity. }
  assert (Hc1 : find_one (by__id o) (chats db1) = Some c1).
  { subst db1 c1. by apply push_each_found. }
  assert (Hids : p_id <$> new = IdInt <$> fresh).
  { subst new. rewrite fmap_imap. apply imap_const. }
  assert (Hall : ∀ member_id, member_id ∈ member_ids →
            py_str (IdInt member_id)
            ∈ (λ p, py_str (p_id p)) <$> c_participants c1).
  { intros member_id Hin. subst c1. cbn [c_participants with_participants].
    rewrite fmap_app, elem_of_app. fold existing.
    destruct (decide (py_str (IdInt member_id) ∈ existing)) as [He|He];
      [by left|].
    right. rewrite (list_fmap_compose p_id py_str), Hids.
    rewrite <- list_fmap_compose.
    apply list_elem_of_fmap. exists member_id. split; [done|].
    subst fresh. apply elem_of_filter_bool. split; [done|].
    by apply bool_decide_eq_true_2. }
  exists ((λ p, AddedMember (p_id p) (p_role p) (p_joined_at p)) <$> new),
    db1, c1, new.
  split; [done|]. split; [done|]. split; [done|]. split; [done|]. split.
  { intros k p Hp. subst new. rewrite list_lookup_imap in Hp.
    destruct (fresh !! k) as [id|]; [|done]. by injection Hp as <-. }
  split; [done|]. split; [done|].
  unfold add_group_members, try_except. rewrite Ho, Hc1.
  rewrite filter_all_false; [done|].
  intros member_id Hin. apply bool_decide_eq_false_2.
  intros Hn. apply Hn. by apply Hall.
Qed.

(** Admin 1 adds users 3, 7 and 8 to the group of [Sample.store0]; 3 is a
    participant already. *)
Lemma add_group_members_appends_new_witness :
  ∃ added db1 c1,
    add_group_members Sample.chat1 [3%Z; 7%Z; 8%Z] 1%Z
      (λ k, 500 + Z.of_nat k)%Z Sample.store0
    = (Ok added, db1)
    ∧ find_one (by__id Sample.chat1) (chats db1) = Some c1
    ∧ c_participants c1
      = c_participants Sample.group
        ++ [Participant (IdInt 7) "user" "member" 500%Z [];
            Participant (IdInt 8) "user" "member" 501%Z []]
    ∧ add_group_members Sample.chat1 [3%Z; 7%Z; 8%Z] 1%Z
        (λ k, 600 + Z.of_nat k)%Z db1 = (Ok [], db1).
Proof.
  destruct (add_group_members_appends_new Sample.store0 Sample.chat1
              [3%Z; 7%Z; 8%Z] 1%Z (λ k, 500 + Z.of_nat k)%Z
              (λ k, 600 + Z.of_nat k)%Z Sample.chat1 Sample.group
              eq_refl eq_refl)
    as (added & db1 & c1 & new & Hrun & Hc1 & Hparts & _ & _ & _ & _ & Hagain).
  exists added, db1, c1. split; [exact Hrun|]. split; [exact Hc1|].
  split; [|exact Hagain].
  vm_compute in Hrun. injection Hrun as _ <-.
  vm_compute in Hc1. injection Hc1 as <-. reflexivity.
Defined.

Lemma join_service_run db invite_code user_id now now' i o c :
  find_one (λ i, bool_decide (i_code i = invite_code)
                 && bool_decide (now < i_expires_at i)%Z
                 && i_is_active i) (invites db) = Some i →
  ObjectId (i_chat_id i) = Ok o →
  find_one (by__id o) (chats db) = Some c →
  NoDup_by (by__id o) (chats db) →
  user_id ∉ p_id <$> c_participants c →
  ∃ pre post,
    chats db = pre ++ c :: post
    ∧ find_one (by__id o) pre = None
    ∧ find_one (by__id o) post = None
    ∧ join_group_via_invite invite_code user_id now now' db
      = (Ok (i_chat_id i),
         set_chats
           (pre
            ++ with_participants
                 (c_participants c
                  ++ [Participant user_id "user" "member" now' []]) c
            :: post) db).
Proof.
  intros Hi Ho Hc Hnd Hfresh.
  destruct (find_one_unique_split _ _ _ Hc Hnd)
    as (pre & post & Hsplit & Hpre & Hpost & Hid).
  exists pre, post. split; [done|]. split; [done|]. split; [done|].
  unfold join_group_via_invite. rewrite Hi, Ho.
  rewrite (find_one_narrow_None _ _ _ _ Hc); [|
    |done].
  - rewrite Hsplit, (update_one_app _ _ _ _ Hpre). cbn [update_one fst].
    by rewrite Hid.
  - apply not_true_iff_false. intros Hex.
    apply existsb_exists in Hex as (p & Hp & Hpid).
    apply bool_decide_eq_true_1 in Hpid. apply Hfresh.
    apply list_elem_of_fmap. exists p. split; [done|].
    by apply list_elem_of_In.
Qed.

Lemma invite_still_found invite_code (now t : time) (ivs : list invite)
    (i : invite) :
  find_one (λ i, bool_decide (i_code i = invite_code)
                 && bool_decide (now < i_expires_at i)%Z
                 && i_is_active i) ivs = Some i →
  (now ≤ t)%Z → (t < i_expires_at i)%Z →
  find_one (λ i, bool_decide (i_code i = invite_code)
                 && bool_decide (t < i_expires_at i)%Z
                 && i_is_active i) ivs = Some i.
Proof.
  intros Hi Hle Hlt. induction ivs as [|x ivs IH]; cbn [find_one] in *; [done|].
  destruct (bool_decide (i_code x = invite_code)); cbn [andb] in *;
    [|by apply IH].
  destruct (i_is_active x); rewrite ?andb_true_r, ?andb_false_r in *;
    [|by apply IH].
  case_bool_decide as Hx.
  - injection Hi as ->. by rewrite bool_decide_eq_true_2.
  - rewrite bool_decide_eq_false_2 by lia. by apply IH.
Qed.

(** X10.  The method [join_group_via_invite] of the service appends the
    caller to the participants and never writes to the invite: the
    invites are as before, and as long as the invite has not expired
    another user who is not a participant joins with the same code in
    the same way.  The caller's own second attempt is refused because
    the caller is now a participant. *)
Theorem join_service_leaves_invite db invite_code user_id now now' i o c :
  find_one (λ i, bool_decide (i_code i = invite_code)
                 && bool_decide (now < i_expires_at i)%Z
                 && i_is_active i) (invites db) = Some i →
  ObjectId (i_chat_id i) = Ok o →
  find_one (by__id o) (chats db) = Some c →
  NoDup_by (by__id o) (chats db) →
  user_id ∉ p_id <$> c_participants c →
  ∃ db1 c1,
    join_group_via_invite invite_code user_id now now' db
    = (Ok (i_chat_id i), db1)
    ∧ invites db1 = invites db
    ∧ find_one (by__id o) (chats db1) = Some c1
    ∧ c_participants c1
      = c_participants c ++ [Participant user_id "user" "member" now' []]
    ∧ (∀ t later,
         (now ≤ t)%Z → (t < i_expires_at i)%Z →
         join_group_via_invite invite_code user_id t later db1
         = (Raise (ValueError (Lit "You are already in this group")), db1))
    ∧ ∀ other t later,
        (now ≤ t)%Z → (t < i_expires_at i)%Z →
        other ∉ p_id <$> c_participants c1 →
        ∃ db2,
          join_group_via_invite invite_code other t later db1
          = (Ok (i_chat_id i), db2)
          ∧ invites db2 = invites db.
Proof.
  intros Hi Ho Hc Hnd Hfresh.
  destruct (join_service_run _ _ _ _ now' _ _ _ Hi Ho Hc Hnd Hfresh)
    as (pre & post & Hsplit & Hpre & Hpost & Hrun).
  set (c1 := with_participants
               (c_participants c
                ++ [Participant user_id "user" "member" now' []]) c) in *.
  set (db1 := set_chats (pre ++ c1 :: post) db) in *.
  assert (Hid1 : by__id o c1 = true).
  { apply find_one_Some in Hc as [Hc _]. by destruct c. }
  assert (Hc1 : find_one (by__id o) (chats db1) = Some c1).
  { subst db1. cbn [chats set_chats]. rewrite (find_one_app _ _ _ Hpre).
    cbn [find_one]. by rewrite Hid1. }
  assert (Hnd1 : NoDup_by (by__id o) (chats db1)).
  { subst db1. cbn [chats set_chats]. clear -Hpre Hpost Hid1.
    induction pre as [|x pre IH]; cbn [app NoDup_by find_one] in *.
    - by rewrite Hid1.
    - destruct (by__id o x); [done|]. by apply IH. }
  exists db1, c1. split; [done|]. split; [done|]. split; [done|].
  split; [done|]. split.
  - intros t later Hle Hlt. unfold join_group_via_invite.
    cbn [invites db1 set_chats].
    rewrite (invite_still_found _ _ _ _ _ Hi Hle Hlt), Ho.
    rewrite (find_one_narrow _ _ _ _ Hc1); [done|].
    apply existsb_exists.
    exists (Participant user_id "user" "member" now' []). split.
    + apply list_elem_of_In. subst c1. cbn [c_participants with_participants].
      apply elem_of_app. right. by left.
    + by apply bool_decide_eq_true_2.
  - intros other t later Hle Hlt Hother.
    destruct (join_service_run db1 invite_code other t later i o c1)
      as (pre' & post' & _ & _ & _ & Hrun'); try done.
    { by apply (invite_still_found _ now). }
    eexists. split; [exact Hrun'|]. done.
Qed.

(** User 7, then user 8, join the group of [Sample.store0] with the one
    invite. *)
Lemma join_service_leaves_invite_witness :
  ∃ db1 c1,
    join_group_via_invite "k3Jx0aQ" (IdInt 7) 500%Z 501%Z Sample.store0
    = (Ok Sample.chat1, db1)
    ∧ invites db1 = invites Sample.store0
    ∧ find_one (by__id Sample.chat1) (chats db1) = Some c1
    ∧ c_participants c1
      = c_participants Sample.group
        ++ [Participant (IdInt 7) "user" "member" 501%Z []]
    ∧ (∀ t later,
         (500 ≤ t)%Z → (t < 1000)%Z →
         join_group_via_invite "k3Jx0aQ" (IdInt 7) t later db1
         = (Raise (ValueError (Lit "You are already in this group")), db1))
    ∧ ∀ other t later,
        (500 ≤ t)%Z → (t < 1000)%Z →
        other ∉ p_id <$> c_participants c1 →
        ∃ db2,
          join_group_via_invite "k3Jx0aQ" other t later db1
          = (Ok Sample.chat1, db2)
          ∧ invites db2 = invites Sample.store0.
Proof.
  refine (join_service_leaves_invite Sample.store0 "k3Jx0aQ" (IdInt 7) 500%Z
            501%Z Sample.invite1 Sample.chat1 Sample.group _ _ _ _ _).
  - reflexivity.
  - reflexivity.
  - reflexivity.
  - reflexivity.
  - apply (bool_decide_unpack _). vm_compute. reflexivity.
Defined.

(** X11.  [create_group_invite] with a code that no stored invite carries
    and an expiry within the range of [datetime] returns the code; the
    handler's lookup [get_invite] then finds the new invite exactly at
    the instants before [now + expires_in_hours] (never, when the number
    of hours is not positive and time does not run backwards), finds
    under any other code what it found before, and the chats are
    untouched.  With an expiry outside that range the answer is a 500
    and nothing is stored. *)
Theorem create_group_invite_lookup db chat_id creator_id expires_in_hours
    invite_code now now' :
  (∀ i, i ∈ invites db → i_code i ≠ invite_code) →
  (in_datetime_range (now + hours expires_in_hours)%Z = true →
   ∃ db1,
     create_group_invite chat_id creator_id expires_in_hours invite_code now
       now' db = (Ok invite_code, db1)
     ∧ (∀ t,
          get_invite invite_code t db1
          = if bool_decide (t < now + hours expires_in_hours)%Z
            then Some {| i_code := invite_code; i_chat_id := chat_id;
                         i_creator_id := creator_id; i_created_at := now';
                         i_expires_at := (now + hours expires_in_hours)%Z;
                         i_is_active := true; i_used_by := None;
                         i_used_at := None |}
            else None)
     ∧ ((expires_in_hours ≤ 0)%Z →
        ∀ t, (now ≤ t)%Z → get_invite invite_code t db1 = None)
     ∧ (∀ other t, other ≠ invite_code →
          get_invite other t db1 = get_invite other t db)
     ∧ chats db1 = chats db)
  ∧ (in_datetime_range (now + hours expires_in_hours)%Z = false →
     create_group_invite chat_id creator_id expires_in_hours invite_code now
       now' db
     = (Raise (HTTPException 500 (Lit "Failed to create invite")), db)).
Proof.
  intros Hfresh. unfold create_group_invite. split; intros ->; [|done].
  eexists. split; [done|]. unfold get_invite.
  cbn [invites chats set_invites].
  assert (Hlook : ∀ t,
            find_one (λ i, bool_decide (i_code i = invite_code)
                           && i_is_active i
                           && bool_decide (t < i_expires_at i)%Z)
              (invites db) = None).
  { intros t. apply find_one_None. intros i Hin.
    by rewrite (bool_decide_eq_false_2 _ (Hfresh i Hin)). }
  split.
  { intros t. rewrite (find_one_app _ _ _ (Hlook t)). cbn [find_one].
    cbn [i_code i_is_active i_expires_at].
    rewrite (bool_decide_eq_true_2 (invite_code = invite_code)) by done.
    cbn [andb]. by destruct (bool_decide _). }
  split.
  { intros Hh t Ht. rewrite (find_one_app _ _ _ (Hlook t)). cbn [find_one].
    cbn [i_code i_is_active i_expires_at].
    rewrite (bool_decide_eq_false_2 (t < _)%Z); [by rewrite andb_false_r|].
    unfold hours. lia. }
  split; [|done].
  intros other t Hother. clear Hfresh Hlook.
  induction (invites db) as [|x l IH]; cbn [app find_one].
  - cbn [i_code]. by rewrite (bool_decide_eq_false_2 (invite_code = other)).
  - destruct (_ && _); [done|]. apply IH.
Qed.

(** A day-long invite for the group of [Sample.store0], and one for a
    number of hours that leads beyond the year 9999. *)
Lemma create_group_invite_lookup_witness :
  (∃ db1,
     create_group_invite Sample.chat1 (IdInt 1) 24 "Zq8" 500%Z 501%Z
       Sample.store0 = (Ok "Zq8", db1)
     ∧ get_invite "Zq8" 86400499%Z db1
       = Some {| i_code := "Zq8"; i_chat_id := Sample.chat1;
                 i_creator_id := IdInt 1; i_created_at := 501%Z;
                 i_expires_at := 86400500%Z;
                 i_is_active := true; i_used_by := None; i_used_at := None |}
     ∧ get_invite "Zq8" 86400500%Z db1 = None)
  ∧ create_group_invite Sample.chat1 (IdInt 1) 100000000000 "Zq8" 500%Z
      501%Z Sample.store0
    = (Raise (HTTPException 500 (Lit "Failed to create invite")),
       Sample.store0).
Proof.
  assert (Hfresh : ∀ i, i ∈ invites Sample.store0 → i_code i ≠ "Zq8").
  { intros i Hi. apply list_elem_of_singleton in Hi as ->. discriminate. }
  split.
  - destruct (create_group_invite_lookup Sample.store0 Sample.chat1 (IdInt 1)
                24%Z "Zq8" 500%Z 501%Z Hfresh) as [H _].
    destruct (H eq_refl) as (db1 & Hrun & Hget & _).
    exists db1. split; [exact Hrun|]. rewrite !Hget. split; reflexivity.
  - destruct (create_group_invite_lookup Sample.store0 Sample.chat1 (IdInt 1)
                100000000000%Z "Zq8" 500%Z 501%Z Hfresh) as [_ H].
    exact (H eq_refl).
Defined.

(** X13.  [remove_group_member] writes the audit record to the
    collection of removals before it looks at the chat, so the record is
    kept even when no chat has the id.  When the chat exists, every
    participant with the id is pulled, the record is appended to the
    chat as well, and [settings.group_admins] is not touched: an admin
    who is removed is still an admin for [is_group_admin]. *)
Theorem remove_group_member_keeps_admins db chat_id user_id removed_by
    is_leaving reason now o :
  ObjectId chat_id = Ok o →
  (remove_group_member chat_id user_id removed_by is_leaving reason now db).2
    .(removed_members)
  = removed_members db
    ++ [Removal chat_id user_id removed_by is_leaving reason now]
  ∧ (find_one (by__id o) (chats db) = None →
     remove_group_member chat_id user_id removed_by is_leaving reason now db
     = (false,
        set_removed_members
          (removed_members db
           ++ [Removal chat_id user_id removed_by is_leaving reason now]) db))
  ∧ (∀ c, find_one (by__id o) (chats db) = Some c →
       ∃ db1 c1,
         remove_group_member chat_id user_id removed_by is_leaving reason now
           db = (true, db1)
         ∧ find_one (by__id o) (chats db1) = Some c1
         ∧ c_participants c1
           = List.filter (λ p, negb (bool_decide (p_id p = user_id)))
               (c_participants c)
         ∧ (user_id ∉ p_id <$> c_participants c1)
         ∧ c_group_admins c1 = c_group_admins c
         ∧ c_removed_members c1
           = c_removed_members c
             ++ [Removal chat_id user_id removed_by is_leaving reason now]
         ∧ ∀ x, is_group_admin chat_id x db1 = is_group_admin chat_id x db).
Proof.
  intros Ho.
  set (rec := Removal chat_id user_id removed_by is_leaving reason now).
  set (upd := λ c : chat,
                Chat (c__id c) (c_chat_id c) (c_chat_type c)
                  (List.filter (λ p, negb (bool_decide (p_id p = user_id)))
                     (c_participants c))
                  (c_title c) (c_last_message c) (c_last_activity c)
                  (c_unread_counts c) (c_group_admins c)
                  (c_removed_members c ++ [rec])).
  assert (Hrun : remove_group_member chat_id user_id removed_by is_leaving
                   reason now db
                 = (bool_decide
                      (0 < (update_one (by__id o) upd (chats db)).2),
                    set_chats (update_one (by__id o) upd (chats db)).1
                      (set_removed_members (removed_members db ++ [rec]) db))).
  { unfold remove_group_member. rewrite Ho. fold rec. fold upd.
    cbn [chats set_removed_members]. by destruct (update_one _ _ _). }
  rewrite Hrun. cbn [snd removed_members set_chats set_removed_members].
  split; [done|]. split.
  { intros Hnone. rewrite (update_one_no_match _ _ _ Hnone). cbn [fst snd].
    rewrite bool_decide_eq_false_2 by lia. reflexivity. }
  intros c Hc.
  destruct (update_one_first (by__id o) upd _ _ Hc)
    as (pre & post & Hsplit & Hpre & Hupd).
  assert (Hid : by__id o (upd c) = true).
  { apply find_one_Some in Hc as [Hc _]. by destruct c. }
  assert (Hcount : (update_one (by__id o) upd (chats db)).2 = 1).
  { rewrite Hsplit, (update_one_app _ _ _ _ Hpre). cbn [update_one snd].
    apply find_one_Some in Hc as [Hc _]. rewrite Hc. cbn [snd].
    rewrite decide_False; [done|]. intros Heq.
    apply (f_equal c_removed_members) in Heq. cbn in Heq.
    apply (f_equal length) in Heq. rewrite length_app in Heq. cbn in Heq. lia. }
  eexists _, (upd c). rewrite Hcount.
  split; [by rewrite bool_decide_eq_true_2 by lia|].
  cbn [chats set_chats set_removed_members].
  split; [by apply find_one_update_one|].
  split; [done|]. split.
  { subst upd. cbn [c_participants]. intros Hin.
    apply list_elem_of_fmap in Hin as (p & -> & Hp).
    apply elem_of_filter_bool in Hp as [_ Hp].
    apply negb_true_iff, bool_decide_eq_false_1 in Hp. done. }
  split; [done|]. split; [done|].
  intros x. unfold is_group_admin. rewrite Ho.
  cbn [chats set_chats set_removed_members].
  assert (Hpres : ∀ y, by__id o (upd y) && has_admin x (upd y)
                       = by__id o y && has_admin x y)
    by (intros y; by destruct y).
  pose proof (find_one_update_is_some (λ c, by__id o c && has_admin x c)
                (by__id o) upd (chats db) Hpres) as Hsame.
  cbn beta in Hsame. revert Hsame.
  generalize (find_one (λ c, by__id o c && has_admin x c)
                (update_one (by__id o) upd (chats db)).1).
  generalize (find_one (λ c, by__id o c && has_admin x c) (chats db)).
  intros [?|] [?|]; done.
Qed.

(** Admin 1 of the group of [Sample.store0] is removed (by themselves):
    no longer a participant, still an admin. *)
Lemma remove_group_member_keeps_admins_witness :
  ∃ db1 c1,
    remove_group_member Sample.chat1 (IdInt 1) (Some (IdInt 1)) false None
      500%Z Sample.store0 = (true, db1)
    ∧ find_one (by__id Sample.chat1) (chats db1) = Some c1
    ∧ (IdInt 1 ∉ p_id <$> c_participants c1)
    ∧ c_group_admins c1 = c_group_admins Sample.group
    ∧ is_group_admin Sample.chat1 (IdInt 1) db1 = Ok true.
Proof.
  destruct (remove_group_member_keeps_admins Sample.store0 Sample.chat1
              (IdInt 1) (Some (IdInt 1)) false None 500%Z Sample.chat1
              eq_refl) as (_ & _ & H).
  destruct (H Sample.group eq_refl)
    as (db1 & c1 & Hrun & Hfind & _ & Hgone & Hadmins & _ & Hsame).
  exists db1, c1. split; [done|]. split; [done|]. split; [done|].
  split; [done|]. rewrite Hsame. reflexivity.
Defined.

End MembershipFacts.

(** ** Reading the messages of a chat *)

Section ReadFacts.
Import ChatService.

Lemma insert_desc_perm (m : message) (l : list message) :
  insert_desc m l ≡ₚ m :: l.
Proof.
  induction l as [|x l IH]; cbn [insert_desc]; [done|].
  destruct (m_timestamp x <=? m_timestamp m)%Z; [done|].
  rewrite IH. apply Permutation_swap.
Qed.

Lemma sort_desc_perm (l : list message) : sort_desc l ≡ₚ l.
Proof.
  unfold sort_desc. induction l as [|x l IH]; cbn [foldr]; [done|].
  by rewrite insert_desc_perm, IH.
Qed.

Lemma insert_desc_sorted (m : message) (l : list message) :
  StronglySorted (λ a b, (m_timestamp b ≤ m_timestamp a)%Z) l →
  StronglySorted (λ a b, (m_timestamp b ≤ m_timestamp a)%Z) (insert_desc m l).
Proof.
  induction 1 as [|x l Hsorted IH Hx]; cbn [insert_desc].
  - repeat constructor.
  - destruct (m_timestamp x <=? m_timestamp m)%Z eqn:Hle.
    + apply Z.leb_le in Hle. constructor; [by constructor|].
      constructor; [done|].
      eapply Forall_impl; [exact Hx|]. cbn. intros y Hy. lia.
    + apply Z.leb_gt in Hle. constructor; [done|].
      rewrite insert_desc_perm. constructor; [lia | done].
Qed.

Lemma sort_desc_sorted (l : list message) :
  StronglySorted (λ a b, (m_timestamp b ≤ m_timestamp a)%Z) (sort_desc l).
Proof.
  unfold sort_desc. induction l as [|x l IH]; cbn [foldr]; [constructor|].
  by apply insert_desc_sorted.
Qed.

Lemma StronglySorted_take {A} (R : A → A → Prop) (n : nat) (l : list A) :
  StronglySorted R l → StronglySorted R (take n l).
Proof.
  intros Hs. revert n. induction Hs as [|x l Hs IH Hx]; intros [|n];
    cbn [take]; try constructor; [apply IH|].
  apply Forall_forall. intros y Hy. rewrite Forall_forall in Hx.
  apply Hx. eapply subseteq_take, Hy.
Qed.

(** X12.  What [get_chat_messages] returns: at most [limit] entries,
    newest first; each is a stored message of the chat that carries no
    [deleted_for] entry of the viewer, and when the message is deleted for
    everyone it is shown with the placeholder and without attachment or
    gem, whatever the document still holds; without [before_id], and
    when the limit is not reached, every such message is returned. *)
Theorem get_chat_messages_view db chat_id user_id user_type limit before_id :
  (length (get_chat_messages chat_id user_id user_type limit before_id db)
   ≤ limit)%nat
  ∧ StronglySorted (λ a b, (v_timestamp b ≤ v_timestamp a)%Z)
      (get_chat_messages chat_id user_id user_type limit before_id db)
  ∧ (∀ v,
       v ∈ get_chat_messages chat_id user_id user_type limit before_id db →
       ∃ m, m ∈ messages db ∧ v = process_message m
         ∧ v_message_id v = m__id m
         ∧ m_chat_id m = chat_id
         ∧ deleted_for_user user_id user_type m = false
         ∧ (m_is_deleted m = true →
            v_content v = deletion_placeholder
            ∧ v_attachment v = None ∧ v_gem_id v = None)
         ∧ (m_is_deleted m = false →
            v_content v = m_content m ∧ v_attachment v = m_attachment m))
  ∧ ((length (find_all (messages_query chat_id user_id user_type None)
                (messages db)) ≤ limit)%nat →
     ∀ m, m ∈ messages db → m_chat_id m = chat_id →
       deleted_for_user user_id user_type m = false →
       process_message m
       ∈ get_chat_messages chat_id user_id user_type limit None db).
Proof.
  unfold get_chat_messages. split.
  { rewrite length_fmap, length_take. lia. }
  split.
  { set (l := take limit _).
    assert (Hl : StronglySorted
                   (λ a b, (m_timestamp b ≤ m_timestamp a)%Z) l)
      by apply StronglySorted_take, sort_desc_sorted.
    clearbody l. induction Hl as [|x l Hs IH Hx]; [constructor|].
    rewrite fmap_cons. constructor; [done|].
    apply Forall_fmap. eapply Forall_impl; [exact Hx|]. done. }
  split.
  { intros v Hv. apply list_elem_of_fmap in Hv as (m & -> & Hm).
    apply subseteq_take in Hm. rewrite sort_desc_perm in Hm.
    unfold find_all in Hm. apply elem_of_filter_bool in Hm as [Hm Hq].
    unfold messages_query in Hq.
    apply andb_true_iff in Hq as [Hq _]. apply andb_true_iff in Hq as [Hc Hd].
    apply bool_decide_eq_true_1 in Hc. apply negb_true_iff in Hd.
    exists m. do 5 (split; [done|]). split.
    - intros Hdel. unfold process_message. cbn. by rewrite Hdel.
    - intros Hdel. unfold process_message. cbn. by rewrite Hdel. }
  intros Hlen m Hm Hc Hd. apply list_elem_of_fmap. exists m. split; [done|].
  rewrite take_ge.
  - rewrite sort_desc_perm. unfold find_all. apply elem_of_filter_bool.
    split; [done|]. unfold messages_query.
    by rewrite (bool_decide_eq_true_2 _ Hc), Hd.
  - by rewrite sort_desc_perm.
Qed.

End ReadFacts.

(** ** Sending and reading through the handlers *)

Section SendFacts.
Import ChatService ChatServiceExt.

Lemma add_message_unfold msg new_id now d o :
  ObjectId (cm_chat_id msg) = Ok o →
  add_message msg new_id now d
  = (Ok (with_message_id (Some new_id) (message_dict new_id msg now)),
     set_chats
       (update_one (by__id o)
          (set_last_message
             {| lm_message_id := new_id;
                lm_content := cm_content msg;
                lm_sender_id := py_str (cm_sender_id msg);
                lm_sender_type := cm_sender_type msg;
                lm_timestamp := now;
                lm_message_type := cm_message_type msg |} now)
          (chats d)).1
       (set_messages (messages d ++ [message_dict new_id msg now]) d)).
Proof.
  intros Ho. unfold add_message, try_except. rewrite Ho.
  cbn [chats set_messages]. by destruct (update_one _ _ _).
Qed.

Lemma get_participant_type_chat chat_id user_id d kind :
  get_participant_type chat_id user_id d = Ok kind →
  ∃ c, get_chat_details chat_id d = Some c.
Proof.
  unfold get_participant_type.
  destruct (get_chat_details chat_id d) as [c|]; [by exists c | done].
Qed.

(** X14.  [send_message].  When the caller's kind cannot be determined
    (no such chat, or the caller is not a participant) the answer is a
    500 that wraps the refusal, and nothing is written.  For a
    participant of a chat addressed by its [_id], the message is
    appended to the collection with the sender's id as text, the sender
    as its only reader, nobody delivered to, and neither attachment nor
    gem, whatever the request carried; the chat's [last_message] shows
    it; the unread counter of every other participant grows by one.  The
    handler then fails to encode the dict that [add_message] returned,
    which holds the [ObjectId] of the new document: with these writes in
    place the answer is a 500, and the registry is not touched, so nobody
    is notified. *)
Theorem send_message_effects w chat_id request current_user new_id now :
  (∀ e,
     get_participant_type chat_id (IdInt current_user) (db w) = Raise e →
     RouterExt.send_message chat_id request current_user new_id now w
     = (Raise (HTTPException 500 (Fmt "Error sending message: " e)), w))
  ∧ (∀ kind c,
       get_participant_type chat_id (IdInt current_user) (db w) = Ok kind →
       get_chat_details chat_id (db w) = Some c →
       ObjectId chat_id = Ok (c__id c) →
       ∃ w' doc c2,
         RouterExt.send_message chat_id request current_user new_id now w
         = (Raise (HTTPException 500
                     (Fmt "Error sending message: " cannot_encode_ObjectId)),
            w')
         ∧ messages (db w') = messages (db w) ++ [doc]
         ∧ m__id doc = new_id
         ∧ m_chat_id doc = chat_id
         ∧ m_sender_id doc = IdStr (pretty current_user)
         ∧ m_content doc = RouterExt.mq_content request
         ∧ m_read_by doc = [Receipt (IdStr (pretty current_user)) kind now]
         ∧ m_delivered_to doc = []
         ∧ m_attachment doc = None
         ∧ m_gem_id doc = None
         ∧ get_chat_details chat_id (db w') = Some c2
         ∧ c_last_message c2
           = Some {| lm_message_id := new_id;
                     lm_content := RouterExt.mq_content request;
                     lm_sender_id := pretty current_user;
                     lm_sender_type := kind;
                     lm_timestamp := now;
                     lm_message_type := RouterExt.mq_message_type request |}
         ∧ c_participants c2 = c_participants c
         ∧ (∀ key,
              c_unread_counts c2 !! key
              = if decide
                     (key ∈ (λ p, participant_key (p_type p) (p_id p)) <$>
                        List.filter
                          (λ p, negb (bool_decide
                                        (py_str (p_id p)
                                         = py_str (IdInt current_user)))
                                || negb (bool_decide (p_type p = kind)))
                          (c_participants c))
                then Some (default 0%Z (c_unread_counts c !! key) + 1)%Z
                else c_unread_counts c !! key)
         ∧ manager w' = manager w).
Proof.
  split.
  { intros e He.
    unfold RouterExt.send_message, wrap_500, try_except, bind, check_db, raise.
    by rewrite He. }
  intros kind c Htype Hc Ho.
  set (msg :=
         {| cm_chat_id := chat_id;
            cm_sender_id := IdInt current_user;
            cm_sender_type := kind;
            cm_content := RouterExt.mq_content request;
            cm_message_type := RouterExt.mq_message_type request;
            cm_reply_to := None;
            cm_gem_id := RouterExt.mq_gem_id request;
            cm_attachment := RouterExt.mq_attachment request |}).
  set (lm := {| lm_message_id := new_id;
                lm_content := RouterExt.mq_content request;
                lm_sender_id := pretty current_user;
                lm_sender_type := kind;
                lm_timestamp := now;
                lm_message_type := RouterExt.mq_message_type request |}).
  set (doc := message_dict new_id msg now).
  destruct (get_chat_details_Some _ _ _ Hc) as (o & Ho' & Hfind).
  assert (o = c__id c) as -> by congruence.
  destruct (find_one_split _ _ _ Hfind) as (pre & post & Hsplit & Hpre & _).
  assert (Hpre' : find_one (by__id (c__id c)) pre = None).
  { apply find_one_None. intros x Hx.
    pose proof (proj1 (find_one_None _ _) Hpre x Hx) as Hf.
    by apply orb_false_iff in Hf as [Hf _]. }
  assert (Hself : by__id (c__id c) c = true)
    by (by apply bool_decide_eq_true_2).
  set (c1 := set_last_message lm now c).
  set (db1 := set_chats (pre ++ c1 :: post)
                (set_messages (messages (db w) ++ [doc]) (db w))).
  assert (Hadd : add_message msg new_id now (db w)
                 = (Ok (with_message_id (Some new_id) doc), db1)).
  { rewrite (add_message_unfold msg new_id now (db w) (c__id c) Ho).
    rewrite Hsplit, (update_one_app _ _ _ _ Hpre'). cbn [update_one fst].
    by rewrite Hself. }
  assert (Hc1 : get_chat_details chat_id db1 = Some c1).
  { unfold get_chat_details. rewrite Ho. subst db1. cbn [chats set_chats].
    rewrite (find_one_app _ _ _ Hpre). cbn [find_one].
    assert (by__id (c__id c) c1 = true) as ->; [|done].
    subst c1. by apply bool_decide_eq_true_2. }
  destruct (increment_unread_count_chat db1 chat_id (IdInt current_user) kind
              c1 Hc1) as (c2 & Hc2 & Hshape & Hcount & Hmsgs & _).
  exists (World (increment_unread_count chat_id (IdInt current_user) kind db1)
            (manager w)), doc, c2.
  split.
  { unfold RouterExt.send_message, wrap_500, try_except, bind, check_db,
      try_db, call_db, call_manager, of_result, jsonable_encoder, ret, raise.
    rewrite Htype. fold msg. by rewrite Hadd. }
  cbn [db manager]. rewrite Hmsgs. subst db1. cbn [messages set_chats set_messages].
  do 9 (split; [done|]). split; [done|].
  split; [rewrite Hshape; by subst c1|].
  split; [rewrite Hshape; by subst c1|].
  split; [exact Hcount|]. done.
Qed.

(** Dealer 2 sends a message with a gem to the sample group; user 7, who
    is not in the group, is refused. *)
Lemma send_message_effects_witness :
  (∃ w' doc c2,
     RouterExt.send_message Sample.chat1
       {| RouterExt.mq_content := "hi"; RouterExt.mq_message_type := "text";
          RouterExt.mq_attachment := None; RouterExt.mq_gem_id := Some 5%Z |}
       2 "65b000000000000000000009" 500%Z Sample.world0
     = (Raise (HTTPException 500
                 (Fmt "Error sending message: " cannot_encode_ObjectId)),
        w')
     ∧ messages (db w') = messages Sample.store0 ++ [doc]
     ∧ m_sender_id doc = IdStr "2"
     ∧ m_gem_id doc = None
     ∧ get_chat_details Sample.chat1 (db w') = Some c2
     ∧ c_unread_counts c2 !! "user_1" = Some 1%Z
     ∧ c_unread_counts c2 !! "dealer_2" = Some 2%Z
     ∧ manager w' = Registry.init)
  ∧ RouterExt.send_message Sample.chat1
      {| RouterExt.mq_content := "hi"; RouterExt.mq_message_type := "text";
         RouterExt.mq_attachment := None; RouterExt.mq_gem_id := None |}
      7 "65b000000000000000000009" 500%Z Sample.world0
    = (Raise (HTTPException 500
                (Fmt "Error sending message: "
                   (HTTPException 403 (Lit "User not in chat")))),
       Sample.world0).
Proof.
  split.
  - destruct (send_message_effects Sample.world0 Sample.chat1
                {| RouterExt.mq_content := "hi";
                   RouterExt.mq_message_type := "text";
                   RouterExt.mq_attachment := None;
                   RouterExt.mq_gem_id := Some 5%Z |}
                2%Z "65b000000000000000000009" 500%Z) as [_ H].
    destruct (H "dealer" Sample.group eq_refl eq_refl eq_refl)
      as (w' & doc & c2 & Hrun & Hmsgs & _ & _ & Hsender & _ & _ & _ & _
          & Hgem & Hc2 & _ & _ & Hcount & Hmgr).
    exists w', doc, c2. split; [exact Hrun|]. split; [exact Hmsgs|].
    split; [exact Hsender|].
    split; [exact Hgem|]. split; [exact Hc2|].
    rewrite !Hcount. split; [reflexivity|]. split; [reflexivity|exact Hmgr].
  - destruct (send_message_effects Sample.world0 Sample.chat1
                {| RouterExt.mq_content := "hi";
                   RouterExt.mq_message_type := "text";
                   RouterExt.mq_attachment := None;
                   RouterExt.mq_gem_id := None |}
                7%Z "65b000000000000000000009" 500%Z) as [H _].
    exact (H _ eq_refl).
Defined.

End SendFacts.

(** ** Marking a chat as read through the handler *)

Section ReadHandlerFacts.
Import ChatService ChatServiceExt.

Lemma find_one_update_other {D} `{EqDecision D} (f g : D → bool)
    (upd : D → D) (l : list D) (d : D) :
  (∀ x, f (upd x) = f x) →
  find_one f l = Some d →
  find_one f (update_one g upd l).1 = Some d
  ∨ find_one f (update_one g upd l).1 = Some (upd d).
Proof.
  intros Hf. induction l as [|x l IH]; cbn [find_one update_one]; [done|].
  destruct (g x) eqn:Hg; cbn [fst find_one].
  - rewrite Hf. destruct (f x); [intros [= <-]; by right | by left].
  - destruct (update_one g upd l) as [l' n] eqn:Hu. cbn [fst find_one] in *.
    destruct (f x); [by left | exact IH].
Qed.

(** X15.  [mark_chat_as_read].  When the caller's kind cannot be
    determined the answer is a 500 that wraps the refusal and nothing is
    written.  For a participant the handler succeeds, does not touch the
    registry or the invites, adds the caller's entry to [read_by] of the
    messages of the chat that the query selects, and the chat that
    [get_chat_details] resolves is the one it resolved before with the
    caller's counter set to 0. *)
Theorem mark_chat_as_read_effects w chat_id current_user now :
  (∀ e,
     get_participant_type chat_id (IdInt current_user) (db w) = Raise e →
     RouterExt.mark_chat_as_read chat_id current_user now w
     = (Raise (HTTPException 500
                 (Fmt "Error marking messages as read: " e)), w))
  ∧ (∀ kind c,
       get_participant_type chat_id (IdInt current_user) (db w) = Ok kind →
       get_chat_details chat_id (db w) = Some c →
       ∃ w',
         RouterExt.mark_chat_as_read chat_id current_user now w
         = (Ok "Messages marked as read", w')
         ∧ manager w' = manager w
         ∧ invites (db w') = invites (db w)
         ∧ messages (db w')
           = (λ m, if mark_as_read_query chat_id (IdInt current_user) m
                   then with_read_by
                          (addToSet
                             (Receipt (IdInt current_user) kind now)
                             (m_read_by m)) m
                   else m) <$> messages (db w)
         ∧ get_chat_details chat_id (db w')
           = Some (reset_unread kind (IdInt current_user) c)
         ∧ (kind = "user" →
            get_unread_count (reset_unread kind (IdInt current_user) c)
              (IdInt current_user) = 0%Z)).
Proof.
  split.
  { intros e He.
    unfold RouterExt.mark_chat_as_read, wrap_500, try_except, bind, check_db,
      raise.
    by rewrite He. }
  intros kind c Htype Hc.
  destruct (get_chat_details_Some _ _ _ Hc) as (o & Ho & Hfind).
  set (f := λ c : chat, by__id o c || by_chat_id chat_id c) in *.
  set (reset := reset_unread kind (IdInt current_user)).
  assert (Hf : ∀ x, f (reset x) = f x) by (by intros []).
  set (chats1 := (update_one (by__id o) reset (chats (db w))).1).
  assert (Hfind1 : find_one f (update_one f reset chats1).1 = Some (reset c)).
  { destruct (find_one_update_other f (by__id o) reset _ _ Hf Hfind)
      as [H1|H1]; fold chats1 in H1.
    - apply (find_one_update_one f reset _ _ H1).
      rewrite Hf. by destruct (find_one_Some _ _ _ H1).
    - rewrite (find_one_update_one f reset _ _ H1).
      + subst reset. by rewrite reset_unread_twice.
      + rewrite !Hf. destruct (find_one_Some _ _ _ Hfind) as [? _]. done. }
  eexists. split.
  { unfold RouterExt.mark_chat_as_read, wrap_500, try_except, bind, check_db,
      call_db, ret.
    rewrite Htype, (mark_as_read_unfold _ _ _ _ _ _ Ho). cbn [db manager].
    rewrite Ho. cbn [db manager]. reflexivity. }
  cbn [db manager chats messages invites set_chats set_messages].
  split; [done|]. split; [done|].
  split; [by rewrite update_many_fst|].
  split.
  { unfold get_chat_details. rewrite Ho.
    cbn [chats set_chats set_messages]. exact Hfind1. }
  intros ->. unfold get_unread_count, reset_unread, participant_key.
  destruct c; cbn. by rewrite lookup_insert_eq.
Qed.

(** Dealer 2 marks the sample group as read; user 7 is refused. *)
Lemma mark_chat_as_read_effects_witness :
  (∃ w',
     RouterExt.mark_chat_as_read Sample.chat1 2 500%Z Sample.world0
     = (Ok "Messages marked as read", w')
     ∧ get_chat_details Sample.chat1 (db w')
       = Some (reset_unread "dealer" (IdInt 2) Sample.group))
  ∧ RouterExt.mark_chat_as_read Sample.chat1 7 500%Z Sample.world0
    = (Raise (HTTPException 500
                (Fmt "Error marking messages as read: "
                   (HTTPException 403 (Lit "User not in chat")))),
       Sample.world0).
Proof.
  split.
  - destruct (mark_chat_as_read_effects Sample.world0 Sample.chat1 2%Z 500%Z)
      as [_ H].
    destruct (H "dealer" Sample.group eq_refl eq_refl)
      as (w' & Hrun & _ & _ & _ & Hc & _).
    exists w'. by split.
  - destruct (mark_chat_as_read_effects Sample.world0 Sample.chat1 7%Z 500%Z)
      as [H _].
    exact (H _ eq_refl).
Defined.

End ReadHandlerFacts.

(** ** Removing members and leaving through the handlers *)

Section MemberHandlerFacts.
Import ChatService.

Lemma remove_group_member_audit chat_id user_id removed_by is_leaving reason
    now db :
  removed_members
    (remove_group_member chat_id user_id removed_by is_leaving reason now
       db).2
  = removed_members db
    ++ [Removal chat_id user_id removed_by is_leaving reason now].
Proof.
  unfold remove_group_member. destruct (ObjectId chat_id); [|done].
  by destruct (update_one _ _ _).
Qed.

Lemma remove_group_member_admins chat_id user_id removed_by is_leaving reason
    now db x :
  is_group_admin chat_id x
    (remove_group_member chat_id user_id removed_by is_leaving reason now
       db).2
  = is_group_admin chat_id x db.
Proof.
  unfold is_group_admin, remove_group_member.
  destruct (ObjectId chat_id) as [o|e]; [|done].
  match goal with
  | |- context [update_one _ ?u _] => set (upd := u)
  end.
  assert (Hpres : ∀ y, by__id o (upd y) && has_admin x (upd y)
                       = by__id o y && has_admin x y)
    by (intros y; by destruct y).
  pose proof (find_one_update_is_some (λ c, by__id o c && has_admin x c)
                (by__id o) upd (chats db) Hpres) as Hsame.
  cbn beta in Hsame. cbn [chats set_removed_members].
  destruct (update_one (by__id o) upd (chats db)) as [cs n].
  cbn [fst snd chats set_chats] in *. revert Hsame.
  generalize (find_one (λ c, by__id o c && has_admin x c) cs).
  generalize (find_one (λ c, by__id o c && has_admin x c) (chats db)).
  intros [?|] [?|]; done.
Qed.

Lemma remove_group_member_no_chat chat_id user_id removed_by is_leaving reason
    now db :
  (∀ o, ObjectId chat_id = Ok o → find_one (by__id o) (chats db) = None) →
  chats
    (remove_group_member chat_id user_id removed_by is_leaving reason now
       db).2
  = chats db.
Proof.
  intros Hnone. unfold remove_group_member.
  destruct (ObjectId chat_id) as [o|e]; [|done].
  cbn [chats set_removed_members].
  by rewrite (update_one_no_match _ _ _ (Hnone o eq_refl)).
Qed.

(** X16.  The handler [remove_group_member].  A caller who is not an
    admin of the group is refused with a 500 that wraps the 403, and
    nothing is written.  For an admin the removal is carried out whoever
    the target is, a participant or not, the caller included: the audit
    record names the caller, and afterwards [is_group_admin] answers for
    every user as it did before, so an admin who removes themselves is
    still an admin of the group. *)
Theorem remove_member_handler w chat_id user_id reason current_user now :
  (is_group_admin chat_id (IdInt current_user) (db w) = Ok false →
   RouterExt.remove_group_member chat_id user_id reason current_user now w
   = (Raise (HTTPException 500
               (Fmt "Error removing member: "
                  (HTTPException 403
                     (Lit "Only admins can remove members")))), w))
  ∧ (is_group_admin chat_id (IdInt current_user) (db w) = Ok true →
     ∃ r w',
       RouterExt.remove_group_member chat_id user_id reason current_user now
         w = (r, w')
       ∧ db w'
         = (remove_group_member chat_id (IdInt user_id)
              (Some (IdInt current_user)) false reason now (db w)).2
       ∧ removed_members (db w')
         = removed_members (db w)
           ++ [Removal chat_id (IdInt user_id) (Some (IdInt current_user))
                 false reason now]
       ∧ (∀ x, is_group_admin chat_id x (db w')
               = is_group_admin chat_id x (db w))
       ∧ (Registry.chat_rooms (manager w) !! chat_id = None →
          r = Ok "Member removed successfully" ∧ manager w' = manager w)).
Proof.
  split.
  { intros Hadm.
    unfold RouterExt.remove_group_member, wrap_500, try_except, bind,
      check_db, raise.
    by rewrite Hadm. }
  intros Hadm.
  destruct (Registry.broadcast_to_chat chat_id
              (Registry.Event "member_removed" chat_id (pretty user_id))
              None (manager w)) as [rb mgr'] eqn:Hb.
  exists (match rb with
          | Ok _ => Ok "Member removed successfully"
          | Raise e =>
              Raise (HTTPException 500 (Fmt "Error removing member: " e))
          end),
    (World (remove_group_member chat_id (IdInt user_id)
              (Some (IdInt current_user)) false reason now (db w)).2 mgr').
  split.
  { unfold RouterExt.remove_group_member, wrap_500, try_except, bind,
      check_db, call_manager, ret, raise.
    rewrite Hadm. cbn [negb]. rewrite call_db_snd. cbn [db manager].
    rewrite Hb. by destruct rb. }
  cbn [db manager]. split; [done|].
  split; [apply remove_group_member_audit|].
  split; [intros x; apply remove_group_member_admins|].
  intros Hroom. unfold Registry.broadcast_to_chat in Hb.
  rewrite Hroom in Hb. by injection Hb as <- <-.
Qed.

(** Admin 1 of the group of [Sample.store0] removes themselves through
    the handler and is an admin afterwards; dealer 2 is refused. *)
Lemma remove_member_handler_witness :
  (∃ w',
     RouterExt.remove_group_member Sample.chat1 1 None 1 500%Z Sample.world0
     = (Ok "Member removed successfully", w')
     ∧ is_group_admin Sample.chat1 (IdInt 1) (db w') = Ok true)
  ∧ RouterExt.remove_group_member Sample.chat1 3 None 2 500%Z Sample.world0
    = (Raise (HTTPException 500
                (Fmt "Error removing member: "
                   (HTTPException 403
                      (Lit "Only admins can remove members")))),
       Sample.world0).
Proof.
  split.
  - destruct (remove_member_handler Sample.world0 Sample.chat1 1%Z None 1%Z
                500%Z) as [_ H].
    destruct (H eq_refl) as (r & w' & Hrun & _ & _ & Hsame & Hroom).
    destruct (Hroom eq_refl) as [-> _].
    exists w'. split; [exact Hrun|]. rewrite Hsame. reflexivity.
  - destruct (remove_member_handler Sample.world0 Sample.chat1 3%Z None 2%Z
                500%Z) as [H _].
    exact (H eq_refl).
Defined.

(** X17.  [leave_group] by a caller who is not an admin of the group
    never looks at the participants: the removal is carried out and
    recorded whether or not the caller is a member, and when no chat has
    the id the chats are left as they are while the record is still
    written and, with no room to notify, the handler reports success. *)
Theorem leave_group_non_admin w chat_id reason current_user now :
  is_group_admin chat_id (IdInt current_user) (db w) = Ok false →
  ∃ r w',
    Router.leave_group chat_id reason current_user now w = (r, w')
    ∧ db w'
      = (remove_group_member chat_id (IdInt current_user) None true reason
           now (db w)).2
    ∧ removed_members (db w')
      = removed_members (db w)
        ++ [Removal chat_id (IdInt current_user) None true reason now]
    ∧ ((∀ o, ObjectId chat_id = Ok o →
          find_one (by__id o) (chats (db w)) = None) →
       chats (db w') = chats (db w))
    ∧ (Registry.chat_rooms (manager w) !! chat_id = None →
       r = Ok "Left group successfully" ∧ manager w' = manager w).
Proof.
  intros Hadm.
  destruct (Registry.broadcast_to_chat chat_id
              (Registry.Event "member_left" chat_id (pretty current_user))
              None (manager w)) as [rb mgr'] eqn:Hb.
  exists (match rb with
          | Ok _ => Ok "Left group successfully"
          | Raise e =>
              Raise (HTTPException 500 (Fmt "Error leaving group: " e))
          end),
    (World (remove_group_member chat_id (IdInt current_user) None true reason
              now (db w)).2 mgr').
  split.
  { unfold Router.leave_group, wrap_500, try_except, bind, check_db,
      call_manager, ret, raise.
    rewrite Hadm. rewrite call_db_snd. cbn [db manager].
    rewrite Hb. by destruct rb. }
  cbn [db manager]. split; [done|].
  split; [apply remove_group_member_audit|].
  split; [apply remove_group_member_no_chat|].
  intros Hroom. unfold Registry.broadcast_to_chat in Hb.
  rewrite Hroom in Hb. by injection Hb as <- <-.
Qed.

(** User 7, who is not in any chat of [Sample.store0], leaves a group
    that does not exist. *)
Lemma leave_group_non_admin_witness :
  ∃ w',
    Router.leave_group "65a0000000000000000000ff" None 7 500%Z Sample.world0
    = (Ok "Left group successfully", w')
    ∧ chats (db w') = chats Sample.store0
    ∧ removed_members (db w')
      = [Removal "65a0000000000000000000ff" (IdInt 7) None true None 500%Z].
Proof.
  destruct (leave_group_non_admin Sample.world0 "65a0000000000000000000ff"
              None 7%Z 500%Z eq_refl)
    as (r & w' & Hrun & _ & Haudit & Hchats & Hroom).
  destruct (Hroom eq_refl) as [-> _].
  exists w'. split; [exact Hrun|]. split; [|exact Haudit].
  apply Hchats. by intros o [= <-].
Defined.

End MemberHandlerFacts.

(** ** Refusals of the handlers *)

Section RefusalFacts.
Import ChatService.

(** X18.  [delete_message] answers 404 when the message or its chat is
    not found, 403 when the caller is not a participant of the chat, and
    403 when a participant other than the sender asks for a deletion for
    everyone (with a message of its own in a dealer chat).  These
    statuses reach the client as they are, and nothing is written. *)
Theorem delete_message_refusals w message_id delete_for_everyone current_user
    now :
  (get_message message_id (db w) = None →
   Router.delete_message message_id delete_for_everyone current_user now w
   = (Raise (HTTPException 404 (Lit "Message not found")), w))
  ∧ (∀ found,
       get_message message_id (db w) = Some found →
       get_chat_details (m_chat_id found) (db w) = None →
       Router.delete_message message_id delete_for_everyone current_user now
         w
       = (Raise (HTTPException 404 (Lit "Chat not found")), w))
  ∧ (∀ found c,
       get_message message_id (db w) = Some found →
       get_chat_details (m_chat_id found) (db w) = Some c →
       is_participant (IdInt current_user) c = false →
       Router.delete_message message_id delete_for_everyone current_user now
         w
       = (Raise (HTTPException 403
                   (Lit "You are not a participant in this chat")), w))
  ∧ (∀ found c,
       get_message message_id (db w) = Some found →
       get_chat_details (m_chat_id found) (db w) = Some c →
       is_participant (IdInt current_user) c = true →
       delete_for_everyone = true →
       py_str (m_sender_id found) ≠ pretty current_user →
       Router.delete_message message_id delete_for_everyone current_user now
         w
       = (Raise
            (HTTPException 403
               (Lit (if bool_decide (c_chat_type c = "dealer_chat")
                     then "Only the sender can delete messages for everyone in dealer chats"
                     else "Only the sender can delete messages for everyone"))),
          w)).
Proof.
  unfold Router.delete_message, reraise_http, try_except, bind, read_db,
    raise.
  split; [intros H1; by rewrite H1|].
  split; [intros found H1 H2; rewrite H1; cbn beta iota; by rewrite H2|].
  split.
  { intros found c H1 H2 H3. rewrite H1. cbn beta iota. rewrite H2.
    cbn beta iota. by rewrite H3. }
  intros found c H1 H2 H3 -> Hne. rewrite H1. cbn beta iota. rewrite H2.
  cbn beta iota. rewrite H3. cbn [negb andb py_str].
  by rewrite bool_decide_eq_false_2 by exact Hne.
Qed.

(** In [Sample.store0]: a message id that is not stored; user 7, who is
    not in the group; dealer 2 asking to delete user 1's message for
    everyone. *)
Lemma delete_message_refusals_witness :
  Router.delete_message "65b0000000000000000000ff" false 1 500%Z Sample.world0
  = (Raise (HTTPException 404 (Lit "Message not found")), Sample.world0)
  ∧ Router.delete_message Sample.msg1 false 7 500%Z Sample.world0
    = (Raise (HTTPException 403
                (Lit "You are not a participant in this chat")),
       Sample.world0)
  ∧ Router.delete_message Sample.msg1 true 2 500%Z Sample.world0
    = (Raise (HTTPException 403
                (Lit "Only the sender can delete messages for everyone")),
       Sample.world0).
Proof.
  split; [|split].
  - destruct (delete_message_refusals Sample.world0
                "65b0000000000000000000ff" false 1%Z 500%Z) as (H & _).
    exact (H eq_refl).
  - destruct (delete_message_refusals Sample.world0 Sample.msg1 false 7%Z
                500%Z) as (_ & _ & H & _).
    exact (H _ Sample.group eq_refl eq_refl eq_refl).
  - destruct (delete_message_refusals Sample.world0 Sample.msg1 true 2%Z
                500%Z) as (_ & _ & _ & H).
    refine (H _ Sample.group eq_refl eq_refl eq_refl eq_refl _).
    discriminate.
Defined.

(** X19.  [update_group_admins] refuses, in this order: 404 when the
    chat is not found, 400 when it is not a group chat, 403 when the
    caller is not an admin of it, 400 when the list of ids is empty, and
    400 naming the requested ids that are not participants.  Each status
    reaches the client as it is, and nothing is written. *)
Theorem update_group_admins_refusals w chat_id request_admin_ids current_user
    now :
  (get_chat chat_id (db w) = None →
   Router.update_group_admins chat_id request_admin_ids current_user now w
   = (Raise (HTTPException 404 (Lit "Chat not found")), w))
  ∧ (∀ c,
       get_chat chat_id (db w) = Some c →
       c_chat_type c ≠ "group_chat" →
       Router.update_group_admins chat_id request_admin_ids current_user now
         w
       = (Raise (HTTPException 400
                   (Lit "This operation is only valid for group chats")),
          w))
  ∧ (∀ c,
       get_chat chat_id (db w) = Some c →
       c_chat_type c = "group_chat" →
       is_group_admin chat_id (IdInt current_user) (db w) = Ok false →
       Router.update_group_admins chat_id request_admin_ids current_user now
         w
       = (Raise (HTTPException 403
                   (Lit "Only group admins can update admin list")), w))
  ∧ (∀ c,
       get_chat chat_id (db w) = Some c →
       c_chat_type c = "group_chat" →
       is_group_admin chat_id (IdInt current_user) (db w) = Ok true →
       request_admin_ids = [] →
       Router.update_group_admins chat_id request_admin_ids current_user now
         w
       = (Raise (HTTPException 400 (Lit "Admin IDs list cannot be empty")),
          w))
  ∧ (∀ c admin_id,
       get_chat chat_id (db w) = Some c →
       c_chat_type c = "group_chat" →
       is_group_admin chat_id (IdInt current_user) (db w) = Ok true →
       admin_id ∈ request_admin_ids →
       (pretty admin_id ∉ (λ p, py_str (p_id p)) <$> c_participants c) →
       Router.update_group_admins chat_id request_admin_ids current_user now
         w
       = (Raise
            (HTTPException 400
               (FmtIds "Users "
                  (IdInt <$>
                     List.filter
                       (λ admin_id,
                          bool_decide
                            (pretty admin_id
                             ∉ (λ p, py_str (p_id p)) <$> c_participants c))
                       request_admin_ids)
                  " are not participants in this chat")), w)).
Proof.
  unfold Router.update_group_admins, reraise_http, try_except, bind, read_db,
    check_db, raise.
  split; [intros H1; by rewrite H1|].
  split.
  { intros c H1 Hty. rewrite H1. cbn beta iota.
    by rewrite bool_decide_eq_false_2 by exact Hty. }
  split.
  { intros c H1 Hty H2. rewrite H1. cbn beta iota.
    rewrite bool_decide_eq_true_2 by exact Hty. cbn [negb]. by rewrite H2. }
  split.
  { intros c H1 Hty H2 ->. rewrite H1. cbn beta iota.
    rewrite bool_decide_eq_true_2 by exact Hty. cbn [negb]. by rewrite H2. }
  intros c admin_id H1 Hty H2 Hin Hout. rewrite H1. cbn beta iota.
  rewrite bool_decide_eq_true_2 by exact Hty. cbn [negb]. rewrite H2.
  cbn beta iota. cbn [negb].
  destruct request_admin_ids as [|a l] eqn:Hreq; [by inversion Hin|].
  rewrite <- Hreq in *. cbn [py_str].
  destruct (List.filter _ request_admin_ids) as [|x xs] eqn:Hfil; [|done].
  exfalso.
  assert (Hx : admin_id ∈ List.filter
                 (λ admin_id,
                    bool_decide
                      (pretty admin_id
                       ∉ (λ p, py_str (p_id p)) <$> c_participants c))
                 request_admin_ids).
  { apply elem_of_filter_bool. split; [done|].
    by apply bool_decide_eq_true_2. }
  rewrite Hfil in Hx. by inversion Hx.
Qed.

(** In [Sample.store0]: a chat id that is not stored; dealer 2, who is
    not an admin; admin 1 with an empty list; admin 1 naming user 9, who
    is not in the group. *)
Lemma update_group_admins_refusals_witness :
  Router.update_group_admins "65a0000000000000000000ff" [2%Z] 1 500%Z
    Sample.world0
  = (Raise (HTTPException 404 (Lit "Chat not found")), Sample.world0)
  ∧ Router.update_group_admins Sample.chat1 [3%Z] 2 500%Z Sample.world0
    = (Raise (HTTPException 403
                (Lit "Only group admins can update admin list")),
       Sample.world0)
  ∧ Router.update_group_admins Sample.chat1 [] 1 500%Z Sample.world0
    = (Raise (HTTPException 400 (Lit "Admin IDs list cannot be empty")),
       Sample.world0)
  ∧ Router.update_group_admins Sample.chat1 [2%Z; 9%Z] 1 500%Z Sample.world0
    = (Raise (HTTPException 400
                (FmtIds "Users " [IdInt 9]
                   " are not participants in this chat")),
       Sample.world0).
Proof.
  split; [|split; [|split]].
  - destruct (update_group_admins_refusals Sample.world0
                "65a0000000000000000000ff" [2%Z] 1%Z 500%Z) as (H & _).
    exact (H eq_refl).
  - destruct (update_group_admins_refusals Sample.world0 Sample.chat1 [3%Z]
                2%Z 500%Z) as (_ & _ & H & _).
    exact (H Sample.group eq_refl eq_refl eq_refl).
  - destruct (update_group_admins_refusals Sample.world0 Sample.chat1 []
                1%Z 500%Z) as (_ & _ & _ & H & _).
    exact (H Sample.group eq_refl eq_refl eq_refl eq_refl).
  - destruct (update_group_admins_refusals Sample.world0 Sample.chat1
                [2%Z; 9%Z] 1%Z 500%Z) as (_ & _ & _ & _ & H).
    refine (H Sample.group 9%Z eq_refl eq_refl eq_refl _ _).
    + right. left.
    + apply (bool_decide_unpack _). vm_compute. exact I.
Defined.

(** X20.  The handler [join_group_via_invite] answers 404 when no active
    invite with the code is unexpired at the lookup, 400 when the invite
    found has expired by the time of the handler's own test, and 404
    when the invite's chat is not found.  A caller who is already a
    participant gets the answer ["already_member"] with the present
    member count.  In all four cases nothing is written: the invite is
    not consumed. *)
Theorem join_handler_refusals w invite_code current_user now now' :
  (get_invite invite_code now (db w) = None →
   Router.join_group_via_invite invite_code current_user now now' w
   = (Raise (HTTPException 404 (Lit "Invite not found or expired")), w))
  ∧ (∀ i,
       get_invite invite_code now (db w) = Some i →
       (i_expires_at i < now')%Z →
       Router.join_group_via_invite invite_code current_user now now' w
       = (Raise (HTTPException 400 (Lit "Invite has expired")), w))
  ∧ (∀ i,
       get_invite invite_code now (db w) = Some i →
       (now' ≤ i_expires_at i)%Z →
       get_chat (i_chat_id i) (db w) = None →
       Router.join_group_via_invite invite_code current_user now now' w
       = (Raise (HTTPException 404 (Lit "Chat not found")), w))
  ∧ (∀ i c,
       get_invite invite_code now (db w) = Some i →
       (now' ≤ i_expires_at i)%Z →
       get_chat (i_chat_id i) (db w) = Some c →
       is_participant (IdInt current_user) c = true →
       Router.join_group_via_invite invite_code current_user now now' w
       = (Ok {| Router.jr_chat_id := i_chat_id i;
                Router.jr_message := "You are already a member of this group";
                Router.jr_status := "already_member";
                Router.jr_member_count := length (c_participants c) |}, w)).
Proof.
  unfold Router.join_group_via_invite, reraise_http, try_except, bind,
    read_db, raise, ret.
  split; [intros H1; by rewrite H1|].
  split.
  { intros i H1 Hexp. rewrite H1. cbn beta iota.
    by rewrite bool_decide_eq_true_2 by exact Hexp. }
  split.
  { intros i H1 Hexp H2. rewrite H1. cbn beta iota.
    rewrite bool_decide_eq_false_2 by lia. by rewrite H2. }
  intros i c H1 Hexp H2 H3. rewrite H1. cbn beta iota.
  rewrite bool_decide_eq_false_2 by lia. rewrite H2. cbn beta iota.
  by rewrite H3.
Qed.

(** In [Sample.store0], whose invite expires at 1000: an unknown code;
    the invite looked up at 999 and tested at 1001; user 1, who is in
    the group already. *)
Lemma join_handler_refusals_witness :
  Router.join_group_via_invite "nocode" 7 500%Z 501%Z Sample.world0
  = (Raise (HTTPException 404 (Lit "Invite not found or expired")),
     Sample.world0)
  ∧ Router.join_group_via_invite "k3Jx0aQ" 7 999%Z 1001%Z Sample.world0
    = (Raise (HTTPException 400 (Lit "Invite has expired")), Sample.world0)
  ∧ Router.join_group_via_invite "k3Jx0aQ" 1 500%Z 501%Z Sample.world0
    = (Ok {| Router.jr_chat_id := Sample.chat1;
             Router.jr_message := "You are already a member of this group";
             Router.jr_status := "already_member";
             Router.jr_member_count := 3 |}, Sample.world0).
Proof.
  split; [|split].
  - destruct (join_handler_refusals Sample.world0 "nocode" 7%Z 500%Z 501%Z)
      as (H & _).
    exact (H eq_refl).
  - destruct (join_handler_refusals Sample.world0 "k3Jx0aQ" 7%Z 999%Z 1001%Z)
      as (_ & H & _).
    refine (H Sample.invite1 eq_refl _). reflexivity.
  - destruct (join_handler_refusals Sample.world0 "k3Jx0aQ" 1%Z 500%Z 501%Z)
      as (_ & _ & _ & H).
    refine (H Sample.invite1 Sample.group eq_refl _ eq_refl eq_refl).
    discriminate.
Defined.



End RefusalFacts.

(** ** The WebSocket endpoint *)

Section WebSocketFacts.
Import ChatService ChatServiceExt WebSocketChat.

Lemma add_message_then_increment d msg new_id now c :
  get_chat_details (cm_chat_id msg) d = Some c →
  ObjectId (cm_chat_id msg) = Ok (c__id c) →
  ∃ db1 c2,
    add_message msg new_id now d
    = (Ok (with_message_id (Some new_id) (message_dict new_id msg now)), db1)
    ∧ messages db1 = messages d ++ [message_dict new_id msg now]
    ∧ messages (increment_unread_count (cm_chat_id msg) (cm_sender_id msg)
                  (cm_sender_type msg) db1) = messages db1
    ∧ get_chat_details (cm_chat_id msg)
        (increment_unread_count (cm_chat_id msg) (cm_sender_id msg)
           (cm_sender_type msg) db1) = Some c2
    ∧ c_last_message c2
      = Some {| lm_message_id := new_id;
                lm_content := cm_content msg;
                lm_sender_id := py_str (cm_sender_id msg);
                lm_sender_type := cm_sender_type msg;
                lm_timestamp := now;
                lm_message_type := cm_message_type msg |}
    ∧ c_participants c2 = c_participants c
    ∧ (∀ key,
         c_unread_counts c2 !! key
         = if decide
                (key ∈ (λ p, participant_key (p_type p) (p_id p)) <$>
                   List.filter
                     (λ p, negb (bool_decide
                                   (py_str (p_id p)
                                    = py_str (cm_sender_id msg)))
                           || negb (bool_decide
                                      (p_type p = cm_sender_type msg)))
                     (c_participants c))
           then Some (default 0%Z (c_unread_counts c !! key) + 1)%Z
           else c_unread_counts c !! key).
Proof.
  intros Hc Ho.
  set (lm := {| lm_message_id := new_id;
                lm_content := cm_content msg;
                lm_sender_id := py_str (cm_sender_id msg);
                lm_sender_type := cm_sender_type msg;
                lm_timestamp := now;
                lm_message_type := cm_message_type msg |}).
  set (doc := message_dict new_id msg now).
  destruct (get_chat_details_Some _ _ _ Hc) as (o & Ho' & Hfind).
  assert (o = c__id c) as -> by congruence.
  destruct (find_one_split _ _ _ Hfind) as (pre & post & Hsplit & Hpre & _).
  assert (Hpre' : find_one (by__id (c__id c)) pre = None).
  { apply find_one_None. intros x Hx.
    pose proof (proj1 (find_one_None _ _) Hpre x Hx) as Hf.
    by apply orb_false_iff in Hf as [Hf _]. }
  assert (Hself : by__id (c__id c) c = true)
    by (by apply bool_decide_eq_true_2).
  set (c1 := set_last_message lm now c).
  set (db1 := set_chats (pre ++ c1 :: post)
                (set_messages (messages d ++ [doc]) d)).
  assert (Hadd : add_message msg new_id now d
                 = (Ok (with_message_id (Some new_id) doc), db1)).
  { rewrite (add_message_unfold msg new_id now d (c__id c) Ho).
    rewrite Hsplit, (update_one_app _ _ _ _ Hpre'). cbn [update_one fst].
    by rewrite Hself. }
  assert (Hc1 : get_chat_details (cm_chat_id msg) db1 = Some c1).
  { unfold get_chat_details. rewrite Ho. subst db1. cbn [chats set_chats].
    rewrite (find_one_app _ _ _ Hpre). cbn [find_one].
    assert (by__id (c__id c) c1 = true) as ->; [|done].
    subst c1. by apply bool_decide_eq_true_2. }
  destruct (increment_unread_count_chat db1 (cm_chat_id msg)
              (cm_sender_id msg) (cm_sender_type msg) c1 Hc1)
    as (c2 & Hc2 & Hshape & Hcount & Hmsgs & _).
  exists db1, c2.
  split; [done|]. split; [done|]. split; [done|]. split; [done|].
  split; [rewrite Hshape; by subst c1|].
  split; [rewrite Hshape; by subst c1|].
  exact Hcount.
Qed.

Lemma broadcast_no_transport chat_id msg ex m :
  Registry.active_connections m = ∅ →
  Registry.broadcast_to_chat chat_id msg ex m = (Ok tt, m).
Proof.
  intros Hempty. unfold Registry.broadcast_to_chat.
  destruct (Registry.chat_rooms m !! chat_id) as [room|] eqn:Hroom; [|done].
  replace (length room) with (length (Registry.room_of chat_id m))
    by (unfold Registry.room_of; by rewrite Hroom).
  by apply loop_no_transport.
Qed.

Lemma falsy_Some s : s ≠ "" → falsy (Some s) = false.
Proof. intros Hs. unfold falsy. by apply bool_decide_eq_false_2. Qed.

Local Ltac ws_step :=
  lazy beta iota delta
    [s_world s_socket db manager try_except bind in_world try_db call_db
       call_manager send_json ret].

Local Ltac ws_close Hopen open :=
  ws_step; rewrite ?Hopen; destruct open; ws_step; rewrite ?Hopen; ws_step;
  by intros [= <- <-].

(** X22.  A ["message"] frame is not checked against the participants of
    the chat.  Whoever the sender is, for a chat addressed by its [_id]
    the message is appended with the sender's id and the kind ["user"],
    the chat's [last_message] shows it, the sender's socket is sent the
    confirmation, and the unread counter of every participant that is
    not the user of that id grows by one.  The module's registry, in
    which no transport is registered, is left as it is. *)
Theorem websocket_message_stored w sock data user_id new_id now chat_id
    content c :
  fd_type data = Some "message" →
  fd_chat_id data = Some chat_id →
  chat_id ≠ "" →
  fd_content data = Some content →
  content ≠ "" →
  get_chat_details chat_id (db w) = Some c →
  ObjectId chat_id = Ok (c__id c) →
  Registry.active_connections (manager w) = ∅ →
  cs_open sock = true →
  ∃ w' doc c2,
    handle_websocket_message data user_id new_id now (Session w sock)
    = (Ok tt,
       Session w'
         {| cs_open := true;
            cs_sent := cs_sent sock
                       ++ [MessageSent (with_message_id (Some new_id) doc)] |})
    ∧ manager w' = manager w
    ∧ messages (db w') = messages (db w) ++ [doc]
    ∧ m__id doc = new_id
    ∧ m_chat_id doc = chat_id
    ∧ m_sender_id doc = IdStr user_id
    ∧ m_sender_type doc = "user"
    ∧ m_content doc = content
    ∧ m_message_type doc = default "text" (fd_message_type data)
    ∧ m_read_by doc = [Receipt (IdStr user_id) "user" now]
    ∧ get_chat_details chat_id (db w') = Some c2
    ∧ c_last_message c2
      = Some {| lm_message_id := new_id;
                lm_content := content;
                lm_sender_id := user_id;
                lm_sender_type := "user";
                lm_timestamp := now;
                lm_message_type := default "text" (fd_message_type data) |}
    ∧ c_participants c2 = c_participants c
    ∧ (∀ key,
         c_unread_counts c2 !! key
         = if decide
                (key ∈ (λ p, participant_key (p_type p) (p_id p)) <$>
                   List.filter
                     (λ p, negb (bool_decide (py_str (p_id p) = user_id))
                           || negb (bool_decide (p_type p = "user")))
                     (c_participants c))
           then Some (default 0%Z (c_unread_counts c !! key) + 1)%Z
           else c_unread_counts c !! key).
Proof.
  intros Hty Hcid Hne Hcont Hne' Hc Ho Hempty Hopen.
  set (msg :=
         {| cm_chat_id := chat_id;
            cm_sender_id := IdStr user_id;
            cm_sender_type := "user";
            cm_content := content;
            cm_message_type := default "text" (fd_message_type data);
            cm_reply_to := None;
            cm_gem_id := None;
            cm_attachment := None |}).
  destruct (add_message_then_increment (db w) msg new_id now c Hc Ho)
    as (db1 & c2 & Hadd & Hm1 & Hm2 & Hc2 & Hlast & Hparts & Hcount).
  subst msg.
  cbn [cm_chat_id cm_sender_id cm_sender_type cm_content cm_message_type
         py_str] in *.
  eexists (World (increment_unread_count chat_id (IdStr user_id) "user" db1)
             (manager w)), _, c2.
  split.
  { unfold handle_websocket_message, try_except, bind, in_world, try_db,
      call_db, call_manager, send_json, ret.
    rewrite Hcid, Hcont, Hty. cbn [default from_option id].
    rewrite (falsy_Some _ Hne), (falsy_Some _ Hne').
    rewrite bool_decide_eq_true_2 by done.
    cbn [s_world s_socket db manager]. rewrite Hadd.
    cbn [s_world s_socket db manager].
    rewrite (broadcast_no_transport _ _ _ _ Hempty).
    cbn [s_world s_socket db manager]. rewrite Hopen.
    cbn [s_world s_socket db manager]. reflexivity. }
  cbn [db manager]. rewrite Hm2, Hm1.
  do 9 (split; [done|]). split; [exact Hc2|].
  split; [exact Hlast|]. split; [exact Hparts|]. exact Hcount.
Qed.

(** User 7, who is in no chat of [Sample.store0], sends a message to the
    sample group over an open socket. *)
Lemma websocket_message_stored_witness :
  ∃ w' doc c2,
    handle_websocket_message
      {| fd_type := Some "message"; fd_chat_id := Some Sample.chat1;
         fd_content := Some "hi"; fd_message_type := None;
         fd_message_id := None |}
      "7" "65b000000000000000000009" 500%Z
      (Session Sample.world0 {| cs_open := true; cs_sent := [] |})
    = (Ok tt,
       Session w'
         {| cs_open := true;
            cs_sent := [MessageSent
                          (with_message_id (Some "65b000000000000000000009")
                             doc)] |})
    ∧ m_sender_id doc = IdStr "7"
    ∧ get_chat_details Sample.chat1 (db w') = Some c2
    ∧ c_unread_counts c2 !! "user_1" = Some 1%Z
    ∧ c_unread_counts c2 !! "dealer_2" = Some 3%Z.
Proof.
  destruct (websocket_message_stored Sample.world0
              {| cs_open := true; cs_sent := [] |}
              {| fd_type := Some "message"; fd_chat_id := Some Sample.chat1;
                 fd_content := Some "hi"; fd_message_type := None;
                 fd_message_id := None |}
              "7" "65b000000000000000000009" 500%Z Sample.chat1 "hi"
              Sample.group)
    as (w' & doc & c2 & Hrun & _ & _ & _ & _ & Hsender & _ & _ & _ & _ & Hc2
        & _ & _ & Hcount);
    [reflexivity | reflexivity | discriminate | reflexivity | discriminate
    | reflexivity | reflexivity | reflexivity | reflexivity |].
  exists w', doc, c2. split; [exact Hrun|]. split; [exact Hsender|].
  split; [exact Hc2|]. rewrite !Hcount. split; reflexivity.
Defined.

(** X23.  A ["message"] frame for a chat that cannot be found is not
    refused before the message is written.  When [chat_id] is not an
    [ObjectId], [add_message] fails after its insert: the sender is sent
    an error, and the message stays in the collection.  When no chat has
    the id, the message is stored and confirmed to the sender as sent,
    and no chat is changed. *)
Theorem websocket_message_to_no_chat w sock data user_id new_id now chat_id
    content :
  fd_type data = Some "message" →
  fd_chat_id data = Some chat_id →
  chat_id ≠ "" →
  fd_content data = Some content →
  content ≠ "" →
  cs_open sock = true →
  let doc :=
    message_dict new_id
      {| cm_chat_id := chat_id;
         cm_sender_id := IdStr user_id;
         cm_sender_type := "user";
         cm_content := content;
         cm_message_type := default "text" (fd_message_type data);
         cm_reply_to := None;
         cm_gem_id := None;
         cm_attachment := None |} now in
  (∀ e,
     ObjectId chat_id = Raise e →
     handle_websocket_message data user_id new_id now (Session w sock)
     = (Ok tt,
        Session
          (World (set_messages (messages (db w) ++ [doc]) (db w)) (manager w))
          {| cs_open := true;
             cs_sent :=
               cs_sent sock
               ++ [ErrorReply
                     (Fmt "Failed to process message: "
                        (HTTPException 500
                           (Fmt "Failed to add message: " e)))] |}))
  ∧ (∀ o,
       ObjectId chat_id = Ok o →
       get_chat_details chat_id (db w) = None →
       Registry.active_connections (manager w) = ∅ →
       handle_websocket_message data user_id new_id now (Session w sock)
       = (Ok tt,
          Session
            (World (set_messages (messages (db w) ++ [doc]) (db w))
               (manager w))
            {| cs_open := true;
               cs_sent :=
                 cs_sent sock
                 ++ [MessageSent (with_message_id (Some new_id) doc)] |})).
Proof.
  intros Hty Hcid Hne Hcont Hne' Hopen doc. split.
  - intros e He.
    unfold handle_websocket_message, try_except, bind, in_world, try_db,
      call_db, call_manager, send_json, ret.
    rewrite Hcid, Hcont, Hty. cbn [default from_option id].
    rewrite (falsy_Some _ Hne), (falsy_Some _ Hne').
    rewrite bool_decide_eq_true_2 by done.
    cbn [s_world s_socket db manager].
    unfold add_message, try_except, raise. cbn [cm_chat_id]. rewrite He.
    cbn [s_world s_socket db manager]. rewrite Hopen. reflexivity.
  - intros o Ho Hnone Hempty.
    assert (Hno : find_one (by__id o) (chats (db w)) = None).
    { unfold get_chat_details in Hnone. rewrite Ho in Hnone.
      apply find_one_None. intros x Hx.
      pose proof (proj1 (find_one_None _ _) Hnone x Hx) as Hf.
      by apply orb_false_iff in Hf as [Hf _]. }
    set (db1 := set_messages (messages (db w) ++ [doc]) (db w)).
    assert (Hadd : add_message
                     {| cm_chat_id := chat_id;
                        cm_sender_id := IdStr user_id;
                        cm_sender_type := "user";
                        cm_content := content;
                        cm_message_type :=
                          default "text" (fd_message_type data);
                        cm_reply_to := None;
                        cm_gem_id := None;
                        cm_attachment := None |} new_id now (db w)
                   = (Ok (with_message_id (Some new_id) doc), db1)).
    { rewrite (add_message_unfold _ new_id now (db w) o); [|exact Ho].
      cbn [cm_chat_id cm_content cm_sender_id cm_sender_type
             cm_message_type].
      rewrite (update_one_no_match _ _ _ Hno). cbn [fst].
      subst db1 doc. by destruct (db w). }
    assert (Hinc : increment_unread_count chat_id (IdStr user_id) "user" db1
                   = db1).
    { unfold increment_unread_count.
      assert (get_chat_details chat_id db1 = None) as ->; [|done].
      unfold get_chat_details in *. by rewrite Ho in *. }
    unfold handle_websocket_message, try_except, bind, in_world, try_db,
      call_db, call_manager, send_json, ret.
    rewrite Hcid, Hcont, Hty. cbn [default from_option id].
    rewrite (falsy_Some _ Hne), (falsy_Some _ Hne').
    rewrite bool_decide_eq_true_2 by done.
    cbn [s_world s_socket db manager]. rewrite Hadd.
    cbn [s_world s_socket db manager].
    rewrite (broadcast_no_transport _ _ _ _ Hempty).
    cbn [s_world s_socket db manager]. rewrite Hopen.
    cbn [s_world s_socket db manager]. by rewrite Hinc.
Qed.

(** A message frame for the chat ["nowhere"]. *)
Lemma websocket_message_to_no_chat_witness :
  ∃ doc,
    handle_websocket_message
      {| fd_type := Some "message"; fd_chat_id := Some "nowhere";
         fd_content := Some "hi"; fd_message_type := None;
         fd_message_id := None |}
      "7" "65b000000000000000000009" 500%Z
      (Session Sample.world0 {| cs_open := true; cs_sent := [] |})
    = (Ok tt,
       Session
         (World (set_messages (messages Sample.store0 ++ [doc]) Sample.store0)
            Registry.init)
         {| cs_open := true;
            cs_sent :=
              [ErrorReply
                 (Fmt "Failed to process message: "
                    (HTTPException 500
                       (Fmt "Failed to add message: "
                          (InvalidId "nowhere"))))] |})
    ∧ m_chat_id doc = "nowhere".
Proof.
  eexists. split.
  - apply (websocket_message_to_no_chat Sample.world0
             {| cs_open := true; cs_sent := [] |}
             {| fd_type := Some "message"; fd_chat_id := Some "nowhere";
                fd_content := Some "hi"; fd_message_type := None;
                fd_message_id := None |}
             "7" "65b000000000000000000009" 500%Z "nowhere" "hi");
      [reflexivity | reflexivity | discriminate | reflexivity | discriminate
      | reflexivity | reflexivity].
  - reflexivity.
Defined.



(** X25.  What the endpoint answers.  A frame without [chat_id], and a
    ["message"] frame without content, are answered with an error and
    change nothing.  A ["mark_read"] frame is carried out by
    [mark_messages_as_read] and is not answered at all.  A frame of any
    other type than ["message"], ["join_chat"] and ["mark_read"] is
    dropped without an answer and without an error. *)
Theorem websocket_replies w sock data user_id new_id now :
  (falsy (fd_chat_id data) = true →
   cs_open sock = true →
   handle_websocket_message data user_id new_id now (Session w sock)
   = (Ok tt,
      Session w
        {| cs_open := true;
           cs_sent := cs_sent sock
                      ++ [ErrorReply (Lit "chat_id is required")] |}))
  ∧ (falsy (fd_chat_id data) = false →
     fd_type data = Some "message" →
     falsy (fd_content data) = true →
     cs_open sock = true →
     handle_websocket_message data user_id new_id now (Session w sock)
     = (Ok tt,
        Session w
          {| cs_open := true;
             cs_sent := cs_sent sock
                        ++ [ErrorReply (Lit "Message content is required")] |}))
  ∧ (∀ chat_id,
       fd_chat_id data = Some chat_id →
       chat_id ≠ "" →
       fd_type data = Some "mark_read" →
       handle_websocket_message data user_id new_id now (Session w sock)
       = (Ok tt,
          Session
            (World
               (mark_messages_as_read chat_id (IdStr user_id) "user"
                  (fd_message_id data) now (db w)).2
               (manager w))
            sock))
  ∧ (falsy (fd_chat_id data) = false →
     fd_type data ≠ Some "message" →
     fd_type data ≠ Some "join_chat" →
     fd_type data ≠ Some "mark_read" →
     handle_websocket_message data user_id new_id now (Session w sock)
     = (Ok tt, Session w sock)).
Proof.
  unfold handle_websocket_message, try_except, bind, in_world, call_db,
    call_manager, send_json, ret.
  split; [intros H1 H2; rewrite H1; cbn [s_socket s_world]; by rewrite H2|].
  split.
  { intros H1 H2 H3 H4. rewrite H1, H2, H3.
    rewrite bool_decide_eq_true_2 by done. cbn [s_socket s_world].
    by rewrite H4. }
  split.
  { intros chat_id H1 Hne H2. rewrite H1, H2, (falsy_Some _ Hne).
    rewrite !bool_decide_eq_false_2 by done.
    rewrite bool_decide_eq_true_2 by done.
    cbn [default from_option id s_socket s_world db manager].
    by destruct (mark_messages_as_read _ _ _ _ _ _). }
  intros H1 H2 H3 H4. rewrite H1.
  rewrite !bool_decide_eq_false_2 by done. by destruct w.
Qed.

(** A frame without [chat_id], and a frame of type ["typing"]. *)
Lemma websocket_replies_witness :
  handle_websocket_message
    {| fd_type := Some "message"; fd_chat_id := None;
       fd_content := Some "hi"; fd_message_type := None;
       fd_message_id := None |}
    "7" "65b000000000000000000009" 500%Z
    (Session Sample.world0 {| cs_open := true; cs_sent := [] |})
  = (Ok tt,
     Session Sample.world0
       {| cs_open := true;
          cs_sent := [ErrorReply (Lit "chat_id is required")] |})
  ∧ handle_websocket_message
      {| fd_type := Some "typing"; fd_chat_id := Some Sample.chat1;
         fd_content := None; fd_message_type := None;
         fd_message_id := None |}
      "7" "65b000000000000000000009" 500%Z
      (Session Sample.world0 {| cs_open := true; cs_sent := [] |})
    = (Ok tt, Session Sample.world0 {| cs_open := true; cs_sent := [] |}).
Proof.
  split.
  - destruct (websocket_replies Sample.world0
                {| cs_open := true; cs_sent := [] |}
                {| fd_type := Some "message"; fd_chat_id := None;
                   fd_content := Some "hi"; fd_message_type := None;
                   fd_message_id := None |}
                "7" "65b000000000000000000009" 500%Z) as (H & _).
    exact (H eq_refl eq_refl).
  - destruct (websocket_replies Sample.world0
                {| cs_open := true; cs_sent := [] |}
                {| fd_type := Some "typing"; fd_chat_id := Some Sample.chat1;
                   fd_content := None; fd_message_type := None;
                   fd_message_id := None |}
                "7" "65b000000000000000000009" 500%Z) as (_ & _ & _ & H).
    apply H; [reflexivity | discriminate | discriminate | discriminate].
Defined.

(** X26.  No frame registers a transport in the module's registry: when
    [active_connections] is empty before a frame is handled it is empty
    afterwards, whatever the frame, the user and the state of the
    socket; and only a ["join_chat"] frame changes the rooms. *)
Theorem websocket_registry_stays_empty s data user_id new_id now :
  Registry.active_connections (manager (s_world s)) = ∅ →
  Registry.active_connections
    (manager
       (s_world (handle_websocket_message data user_id new_id now s).2))
  = ∅
  ∧ (fd_type data ≠ Some "join_chat" →
     manager (s_world (handle_websocket_message data user_id new_id now s).2)
     = manager (s_world s)).
Proof.
  intros Hempty.
  destruct (handle_websocket_message data user_id new_id now s) as [r s']
    eqn:Hrun.
  cbn [snd]. revert Hrun.
  destruct s as [[d m] sock]. cbn [s_world manager] in *.
  unfold handle_websocket_message.
  pose proof (eq_refl (cs_open sock)) as Hopen.
  revert Hopen. generalize (cs_open sock) at 2. intros open Hopen.
  destruct (falsy (fd_chat_id data)); [ws_close Hopen open|].
  case_bool_decide as Hmsg.
  { destruct (falsy (fd_content data)); [ws_close Hopen open|].
    ws_step.
    destruct (add_message _ _ _ d) as [[saved|e] d1]; [|ws_close Hopen open].
    ws_step. rewrite (broadcast_no_transport _ _ _ _ Hempty).
    ws_close Hopen open. }
  case_bool_decide as Hjoin.
  { ws_step.
    destruct (mark_messages_as_delivered _ _ _ _ _ d) as [b d1].
    ws_close Hopen open. }
  case_bool_decide as Hread.
  { ws_step. destruct (mark_messages_as_read _ _ _ _ _ d) as [b d1].
    ws_close Hopen open. }
  ws_close Hopen open.
Qed.

(** A ["message"] frame to the sample group on a fresh registry in which
    [user_1] has joined the room. *)
Lemma websocket_registry_stays_empty_witness :
  let s :=
    Session
      (World Sample.store0
         (Registry.join_chat Sample.chat1 "user_1" Registry.init))
      {| cs_open := true; cs_sent := [] |} in
  let s' :=
    (handle_websocket_message
       {| fd_type := Some "message"; fd_chat_id := Some Sample.chat1;
          fd_content := Some "hi"; fd_message_type := None;
          fd_message_id := None |}
       "7" "65b000000000000000000009" 500%Z s).2 in
  Registry.active_connections (manager (s_world s')) = ∅
  ∧ manager (s_world s') = manager (s_world s).
Proof.
  intros s s'.
  destruct (websocket_registry_stays_empty s
              {| fd_type := Some "message"; fd_chat_id := Some Sample.chat1;
                 fd_content := Some "hi"; fd_message_type := None;
                 fd_message_id := None |}
              "7" "65b000000000000000000009" 500%Z eq_refl) as [H1 H2].
  split; [exact H1|]. apply H2. discriminate.
Defined.

End WebSocketFacts.

(** ** Reacting through the handler *)

Section ReactFacts.
Import ChatService.

(** X27.  [react_to_message] toggles the caller's reaction on the message
    named by [message_id] and looks neither at the chat of the message
    nor at its participants: what is stored does not depend on the
    [chat_id] of the request, which only selects the room that is
    notified.  For a message that does not exist the answer is a 500 and
    nothing is written. *)
Theorem react_to_message_ignores_chat w chat_id message_id emoji current_user
    now :
  (db (RouterExt.react_to_message chat_id message_id emoji current_user now
         w).2
   = (toggle_message_reaction message_id (IdInt current_user) emoji now
        (db w)).2)
  ∧ (get_message message_id (db w) = None →
     RouterExt.react_to_message chat_id message_id emoji current_user now w
     = (Raise
          (HTTPException 500
             (Fmt "Error updating reaction: "
                (ValueError
                   (Fmt "Failed to update reaction: "
                      (ValueError (Lit "Message not found")))))), w))
  ∧ (∀ found,
       get_message message_id (db w) = Some found →
       Registry.chat_rooms (manager w) !! chat_id = None →
       ∃ d1,
         RouterExt.react_to_message chat_id message_id emoji current_user
           now w
         = (Ok (message_id,
                toggled (m_reactions found) (IdInt current_user) emoji now),
            World d1 (manager w))
         ∧ m_reactions <$> get_message message_id d1
           = Some (toggled (m_reactions found) (IdInt current_user) emoji
                     now)).
Proof.
  split.
  { unfold RouterExt.react_to_message, wrap_500, try_except, bind, try_db,
      call_manager, ret, raise.
    destruct (toggle_message_reaction _ _ _ _ (db w)) as [[res|e] d1];
      cbn [db manager snd]; [|done].
    by destruct (RegistryExt.broadcast_to_chat_dumps _ _ _ _ _)
      as [[[]|e] m1]. }
  split.
  { intros Hnone.
    unfold RouterExt.react_to_message, wrap_500, try_except, bind, try_db,
      call_manager, ret, raise.
    unfold toggle_message_reaction, try_except, raise. rewrite Hnone.
    by destruct w. }
  intros found Hget Hroom.
  destruct (get_message_Some _ _ _ Hget) as (o & d & Ho & Hd & ->).
  cbn [m_reactions with_message_id].
  set (R1 := toggled (m_reactions d) (IdInt current_user) emoji now).
  exists (set_messages
            (update_one (msg_by__id o) (with_reactions R1)
               (messages (db w))).1 (db w)).
  split.
  { unfold RouterExt.react_to_message, wrap_500, try_except, bind, try_db,
      call_manager, ret, raise.
    rewrite (toggle_message_reaction_found _ _ _ _ _ _ _ Ho Hd).
    cbn [db manager]. unfold RegistryExt.broadcast_to_chat_dumps.
    by rewrite Hroom. }
  unfold get_message. rewrite Ho. cbn [messages set_messages].
  rewrite (find_one_update_one (msg_by__id o) (with_reactions R1) _ _ Hd).
  - done.
  - apply find_one_Some in Hd as [Hd _]. by destruct d.
Qed.

(** User 7, who is in no chat, reacts to the first message of the sample
    group through the path of another chat id. *)
Lemma react_to_message_ignores_chat_witness :
  ∃ d1,
    RouterExt.react_to_message "65a0000000000000000000ff" Sample.msg1 "+1" 7
      500%Z Sample.world0
    = (Ok (Sample.msg1, {[ "+1" := [Reaction (IdInt 7) 500%Z] ]}),
       World d1 Registry.init)
    ∧ m_reactions <$> get_message Sample.msg1 d1
      = Some {[ "+1" := [Reaction (IdInt 7) 500%Z] ]}.
Proof.
  destruct (react_to_message_ignores_chat Sample.world0
              "65a0000000000000000000ff" Sample.msg1 "+1" 7%Z 500%Z)
    as (_ & _ & H).
  destruct (H _ eq_refl eq_refl) as (d1 & Hrun & Hget).
  exists d1. split; [exact Hrun | exact Hget].
Defined.

(** With the room of [Sample.registry1] to notify, the payload holds the
    [datetime] of the new reaction: the first send fails, the connection
    is dropped from the room while the loop iterates over it, and the
    handler answers 500 with the reaction stored. *)
Lemma react_to_message_room_is_500 :
  let w := World Sample.store0 Sample.registry1 in
  let '(r, w') :=
    RouterExt.react_to_message Sample.chat1 Sample.msg1 "+1" 2 500%Z w in
  r = Raise (HTTPException 500
               (Fmt "Error updating reaction: " Registry.set_changed))
  ∧ m_reactions <$> get_message Sample.msg1 (db w')
    = Some {[ "+1" := [Reaction (IdInt 2) 500%Z] ]}
  ∧ Registry.room_of Sample.chat1 (manager w') = ["user_2"; "user_3"]
  ∧ Registry.delivered (manager w') "user_3" = [].
Proof. vm_compute. repeat split; reflexivity. Qed.

End ReactFacts.

(** ** A chat addressed by its alias *)

Section AliasFacts.
Import ChatService ChatServiceExt.

(** X28.  [send_message] to a chat that is found through its field
    [chat_id] while no chat has the text as its [_id]: the message is
    stored under that text and the unread counters of the other
    participants grow, because these look the chat up by either key, but
    [add_message] looks for the [_id] alone, so [last_message] and every
    other field of the chat stay as they were.  The answer is the 500 of
    the encoding that fails after these writes, and the registry is not
    touched. *)
Theorem send_message_by_alias w chat_id request current_user new_id now kind
    c o :
  get_participant_type chat_id (IdInt current_user) (db w) = Ok kind →
  get_chat_details chat_id (db w) = Some c →
  ObjectId chat_id = Ok o →
  find_one (by__id o) (chats (db w)) = None →
  ∃ w' doc c2,
    RouterExt.send_message chat_id request current_user new_id now w
    = (Raise (HTTPException 500
                (Fmt "Error sending message: " cannot_encode_ObjectId)), w')
    ∧ manager w' = manager w
    ∧ messages (db w') = messages (db w) ++ [doc]
    ∧ m_chat_id doc = chat_id
    ∧ get_chat_details chat_id (db w') = Some c2
    ∧ c2 = with_unread_counts (c_unread_counts c2) c
    ∧ c_last_message c2 = c_last_message c
    ∧ (∀ key,
         c_unread_counts c2 !! key
         = if decide
                (key ∈ (λ p, participant_key (p_type p) (p_id p)) <$>
                   List.filter
                     (λ p, negb (bool_decide
                                   (py_str (p_id p)
                                    = py_str (IdInt current_user)))
                           || negb (bool_decide (p_type p = kind)))
                     (c_participants c))
           then Some (default 0%Z (c_unread_counts c !! key) + 1)%Z
           else c_unread_counts c !! key).
Proof.
  intros Htype Hc Ho Hno.
  set (msg :=
         {| cm_chat_id := chat_id;
            cm_sender_id := IdInt current_user;
            cm_sender_type := kind;
            cm_content := RouterExt.mq_content request;
            cm_message_type := RouterExt.mq_message_type request;
            cm_reply_to := None;
            cm_gem_id := RouterExt.mq_gem_id request;
            cm_attachment := RouterExt.mq_attachment request |}).
  set (doc := message_dict new_id msg now).
  set (db1 := set_messages (messages (db w) ++ [doc]) (db w)).
  assert (Hadd : add_message msg new_id now (db w)
                 = (Ok (with_message_id (Some new_id) doc), db1)).
  { rewrite (add_message_unfold msg new_id now (db w) o); [|exact Ho].
    rewrite (update_one_no_match _ _ _ Hno). cbn [fst].
    subst db1 doc. by destruct (db w). }
  assert (Hc1 : get_chat_details chat_id db1 = Some c) by exact Hc.
  destruct (increment_unread_count_chat db1 chat_id (IdInt current_user) kind
              c Hc1) as (c2 & Hc2 & Hshape & Hcount & Hmsgs & _).
  exists (World (increment_unread_count chat_id (IdInt current_user) kind db1)
            (manager w)), doc, c2.
  split.
  { unfold RouterExt.send_message, wrap_500, try_except, bind, check_db,
      try_db, call_db, call_manager, of_result, jsonable_encoder, ret, raise.
    rewrite Htype. fold msg. by rewrite Hadd. }
  cbn [db manager]. rewrite Hmsgs.
  split; [done|]. split; [done|]. split; [done|]. split; [exact Hc2|].
  split; [exact Hshape|]. split; [by rewrite Hshape|]. exact Hcount.
Qed.

(** The sample group, whose alias is not the [_id] of any chat,
    addressed by the alias. *)
Lemma send_message_by_alias_witness :
  ∃ w' doc c2,
    RouterExt.send_message "65c000000000000000000009"
      {| RouterExt.mq_content := "hi"; RouterExt.mq_message_type := "text";
         RouterExt.mq_attachment := None; RouterExt.mq_gem_id := None |}
      2 "65b000000000000000000009" 500%Z Sample.world0
    = (Raise (HTTPException 500
                (Fmt "Error sending message: " cannot_encode_ObjectId)), w')
    ∧ messages (db w') = messages Sample.store0 ++ [doc]
    ∧ m_chat_id doc = "65c000000000000000000009"
    ∧ get_chat_details "65c000000000000000000009" (db w') = Some c2
    ∧ c_last_message c2 = None
    ∧ c_unread_counts c2 !! "user_1" = Some 1%Z.
Proof.
  destruct (send_message_by_alias Sample.world0 "65c000000000000000000009"
              {| RouterExt.mq_content := "hi";
                 RouterExt.mq_message_type := "text";
                 RouterExt.mq_attachment := None;
                 RouterExt.mq_gem_id := None |}
              2%Z "65b000000000000000000009" 500%Z "dealer" Sample.group
              "65c000000000000000000009" eq_refl eq_refl eq_refl eq_refl)
    as (w' & doc & c2 & Hrun & _ & Hmsgs & Hchat & Hc2 & _ & Hlast & Hcount).
  exists w', doc, c2. split; [exact Hrun|]. split; [exact Hmsgs|].
  split; [exact Hchat|]. split; [exact Hc2|].
  split; [exact Hlast|]. rewrite Hcount. reflexivity.
Defined.

End AliasFacts.

(** ** The per-chat registry of [chat_manager.py] *)

Section ChatManagerFacts.
Import ChatManager.

Lemma dict_set_keys k v d :
  (dict_set k v d).*1 = if decide (k ∈ d.*1) then d.*1 else d.*1 ++ [k].
Proof.
  induction d as [|[k' v'] d IH]; cbn [dict_set fmap list_fmap fst].
  - rewrite decide_False; [done|]. by intros ?%elem_of_nil.
  - destruct (decide (k' = k)) as [->|Hne].
    + cbn. rewrite decide_True; [done|]. by left.
    + cbn [fmap list_fmap fst]. change (list_fmap _ _ fst ?l) with (l.*1).
      rewrite IH. destruct (decide (k ∈ d.*1)) as [Hin|Hout].
      * rewrite decide_True; [done|]. by right.
      * rewrite decide_False; [done|].
        intros [?|?]%elem_of_cons; [by subst|done].
Qed.


Lemma dict_set_nonempty k v d : dict_set k v d ≠ [].
Proof. destruct d as [|[k' v'] d]; cbn; [done|]. by destruct (decide _). Qed.

Lemma dict_set_elem k v d x :
  x ∈ (dict_set k v d).*1 ↔ x = k ∨ x ∈ d.*1.
Proof.
  rewrite dict_set_keys. destruct (decide (k ∈ d.*1)) as [Hin|Hout].
  - split; [by right|]. by intros [->|?].
  - rewrite elem_of_app, list_elem_of_singleton. tauto.
Qed.

Lemma dict_set_NoDup k v d : NoDup d.*1 → NoDup (dict_set k v d).*1.
Proof.
  intros Hd. rewrite dict_set_keys.
  destruct (decide (k ∈ d.*1)) as [Hin|Hout]; [done|].
  apply NoDup_app. split; [done|]. split.
  - intros x Hx ->%list_elem_of_singleton. done.
  - apply NoDup_singleton.
Qed.

Lemma dict_pop_elem k d x :
  x ∈ (dict_pop k d).*1 ↔ x ≠ k ∧ x ∈ d.*1.
Proof.
  unfold dict_pop. induction d as [|[k' v'] d IH]; cbn.
  - split; [by intros ?%elem_of_nil | by intros [_ ?%elem_of_nil]].
  - case_bool_decide as Hk; cbn.
    + subst k'. rewrite elem_of_cons, IH. tauto.
    + rewrite !elem_of_cons, IH. split.
      * intros [->|[? ?]]; [split; [done | by left] | split; [done | by right]].
      * intros [? [->|?]]; [by left | by right].
Qed.

Lemma dict_pop_NoDup k d : NoDup d.*1 → NoDup (dict_pop k d).*1.
Proof.
  unfold dict_pop. induction d as [|[k' v'] d IH]; cbn; [done|].
  intros [Hout Hd]%NoDup_cons. case_bool_decide as Hk; cbn; [by apply IH|].
  apply NoDup_cons. split; [|by apply IH].
  intros Hin. apply Hout. by apply (dict_pop_elem k d k') in Hin as [_ ?].
Qed.

Lemma dict_pop_fresh k d : k ∉ d.*1 → dict_pop k d = d.
Proof.
  unfold dict_pop. induction d as [|[k' v'] d IH]; cbn; [done|].
  intros Hout. rewrite not_elem_of_cons in Hout. destruct Hout as [Hne Hout].
  rewrite bool_decide_eq_false_2 by done. cbn. by rewrite IH.
Qed.

Lemma dict_pop_set k v d : k ∉ d.*1 → dict_pop k (dict_set k v d) = d.
Proof.
  unfold dict_pop. induction d as [|[k' v'] d IH]; cbn.
  - intros _. by rewrite bool_decide_eq_true_2.
  - intros Hout. rewrite not_elem_of_cons in Hout.
    destruct Hout as [Hne Hout].
    rewrite decide_False by done. cbn.
    rewrite bool_decide_eq_false_2 by done. cbn. by rewrite IH.
Qed.


(** What [connect] leaves in the three dictionaries. *)
Lemma connect_lookup ws c u m :
  (∀ c, is_Some (active_connections m !! c) → is_Some (chat_rooms m !! c)) →
  ∃ m',
    connect ws c u m = (None, m')
    ∧ active_connections m' !! c
      = Some (dict_set u ws (default [] (active_connections m !! c)))
    ∧ (∀ c', c' ≠ c →
         active_connections m' !! c' = active_connections m !! c')
    ∧ chat_rooms m' !! c
      = Some ({[u]} ∪ match active_connections m !! c with
                      | Some _ => default ∅ (chat_rooms m !! c)
                      | None => ∅
                      end)
    ∧ (∀ c', c' ≠ c → chat_rooms m' !! c' = chat_rooms m !! c')
    ∧ user_rooms m' !! u = Some ({[c]} ∪ rooms_of m u)
    ∧ (∀ u', u' ≠ u → user_rooms m' !! u' = user_rooms m !! u').
Proof.
  intros Hdom. destruct m as [A R U].
  unfold connect, rooms_of. cbv zeta.
  cbn [active_connections chat_rooms user_rooms] in *.
  destruct (A !! c) as [conns|] eqn:Hc.
  - destruct (Hdom c) as [room Hroom]; [by eexists|].
    cbn [active_connections chat_rooms user_rooms].
    rewrite ?Hc, ?Hroom.
    eexists. split; [done|]. cbn [active_connections chat_rooms user_rooms].
    rewrite !lookup_insert_eq. cbn [default from_option id].
    split; [done|]. split; [intros c' ?; by rewrite lookup_insert_ne|].
    split; [done|]. split; [intros c' ?; by rewrite lookup_insert_ne|].
    split; [done|]. intros u' ?. by rewrite lookup_insert_ne.
  - cbn [active_connections chat_rooms user_rooms].
    rewrite ?lookup_insert_eq.
    eexists. split; [done|]. cbn [active_connections chat_rooms user_rooms].
    rewrite !lookup_insert_eq. cbn [default from_option id].
    split; [done|].
    split; [intros c' ?; by rewrite !lookup_insert_ne|].
    split; [done|].
    split; [intros c' ?; by rewrite !lookup_insert_ne|].
    split; [done|]. intros u' ?. by rewrite lookup_insert_ne.
Qed.


(** What [disconnect] leaves in the three dictionaries. *)
Lemma disconnect_lookup c u m :
  (∀ c, is_Some (active_connections m !! c) → is_Some (chat_rooms m !! c)) →
  ∃ m',
    disconnect c u m = (None, m')
    ∧ active_connections m' !! c
      = match active_connections m !! c with
        | Some conns =>
            match dict_pop u conns with
            | [] => None
            | kv :: rest => Some (kv :: rest)
            end
        | None => None
        end
    ∧ (∀ c', c' ≠ c →
         active_connections m' !! c' = active_connections m !! c')
    ∧ chat_rooms m' !! c
      = match active_connections m !! c with
        | Some conns =>
            match dict_pop u conns with
            | [] => None
            | _ :: _ => Some (default ∅ (chat_rooms m !! c) ∖ {[u]})
            end
        | None => chat_rooms m !! c
        end
    ∧ (∀ c', c' ≠ c → chat_rooms m' !! c' = chat_rooms m !! c')
    ∧ user_rooms m' !! u
      = match user_rooms m !! u with
        | Some rooms =>
            if decide (rooms ∖ {[c]} = ∅) then None
            else Some (rooms ∖ {[c]})
        | None => None
        end
    ∧ (∀ u', u' ≠ u → user_rooms m' !! u' = user_rooms m !! u').
Proof.
  intros Hdom. destruct m as [A R U].
  unfold disconnect. cbv zeta.
  cbn [active_connections chat_rooms user_rooms] in *.
  assert (Huser : ∀ A' R',
    ∃ m',
      match U !! u with
      | Some rooms =>
          (None,
           {| active_connections := A'; chat_rooms := R';
              user_rooms :=
                if decide (rooms ∖ {[c]} = ∅) then delete u U
                else <[u := rooms ∖ {[c]}]> U |})
      | None =>
          (@None error,
           {| active_connections := A'; chat_rooms := R'; user_rooms := U |})
      end = (None, m')
      ∧ active_connections m' = A' ∧ chat_rooms m' = R'
      ∧ user_rooms m' !! u
        = match U !! u with
          | Some rooms =>
              if decide (rooms ∖ {[c]} = ∅) then None
              else Some (rooms ∖ {[c]})
          | None => None
          end
      ∧ (∀ u', u' ≠ u → user_rooms m' !! u' = U !! u')).
  { intros A' R'. destruct (U !! u) as [rooms|] eqn:Hu.
    - eexists. split; [done|]. cbn [active_connections chat_rooms user_rooms].
      split; [done|]. split; [done|].
      destruct (decide (rooms ∖ {[c]} = ∅)).
      + rewrite lookup_delete_eq. split; [done|].
        intros u' ?. by rewrite lookup_delete_ne.
      + rewrite lookup_insert_eq. split; [done|].
        intros u' ?. by rewrite lookup_insert_ne.
    - eexists. split; [done|]. cbn [active_connections chat_rooms user_rooms].
      by rewrite Hu. }
  destruct (A !! c) as [conns|] eqn:Hc.
  - destruct (Hdom c) as [room Hroom]; [by eexists|].
    cbn [active_connections chat_rooms user_rooms]. rewrite Hroom.
    cbn [default from_option id].
    destruct (dict_pop u conns) as [|kv rest] eqn:Hpop;
      cbn [active_connections chat_rooms user_rooms].
    + destruct (Huser (delete c (<[c := []]> A))
                  (delete c (<[c := room ∖ {[u]}]> R)))
        as (m' & -> & HA & HR & Hu & Hu').
      exists m'. split; [done|]. rewrite HA, HR.
      rewrite !lookup_delete_eq. split; [done|].
      split; [intros c' ?; by rewrite lookup_delete_ne, lookup_insert_ne|].
      split; [done|].
      split; [intros c' ?; by rewrite lookup_delete_ne, lookup_insert_ne|].
      done.
    + destruct (Huser (<[c := kv :: rest]> A) (<[c := room ∖ {[u]}]> R))
        as (m' & -> & HA & HR & Hu & Hu').
      exists m'. split; [done|]. rewrite HA, HR.
      rewrite !lookup_insert_eq. split; [done|].
      split; [intros c' ?; by rewrite lookup_insert_ne|].
      split; [done|].
      split; [intros c' ?; by rewrite lookup_insert_ne|].
      done.
  - cbn [active_connections chat_rooms user_rooms].
    destruct (Huser A R) as (m' & -> & HA & HR & Hu & Hu').
    exists m'. split; [done|]. rewrite HA, HR, Hc. done.
Qed.


Lemma consistent_dom m :
  consistent m →
  ∀ c, is_Some (active_connections m !! c) → is_Some (chat_rooms m !! c).
Proof.
  intros (H1 & _) c [conns Hc]. destruct (H1 c conns Hc) as (_ & _ & ->).
  by eexists.
Qed.

Lemma connect_keeps ws c u m :
  consistent m →
  ∃ m',
    connect ws c u m = (None, m')
    ∧ consistent m'
    ∧ users_of m' c
      = (dict_set u ws (default [] (active_connections m !! c))).*1
    ∧ rooms_of m' u = {[c]} ∪ rooms_of m u
    ∧ (∀ c', c' ≠ c → users_of m' c' = users_of m c')
    ∧ (∀ u', u' ≠ u → rooms_of m' u' = rooms_of m u').
Proof.
  intros Hm. pose proof (consistent_dom m Hm) as Hdom.
  destruct Hm as (H1 & H2 & H3 & H4).
  destruct (connect_lookup ws c u m Hdom)
    as (m' & Hrun & HAc & HAo & HRc & HRo & HUu & HUo).
  set (conns0 := default [] (active_connections m !! c)) in *.
  assert (Hnodup : NoDup conns0.*1).
  { subst conns0. destruct (active_connections m !! c) as [conns|] eqn:Hc.
    - by destruct (H1 c conns Hc) as (_ & ? & _).
    - constructor. }
  assert (Hroom : match active_connections m !! c with
                  | Some _ => default ∅ (chat_rooms m !! c)
                  | None => ∅
                  end = list_to_set conns0.*1).
  { subst conns0. destruct (active_connections m !! c) as [conns|] eqn:Hc.
    - by destruct (H1 c conns Hc) as (_ & _ & ->).
    - done. }
  assert (Husers : users_of m' c = (dict_set u ws conns0).*1)
    by (unfold users_of; by rewrite HAc).
  assert (Hrooms : rooms_of m' u = {[c]} ∪ rooms_of m u)
    by (unfold rooms_of at 1; by rewrite HUu).
  assert (Huo : ∀ c', c' ≠ c → users_of m' c' = users_of m c')
    by (intros c' ?; unfold users_of; by rewrite HAo).
  assert (Hro : ∀ u', u' ≠ u → rooms_of m' u' = rooms_of m u')
    by (intros u' ?; unfold rooms_of; by rewrite HUo).
  exists m'. split; [done|]. split; [|done].
  split; [|split; [|split]].
  - intros c' conns' Hc'. destruct (decide (c' = c)) as [->|Hne].
    + rewrite HAc in Hc'. injection Hc' as <-.
      split; [apply dict_set_nonempty|]. split; [by apply dict_set_NoDup|].
      rewrite HRc, Hroom. f_equal. apply set_eq. intros x.
      rewrite elem_of_union, elem_of_singleton, !elem_of_list_to_set,
        dict_set_elem. tauto.
    + rewrite HAo in Hc' by done. rewrite HRo by done. by apply H1.
  - intros c' Hc'. destruct (decide (c' = c)) as [->|Hne].
    + rewrite HAc. by eexists.
    + rewrite HAo by done. apply H2. by rewrite <- HRo.
  - intros u' c'.
    destruct (decide (u' = u)) as [->|Hu], (decide (c' = c)) as [->|Hc].
    + rewrite Hrooms, Husers, dict_set_elem, elem_of_union, elem_of_singleton.
      tauto.
    + rewrite Hrooms, Huo by done. rewrite <- H3.
      rewrite elem_of_union, elem_of_singleton. tauto.
    + rewrite Hro, Husers by done. rewrite dict_set_elem, H3.
      unfold users_of. fold conns0. tauto.
    + rewrite Hro, Huo by done. apply H3.
  - intros u'. destruct (decide (u' = u)) as [->|Hu].
    + rewrite HUu. intros [= Hempty].
      assert (c ∈ ({[c]} ∪ rooms_of m u : gset string)) as Hin
        by (apply elem_of_union_l; by apply elem_of_singleton).
      rewrite Hempty in Hin. by apply elem_of_empty in Hin.
    + rewrite HUo by done. apply H4.
Qed.

Lemma disconnect_keeps c u m :
  consistent m →
  ∃ m',
    disconnect c u m = (None, m')
    ∧ consistent m'
    ∧ users_of m' c = (dict_pop u (default [] (active_connections m !! c))).*1
    ∧ rooms_of m' u = rooms_of m u ∖ {[c]}
    ∧ (∀ c', c' ≠ c → users_of m' c' = users_of m c')
    ∧ (∀ u', u' ≠ u → rooms_of m' u' = rooms_of m u').
Proof.
  intros Hm. pose proof (consistent_dom m Hm) as Hdom.
  destruct Hm as (H1 & H2 & H3 & H4).
  destruct (disconnect_lookup c u m Hdom)
    as (m' & Hrun & HAc & HAo & HRc & HRo & HUu & HUo).
  assert (Husers : users_of m' c
                   = (dict_pop u (default [] (active_connections m !! c))).*1).
  { unfold users_of. rewrite HAc.
    destruct (active_connections m !! c) as [conns|]; [|done].
    cbn [default from_option id]. by destruct (dict_pop u conns). }
  assert (Hrooms : rooms_of m' u = rooms_of m u ∖ {[c]}).
  { unfold rooms_of. rewrite HUu.
    destruct (user_rooms m !! u) as [rooms|]; cbn [default from_option id].
    - destruct (decide (rooms ∖ {[c]} = ∅)) as [->|]; done.
    - apply set_eq. intros x. rewrite elem_of_difference.
      split; [by intros ?%elem_of_empty | by intros [?%elem_of_empty _]]. }
  assert (Huo : ∀ c', c' ≠ c → users_of m' c' = users_of m c')
    by (intros c' ?; unfold users_of; by rewrite HAo).
  assert (Hro : ∀ u', u' ≠ u → rooms_of m' u' = rooms_of m u')
    by (intros u' ?; unfold rooms_of; by rewrite HUo).
  exists m'. split; [done|]. split; [|done].
  split; [|split; [|split]].
  - intros c' conns' Hc'. destruct (decide (c' = c)) as [->|Hne].
    + rewrite HAc in Hc'. rewrite HRc.
      destruct (active_connections m !! c) as [conns|] eqn:Hc; [|done].
      destruct (H1 c conns Hc) as (_ & Hnodup & ->).
      cbn [default from_option id].
      pose proof (dict_pop_NoDup u conns Hnodup) as Hnodup'.
      pose proof (dict_pop_elem u conns) as Helem.
      destruct (dict_pop u conns) as [|kv rest]; [done|].
      injection Hc' as <-. split; [done|]. split; [done|].
      f_equal. apply set_eq. intros x.
      rewrite elem_of_difference, elem_of_singleton, !elem_of_list_to_set,
        Helem. tauto.
    + rewrite HAo in Hc' by done. rewrite HRo by done. by apply H1.
  - intros c' Hc'. destruct (decide (c' = c)) as [->|Hne].
    + rewrite HAc. rewrite HRc in Hc'.
      destruct (active_connections m !! c) as [conns|] eqn:Hc.
      * destruct (dict_pop u conns); [by destruct Hc' | by eexists].
      * apply H2 in Hc'. rewrite Hc in Hc'. by destruct Hc'.
    + rewrite HAo by done. apply H2. by rewrite <- HRo.
  - intros u' c'.
    destruct (decide (u' = u)) as [->|Hu], (decide (c' = c)) as [->|Hc].
    + rewrite Hrooms, Husers, dict_pop_elem, elem_of_difference,
        elem_of_singleton. tauto.
    + rewrite Hrooms, Huo by done. rewrite <- H3.
      rewrite elem_of_difference, elem_of_singleton. tauto.
    + rewrite Hro, Husers by done. rewrite dict_pop_elem, H3.
      unfold users_of. tauto.
    + rewrite Hro, Huo by done. apply H3.
  - intros u'. destruct (decide (u' = u)) as [->|Hu].
    + rewrite HUu. destruct (user_rooms m !! u) as [rooms|]; [|done].
      destruct (decide (rooms ∖ {[c]} = ∅)); [done|]. by intros [= ?].
    + rewrite HUo by done. apply H4.
Qed.


Lemma t_eq (m1 m2 : t) :
  (∀ c, active_connections m1 !! c = active_connections m2 !! c) →
  (∀ c, chat_rooms m1 !! c = chat_rooms m2 !! c) →
  (∀ u, user_rooms m1 !! u = user_rooms m2 !! u) →
  m1 = m2.
Proof.
  destruct m1, m2. cbn. intros ?%map_eq ?%map_eq ?%map_eq. by subst.
Qed.

Lemma difference_fresh `{Countable K} (X : gset K) (x : K) :
  x ∉ X → X ∖ {[x]} = X.
Proof.
  intros Hx. apply set_eq. intros y.
  rewrite elem_of_difference, elem_of_singleton.
  split; [tauto|]. intros Hy. split; [done|]. by intros ->.
Qed.

Lemma union_difference_fresh `{Countable K} (X : gset K) (x : K) :
  x ∉ X → ({[x]} ∪ X) ∖ {[x]} = X.
Proof.
  intros Hx. apply set_eq. intros y.
  rewrite elem_of_difference, elem_of_union, elem_of_singleton.
  split; [tauto|]. intros Hy. split; [by right|]. by intros ->.
Qed.

Lemma consistent_init : consistent init.
Proof.
  unfold consistent, init, users_of, rooms_of.
  cbn [active_connections chat_rooms user_rooms].
  split; [intros c conns; by rewrite lookup_empty|].
  split; [intros c [x Hx]; by rewrite lookup_empty in Hx|].
  split; [|intros u; by rewrite lookup_empty].
  intros u c. rewrite !lookup_empty. cbn.
  split; [by intros ?%elem_of_empty | by intros ?%elem_of_nil].
Qed.

(** X29.  The registry of [chat_manager.py] keeps its three dictionaries
    in step.  They are consistent at the start; from a consistent state
    [connect] and [disconnect] return without a [KeyError] and leave a
    consistent state, in which the user is, respectively is not,
    connected to the chat and the chat is, respectively is not, among
    the rooms of the user. *)
Theorem chat_manager_consistent :
  consistent init
  ∧ (∀ ws c u m,
       consistent m →
       ∃ m',
         connect ws c u m = (None, m')
         ∧ consistent m'
         ∧ u ∈ users_of m' c
         ∧ c ∈ rooms_of m' u)
  ∧ (∀ c u m,
       consistent m →
       ∃ m',
         disconnect c u m = (None, m')
         ∧ consistent m'
         ∧ (u ∉ users_of m' c)
         ∧ (c ∉ rooms_of m' u)).
Proof.
  split; [|split].
  - apply consistent_init.
  - intros ws c u m Hm.
    destruct (connect_keeps ws c u m Hm)
      as (m' & Hrun & Hm' & Husers & Hrooms & _).
    exists m'. split; [done|]. split; [done|]. split.
    + rewrite Husers. apply dict_set_elem. by left.
    + rewrite Hrooms. apply elem_of_union_l. by apply elem_of_singleton.
  - intros c u m Hm.
    destruct (disconnect_keeps c u m Hm)
      as (m' & Hrun & Hm' & Husers & Hrooms & _).
    exists m'. split; [done|]. split; [done|]. split.
    + rewrite Husers. intros [? _]%dict_pop_elem. done.
    + rewrite Hrooms. intros [_ Hc]%elem_of_difference.
      apply Hc. by apply elem_of_singleton.
Qed.

(** User 7 connects to a chat of the fresh registry and user 8 to the
    same chat; then user 7 disconnects. *)
Lemma chat_manager_consistent_witness :
  ∃ m1 m2 m3,
    connect (Registry.Build_WebSocket true []) "c1" 7 init = (None, m1)
    ∧ connect (Registry.Build_WebSocket true []) "c1" 8 m1 = (None, m2)
    ∧ disconnect "c1" 7 m2 = (None, m3)
    ∧ consistent m3
    ∧ (7%Z ∉ users_of m3 "c1").
Proof.
  destruct chat_manager_consistent as (Hinit & Hconnect & Hdisconnect).
  destruct (Hconnect (Registry.Build_WebSocket true []) "c1" 7%Z init Hinit)
    as (m1 & Hrun1 & Hm1 & _).
  destruct (Hconnect (Registry.Build_WebSocket true []) "c1" 8%Z m1 Hm1)
    as (m2 & Hrun2 & Hm2 & _).
  destruct (Hdisconnect "c1" 7%Z m2 Hm2) as (m3 & Hrun3 & Hm3 & Hout & _).
  by exists m1, m2, m3.
Defined.

(** X30.  In a consistent state, [disconnect] of a user who has no
    connection in the chat changes nothing, and [disconnect] after the
    [connect] of such a user gives back the state as it was: the entries
    that [connect] created for a new chat or a new user are deleted
    again. *)
Theorem connect_disconnect_round_trip ws c u m :
  consistent m →
  u ∉ users_of m c →
  disconnect c u m = (None, m)
  ∧ ∃ m1, connect ws c u m = (None, m1) ∧ disconnect c u m1 = (None, m).
Proof.
  intros Hm Hout.
  assert (Hnoop : ∀ m0, consistent m0 → u ∉ users_of m0 c →
            disconnect c u m0 = (None, m0)).
  { clear m Hm Hout. intros m Hm Hout.
    pose proof (consistent_dom m Hm) as Hdom.
    destruct Hm as (H1 & H2 & H3 & H4).
    destruct (disconnect_lookup c u m Hdom)
      as (m' & Hrun & HAc & HAo & HRc & HRo & HUu & HUo).
    rewrite Hrun. f_equal. apply t_eq.
    - intros c'. destruct (decide (c' = c)) as [->|Hne]; [|by apply HAo].
      rewrite HAc. unfold users_of in Hout.
      destruct (active_connections m !! c) as [conns|] eqn:Hc; [|done].
      cbn [default from_option id] in Hout.
      rewrite (dict_pop_fresh _ _ Hout).
      destruct (H1 c conns Hc) as (Hne & _). by destruct conns.
    - intros c'. destruct (decide (c' = c)) as [->|Hne]; [|by apply HRo].
      rewrite HRc. unfold users_of in Hout.
      destruct (active_connections m !! c) as [conns|] eqn:Hc; [|done].
      cbn [default from_option id] in Hout.
      rewrite (dict_pop_fresh _ _ Hout).
      destruct (H1 c conns Hc) as (Hne & _ & ->).
      cbn [default from_option id].
      rewrite difference_fresh; [by destruct conns|].
      by rewrite elem_of_list_to_set.
    - intros u'. destruct (decide (u' = u)) as [->|Hne]; [|by apply HUo].
      rewrite HUu. pose proof (H3 u c) as Hrel. unfold rooms_of in Hrel.
      destruct (user_rooms m !! u) as [rooms|] eqn:Hu; [|done].
      cbn [default from_option id] in Hrel.
      rewrite difference_fresh by (by rewrite Hrel).
      destruct (decide (rooms = ∅)) as [->|]; [|done].
      by destruct (H4 u). }
  split; [by apply Hnoop|].
  pose proof (consistent_dom m Hm) as Hdom.
  destruct (connect_keeps ws c u m Hm)
    as (m1 & Hrun1 & Hm1 & _).
  destruct (connect_lookup ws c u m Hdom)
    as (m1' & Hrun1' & HAc & HAo & HRc & HRo & HUu & HUo).
  assert (m1' = m1) as -> by congruence.
  exists m1. split; [done|].
  destruct (disconnect_lookup c u m1 (consistent_dom m1 Hm1))
    as (m2 & Hrun2 & HAc2 & HAo2 & HRc2 & HRo2 & HUu2 & HUo2).
  rewrite Hrun2. f_equal. destruct Hm as (H1 & H2 & H3 & H4).
  unfold users_of in Hout. apply t_eq.
  - intros c'. destruct (decide (c' = c)) as [->|Hne].
    + rewrite HAc2, HAc, (dict_pop_set _ _ _ Hout).
      destruct (active_connections m !! c) as [conns|] eqn:Hc.
      * destruct (H1 c conns Hc) as (Hne & _).
        cbn [default from_option id]. by destruct conns.
      * done.
    + by rewrite HAo2, HAo.
  - intros c'. destruct (decide (c' = c)) as [->|Hne].
    + rewrite HRc2, HAc, (dict_pop_set _ _ _ Hout), HRc.
      destruct (active_connections m !! c) as [conns|] eqn:Hc.
      * destruct (H1 c conns Hc) as (Hne & _ & Hroom).
        cbn [default from_option id] in *. rewrite Hroom.
        cbn [default from_option id].
        rewrite union_difference_fresh by (by rewrite elem_of_list_to_set).
        by destruct conns.
      * cbn [default from_option id].
        destruct (chat_rooms m !! c) as [room|] eqn:Hroom; [|done].
        destruct (H2 c) as [? ?]; [by eexists|congruence].
    + by rewrite HRo2, HRo.
  - intros u'. destruct (decide (u' = u)) as [->|Hne].
    + rewrite HUu2, HUu.
      pose proof (H3 u c) as Hrel. unfold users_of in Hrel.
      rewrite union_difference_fresh by (by rewrite Hrel).
      unfold rooms_of.
      destruct (user_rooms m !! u) as [rooms|] eqn:Hu;
        cbn [default from_option id].
      * destruct (decide (rooms = ∅)) as [->|]; [|done]. by destruct (H4 u).
      * by rewrite decide_True.
    + by rewrite HUo2, HUo.
Qed.

(** User 7 and the chat ["c1"] on the fresh registry. *)
Lemma connect_disconnect_round_trip_witness :
  disconnect "c1" 7 init = (None, init)
  ∧ ∃ m1,
      connect (Registry.Build_WebSocket true []) "c1" 7 init = (None, m1)
      ∧ disconnect "c1" 7 m1 = (None, init).
Proof.
  apply (connect_disconnect_round_trip (Registry.Build_WebSocket true [])
           "c1" 7%Z init consistent_init).
  unfold users_of. cbn. apply not_elem_of_nil.
Defined.

End ChatManagerFacts.
